(** * Weather dashboard: the API server's handlers and the client's
      derived state, embedded and verified.

    The server (server/server.js) is an Express application; the
    client (client/src/App.js) is one React component.  Embedded are
    the handlers of GET /api/geocode, GET /api/forecast,
    GET /api/searchWeather, POST /api/favorites and
    DELETE /api/favorites/:id, and of the client the transposition of
    the daily forecast, the height of the precipitation bar and the
    state update of [saveFavorite].

    A handler is a program of a small state-and-exception monad over a
    world that holds the favorites collection and the log of the
    requests sent to the two upstream services.  JavaScript values are
    a tagged union, numbers are IEEE 754 binary64 floats, strings are
    sequences of UTF-16 code units.  What the libraries do and the
    source does not say is a parameter of the handlers: the answers of
    the upstream services, mongoose's cast of a route parameter to an
    identifier, and the printing of a number. *)

From Stdlib Require Import ZArith NArith List Bool Lia String Ascii Floats.
From Stdlib Require Import DecimalString Sorted Permutation.
Import ListNotations.

Set Implicit Arguments.
Set Warnings "-register-all,-inexact-float".

(** ** Strings *)

(** A JavaScript string is a sequence of UTF-16 code units. *)
Definition jsstring := list N.

(** The source's string literals are ASCII. *)
Definition str (s : string) : jsstring :=
  map N_of_ascii (list_ascii_of_string s).

Definition jsstring_eqb (a b : jsstring) : bool :=
  if list_eq_dec N.eq_dec a b then true else false.

(** WhiteSpace and LineTerminator code points of ECMAScript: what
    [String.prototype.trim] strips and what [Number] skips around a
    numeric literal. *)
Definition is_js_space (c : N) : bool :=
  ((9 <=? c) && (c <=? 13) || (c =? 32) || (c =? 160) || (c =? 5760)
   || (8192 <=? c) && (c <=? 8202) || (c =? 8232) || (c =? 8233)
   || (c =? 8239) || (c =? 8287) || (c =? 12288) || (c =? 65279))%N.

Fixpoint trim_start (s : jsstring) : jsstring :=
  match s with
  | c :: s' => if is_js_space c then trim_start s' else s
  | [] => []
  end.

Definition trim_end (s : jsstring) : jsstring :=
  rev (trim_start (rev s)).

(** [s.trim()] *)
Definition trim (s : jsstring) : jsstring :=
  trim_end (trim_start s).

(** ** Numbers *)

Definition number := float.
Bind Scope float_scope with number.

Definition isNaN (x : number) : bool := PrimFloat.is_nan x.
Arguments isNaN x%_float.

(** The double nearest to [m * 10^e] (ties to even), for [m > 0].  The
    quotient by a power of ten is taken with 80 extra binary digits and
    a sticky last bit, so the one rounding of [binary_normalize] is the
    correct one.  Literals far outside the range of doubles are cut
    short before any power is computed. *)
Definition decimal_to_SF (neg : bool) (m : positive) (e : Z) : spec_float :=
  let signed := fun z : Z => if neg then (- z)%Z else z in
  let digits := (Z.log2 (Zpos m) / 3 + 1)%Z in
  if (400 <? Z.log2 (Zpos m) / 4 + e)%Z then S754_infinity neg
  else if (digits + e <? -400)%Z then S754_zero neg
  else if (0 <=? e)%Z then
    binary_normalize prec emax (signed (Zpos m * 10 ^ e)%Z) 0 neg
  else
    let d := (10 ^ (- e))%Z in
    let s := (Z.log2 d + 80)%Z in
    let n := (Zpos m * 2 ^ s)%Z in
    let q := (n / d)%Z in
    let sticky := if (n mod d =? 0)%Z then 0%Z else 1%Z in
    binary_normalize prec emax (signed (2 * q + sticky)%Z) (- s - 1) neg.

Definition decimal_to_number (neg : bool) (m : Z) (e : Z) : number :=
  match m with
  | Zpos p => SF2Prim (decimal_to_SF neg p e)
  | _ => if neg then neg_zero else zero
  end.

(** Value of a digit in a radix up to 16. *)
Definition digit_value (radix : Z) (c : N) : option Z :=
  let v :=
    if ((48 <=? c) && (c <=? 57))%N then Some (Z.of_N c - 48)%Z
    else if ((97 <=? c) && (c <=? 102))%N then Some (Z.of_N c - 87)%Z
    else if ((65 <=? c) && (c <=? 70))%N then Some (Z.of_N c - 55)%Z
    else None in
  match v with
  | Some d => if (d <? radix)%Z then Some d else None
  | None => None
  end.

(** Reads the longest prefix of digits: its value, the count of digits
    read, and the rest of the string. *)
Fixpoint read_digits (radix : Z) (s : jsstring) (acc : Z) (n : Z)
  : Z * Z * jsstring :=
  match s with
  | c :: s' =>
      match digit_value radix c with
      | Some d => read_digits radix s' (acc * radix + d)%Z (n + 1)%Z
      | None => (acc, n, s)
      end
  | [] => (acc, n, [])
  end.

(** ExponentPart, optional: [e] or [E], an optional sign, one digit at
    least.  [None] when what follows is not an exponent part that ends
    the string. *)
Definition read_exponent (s : jsstring) : option Z :=
  match s with
  | [] => Some 0%Z
  | c :: s' =>
      if ((c =? 101) || (c =? 69))%N then
        let '(neg, s'') :=
          match s' with
          | 43%N :: t => (false, t)
          | 45%N :: t => (true, t)
          | _ => (false, s')
          end in
        match read_digits 10 s'' 0 0 with
        | (v, n, []) =>
            if (n =? 0)%Z then None else Some (if neg then (- v)%Z else v)
        | _ => None
        end
      else None
  end.

(** StrUnsignedDecimalLiteral other than [Infinity]. *)
Definition read_unsigned_decimal (neg : bool) (s : jsstring) : number :=
  let '(ip, ni, rest) := read_digits 10 s 0 0 in
  let '(m, nf, rest') :=
    match rest with
    | 46%N :: t =>
        let '(m, nf, r) := read_digits 10 t ip 0 in (m, nf, r)
    | _ => (ip, 0%Z, rest)
    end in
  let has_dot := match rest with 46%N :: _ => true | _ => false end in
  if ((ni =? 0) && (nf =? 0))%Z then nan
  else if (negb has_dot) && (ni =? 0)%Z then nan
  else
    match read_exponent rest' with
    | Some e => decimal_to_number neg m (e - nf)
    | None => nan
    end.

Definition read_radix_literal (radix : Z) (s : jsstring) : number :=
  match read_digits radix s 0 0 with
  | (v, n, []) =>
      if (n =? 0)%Z then nan else decimal_to_number false v 0
  | _ => nan
  end.

(** StringToNumber on a string already stripped of white space. *)
Definition read_numeric_literal (s : jsstring) : number :=
  match s with
  | [] => zero
  | 48%N :: p :: t =>
      if ((p =? 120) || (p =? 88))%N then read_radix_literal 16 t
      else if ((p =? 111) || (p =? 79))%N then read_radix_literal 8 t
      else if ((p =? 98) || (p =? 66))%N then read_radix_literal 2 t
      else read_unsigned_decimal false s
  | 43%N :: t =>
      if jsstring_eqb t (str "Infinity") then infinity
      else read_unsigned_decimal false t
  | 45%N :: t =>
      if jsstring_eqb t (str "Infinity") then neg_infinity
      else read_unsigned_decimal true t
  | _ =>
      if jsstring_eqb s (str "Infinity") then infinity
      else read_unsigned_decimal false s
  end.

(** The abstract operation StringToNumber. *)
Definition StringToNumber (s : jsstring) : number :=
  read_numeric_literal (trim s).

(** ** Values *)

(** The JavaScript values this program handles: what [JSON.parse] and
    the query-string parser produce, and [undefined] for what is
    absent.  An object is its list of own properties. *)
Inductive value : Type :=
| VUndefined
| VNull
| VBool (b : bool)
| VNum (x : number)
| VStr (s : jsstring)
| VArr (items : list value)
| VObj (fields : list (jsstring * value)).
Arguments VNum x%_float.

Fixpoint lookup (k : jsstring) (fields : list (jsstring * value))
  : option value :=
  match fields with
  | (k', v) :: rest => if jsstring_eqb k k' then Some v else lookup k rest
  | [] => None
  end.

Definition has_own (k : jsstring) (fields : list (jsstring * value)) : bool :=
  match lookup k fields with Some _ => true | None => false end.

Definition number_of_nat (n : nat) : number :=
  PrimFloat.of_uint63 (Uint63.of_Z (Z.of_nat n)).

(** [!!v] *)
Definition truthy (v : value) : bool :=
  match v with
  | VUndefined | VNull => false
  | VBool b => b
  | VNum x => negb (isNaN x || (x =? 0)%float)
  | VStr s => match s with [] => false | _ => true end
  | VArr _ | VObj _ => true
  end.

(** [typeof v === "number"] *)
Definition is_number (v : value) : bool :=
  match v with VNum _ => true | _ => false end.

(** [a || b] *)
Definition js_or (a b : value) : value := if truthy a then a else b.

(** Whether converting the value to a string throws: an object parsed
    from JSON whose own, hence not callable, [toString] hides the
    inherited one has no way to a primitive; an array joins the strings
    of its items. *)
Fixpoint to_string_throws (v : value) : bool :=
  match v with
  | VObj fields => has_own (str "toString") fields
  | VArr items => existsb to_string_throws items
  | _ => false
  end.

(** [Number(v)], [+v]: the abstract operation ToNumber; [None] where it
    throws a TypeError.  An array converts through the string that joins
    its items with commas, so one of two items or more is [NaN]; for a
    single item the string is the item's own, and a number printed and
    read back is itself, but for [-0], which prints as [0]. *)
Fixpoint ToNumber (v : value) : option number :=
  match v with
  | VUndefined => Some nan
  | VNull => Some zero
  | VBool b => Some (if b then one else zero)
  | VNum x => Some x
  | VStr s => Some (StringToNumber s)
  | VObj fields =>
      if has_own (str "toString") fields then None else Some nan
  | VArr items =>
      if existsb to_string_throws items then None
      else
        match items with
        | [] => Some zero
        | [item] =>
            match item with
            | VUndefined | VNull => Some zero
            | VBool _ => Some nan
            | VNum x => Some (if (x =? 0)%float then zero else x)
            | VStr s => Some (StringToNumber s)
            | VArr _ => ToNumber item
            | VObj _ => Some nan
            end
        | _ => Some nan
        end
  end.

Definition index_key (i : nat) : jsstring :=
  str (NilZero.string_of_uint (Nat.to_uint i)).

(** [v.k] for a property name [k] that is not an array index; [None]
    where it throws a TypeError, on [undefined] and [null]. *)
Definition get_prop (v : value) (k : jsstring) : option value :=
  match v with
  | VUndefined | VNull => None
  | VObj fields =>
      Some (match lookup k fields with Some x => x | None => VUndefined end)
  | VArr items =>
      Some (if jsstring_eqb k (str "length")
            then VNum (number_of_nat (List.length items)) else VUndefined)
  | VStr s =>
      Some (if jsstring_eqb k (str "length")
            then VNum (number_of_nat (List.length s)) else VUndefined)
  | VBool _ | VNum _ => Some VUndefined
  end.

(** [v[i]] *)
Definition get_index (v : value) (i : nat) : option value :=
  match v with
  | VUndefined | VNull => None
  | VArr items =>
      Some (match nth_error items i with Some x => x | None => VUndefined end)
  | VStr s =>
      Some (match nth_error s i with Some c => VStr [c] | None => VUndefined end)
  | VObj fields =>
      Some (match lookup (index_key i) fields with
            | Some x => x | None => VUndefined end)
  | VBool _ | VNum _ => Some VUndefined
  end.

(** [v?.k] *)
Definition get_prop_opt (v : value) (k : jsstring) : value :=
  match get_prop v k with Some x => x | None => VUndefined end.

(** [v?.[i]] *)
Definition get_index_opt (v : value) (i : nat) : value :=
  match get_index v i with Some x => x | None => VUndefined end.

(** ** The world of the server *)

(** A document of the [Favorite] model: the schema's three paths, the
    identifier and the two timestamps of [{ timestamps: true }]. *)
Record Favorite : Type := {
  fav_id : N;
  fav_name : jsstring;
  fav_lat : number;
  fav_lon : number;
  fav_createdAt : N;
  fav_updatedAt : N
}.

(** One [axios.get(url, { params, headers })]. *)
Record UpstreamCall : Type := {
  call_url : jsstring;
  call_params : list (jsstring * value);
  call_headers : list (jsstring * jsstring)
}.

Record World : Type := {
  favorites : list Favorite;      (* the collection, in insertion order *)
  next_oid : N;                   (* the next generated identifier *)
  now : N;                        (* the clock that stamps documents *)
  sent : list UpstreamCall        (* upstream requests, oldest first *)
}.

Inductive outcome (A : Type) : Type :=
| Ok (a : A)
| Throw.
Arguments Throw {A}.

(** A computation that reads and updates the world and either returns
    or throws: the body of an [async] handler, every [await] done. *)
Definition M (A : Type) : Type := World -> outcome A * World.

Definition ret {A} (a : A) : M A := fun w => (Ok a, w).

Definition throw {A} : M A := fun w => (Throw, w).

Definition bind {A B} (c : M A) (k : A -> M B) : M B :=
  fun w =>
    match c w with
    | (Ok a, w') => k a w'
    | (Throw, w') => (Throw, w')
    end.

(** [try { body } catch { handler }] *)
Definition try_catch {A} (body handler : M A) : M A :=
  fun w =>
    match body w with
    | (Ok a, w') => (Ok a, w')
    | (Throw, w') => handler w'
    end.

(** A step that throws a TypeError where it has no value. *)
Definition must {A} (o : option A) : M A :=
  match o with Some a => ret a | None => throw end.

Declare Scope handler_scope.
Delimit Scope handler_scope with handler.
Notation "x <- c ;; k" := (bind c (fun x => k))
  (at level 61, c at next level, right associativity) : handler_scope.
Notation "c ;;; k" := (bind c (fun _ => k))
  (at level 61, right associativity) : handler_scope.
Open Scope handler_scope.

Fixpoint mapM {A B} (f : A -> M B) (l : list A) : M (list B) :=
  match l with
  | [] => ret []
  | a :: l' => b <- f a ;; bs <- mapM f l' ;; ret (b :: bs)
  end.

(** What a handler sends: a status and either a JSON value or
    documents of the model, which serialise with all their paths. *)
Inductive body : Type :=
| BJson (v : value)
| BDoc (f : Favorite).

Record Response : Type := {
  status : N;
  payload : body
}.

(** [res.json(v)] *)
Definition res_json (v : value) : Response :=
  {| status := 200; payload := BJson v |}.

(** [res.status(code).json(v)] *)
Definition res_status_json (code : N) (v : value) : Response :=
  {| status := code; payload := BJson v |}.
Arguments res_status_json code%_N v.

(** [{ error: msg }] *)
Definition error_object (msg : string) : value :=
  VObj [(str "error", VStr (str msg))].

Record Request : Type := {
  req_query : list (jsstring * value);   (* req.query *)
  req_body : value;                      (* req.body *)
  req_params_id : jsstring               (* req.params.id *)
}.

(** [req.query.k] *)
Definition query_param (req : Request) (k : string) : value :=
  match lookup (str k) (req_query req) with
  | Some v => v
  | None => VUndefined
  end.

(** [v.trim()]: a TypeError on what has no such method. *)
Definition call_trim (v : value) : M jsstring :=
  match v with
  | VStr s => ret (trim s)
  | _ => throw
  end.

(** [v.map(f)]: a TypeError on what is not an array. *)
Definition call_map (v : value) (f : value -> M value) : M value :=
  match v with
  | VArr items => out <- mapM f items ;; ret (VArr out)
  | _ => throw
  end.

(** ** The server: server/server.js *)

Module Server.

Section Handlers.

(** The two upstream services: what [axios.get] resolves to for a
    request ([data], parsed), or [None] where its promise rejects
    (network failure, a status outside 2xx). *)
Variable upstream : UpstreamCall -> option value.

(** Number::toString of ECMAScript, radix ten: the string mongoose
    casts a number to under a [String] path. *)
Variable Number_toString : number -> jsstring.

(** mongoose's cast of a route parameter to an ObjectId; [None] where
    it fails with a CastError. *)
Variable castObjectId : jsstring -> option N.

(** [const UA = ...] *)
Definition UA : list (jsstring * jsstring) :=
  [(str "User-Agent", str "MERN-Weather-Dashboard/1.0 (edu-demo)")].

Definition nominatim : jsstring :=
  str "https://nominatim.openstreetmap.org/search".

Definition open_meteo : jsstring :=
  str "https://api.open-meteo.com/v1/forecast".

(** [await axios.get(url, { params, headers })], then [.data]: the
    request is logged whether or not it succeeds. *)
Definition axios_get (url : jsstring) (params : list (jsstring * value))
  (headers : list (jsstring * jsstring)) : M value :=
  fun w =>
    let call := {| call_url := url; call_params := params;
                   call_headers := headers |} in
    let w' := {| favorites := favorites w; next_oid := next_oid w;
                 now := now w; sent := sent w ++ [call] |} in
    match upstream call with
    | Some data => (Ok data, w')
    | None => (Throw, w')
    end.

(** *** The collection *)

(** Equality of two numbers in a MongoDB query filter: by value, with
    [NaN] equal to itself. *)
Definition mongo_num_eq (a b : number) : bool :=
  (isNaN a && isNaN b) || (a =? b)%float.

Definition matches_coords (lat lon : number) (f : Favorite) : bool :=
  mongo_num_eq (fav_lat f) lat && mongo_num_eq (fav_lon f) lon.

(** [await Favorite.findOne({ lat, lon })] *)
Definition Favorite_findOne (lat lon : number) : M (option Favorite) :=
  fun w => (Ok (find (matches_coords lat lon) (favorites w)), w).

(** mongoose's cast of a value to a [String] path; [None] where it
    fails.  [null] and [undefined] are stored as they are and are no
    strings: the handler never passes them. *)
Definition castString (v : value) : option jsstring :=
  match v with
  | VStr s => Some s
  | VNum x => Some (Number_toString x)
  | VBool b => Some (str (if b then "true" else "false"))
  | VObj fields =>
      match lookup (str "_id") fields with
      | Some (VStr (c :: s)) => Some (c :: s)
      | _ => None
      end
  | VArr _ | VUndefined | VNull => None
  end.

(** [await Favorite.create({ name, lat, lon })] *)
Definition Favorite_create (name : value) (lat lon : number) : M Favorite :=
  fun w =>
    match castString name with
    | Some s =>
        let fav := {| fav_id := next_oid w; fav_name := s;
                      fav_lat := lat; fav_lon := lon;
                      fav_createdAt := now w; fav_updatedAt := now w |} in
        (Ok fav,
         {| favorites := favorites w ++ [fav];
            next_oid := N.succ (next_oid w);
            now := now w; sent := sent w |})
    | None => (Throw, w)
    end.

Fixpoint remove_by_id (oid : N) (l : list Favorite) : list Favorite :=
  match l with
  | f :: l' => if (fav_id f =? oid)%N then l' else f :: remove_by_id oid l'
  | [] => []
  end.

(** [Favorite.findByIdAndDelete(id)] *)
Definition Favorite_findByIdAndDelete (id : jsstring)
  : M (option Favorite) :=
  fun w =>
    match castObjectId id with
    | Some oid =>
        (Ok (find (fun f => (fav_id f =? oid)%N) (favorites w)),
         {| favorites := remove_by_id oid (favorites w);
            next_oid := next_oid w; now := now w; sent := sent w |})
    | None => (Throw, w)
    end.

(** *** GET /api/geocode *)

(** [(r) => ({ name: r.display_name, lat: +r.lat, lon: +r.lon })] *)
Definition to_place (r : value) : M value :=
  name <- must (get_prop r (str "display_name")) ;;
  rlat <- must (get_prop r (str "lat")) ;;
  lat <- must (ToNumber rlat) ;;
  rlon <- must (get_prop r (str "lon")) ;;
  lon <- must (ToNumber rlon) ;;
  ret (VObj [(str "name", name); (str "lat", VNum lat);
             (str "lon", VNum lon)]).

Definition geocode_params (q : jsstring) : list (jsstring * value) :=
  [(str "q", VStr q); (str "format", VStr (str "json"));
   (str "addressdetails", VNum 1); (str "limit", VNum 5)].

Definition geocode (req : Request) : M Response :=
  try_catch
    (q <- call_trim (js_or (query_param req "q") (VStr [])) ;;
     if negb (truthy (VStr q)) then ret (res_json (VArr []))
     else
       data <- axios_get nominatim (geocode_params q) UA ;;
       places <- call_map data to_place ;;
       ret (res_json places))
    (ret (res_status_json 500 (error_object "Geocoding failed"))).

(** *** GET /api/forecast *)

Definition current_variables : string :=
  "temperature_2m,relative_humidity_2m,apparent_temperature,wind_speed_10m,precipitation".

Definition hourly_variables : string :=
  "temperature_2m,precipitation,relative_humidity_2m,wind_speed_10m".

Definition daily_variables : string :=
  "weathercode,temperature_2m_max,temperature_2m_min,precipitation_sum,uv_index_max,wind_speed_10m_max".

Definition forecast_params (lat lon : number) (tz : value)
  : list (jsstring * value) :=
  [(str "latitude", VNum lat); (str "longitude", VNum lon);
   (str "current", VStr (str current_variables));
   (str "hourly", VStr (str hourly_variables));
   (str "daily", VStr (str daily_variables));
   (str "timezone", tz); (str "forecast_days", VNum 7)].

Definition forecast (req : Request) : M Response :=
  try_catch
    (lat <- must (ToNumber (query_param req "lat")) ;;
     lon <- must (ToNumber (query_param req "lon")) ;;
     let tz := js_or (query_param req "tz") (VStr (str "auto")) in
     if isNaN lat || isNaN lon
     then ret (res_status_json 400 (error_object "lat/lon required"))
     else
       data <- axios_get open_meteo (forecast_params lat lon tz) [] ;;
       ret (res_json data))
    (ret (res_status_json 500 (error_object "Forecast failed"))).

(** *** GET /api/searchWeather *)

Definition search_geocode_params (q : jsstring) : list (jsstring * value) :=
  [(str "q", VStr q); (str "format", VStr (str "json"));
   (str "limit", VNum 1)].

Definition search_forecast_params (lat lon : number) (tz : value)
  : list (jsstring * value) :=
  [(str "latitude", VNum lat); (str "longitude", VNum lon);
   (str "current", VStr (str current_variables));
   (str "daily", VStr (str daily_variables));
   (str "timezone", tz); (str "forecast_days", VNum 7)].

Definition searchWeather (req : Request) : M Response :=
  try_catch
    (q <- call_trim (js_or (query_param req "q") (VStr [])) ;;
     let tz := js_or (query_param req "tz") (VStr (str "auto")) in
     if negb (truthy (VStr q))
     then ret (res_status_json 400 (error_object "q required"))
     else
       g_data <- axios_get nominatim (search_geocode_params q) UA ;;
       if negb (truthy (get_prop_opt g_data (str "length")))
       then ret (res_status_json 404 (error_object "Place not found"))
       else
         first <- must (get_index g_data 0) ;;
         name <- must (get_prop first (str "display_name")) ;;
         rlat <- must (get_prop first (str "lat")) ;;
         lat <- must (ToNumber rlat) ;;
         rlon <- must (get_prop first (str "lon")) ;;
         lon <- must (ToNumber rlon) ;;
         let place := VObj [(str "name", name); (str "lat", VNum lat);
                            (str "lon", VNum lon)] in
         f_data <- axios_get open_meteo
                     (search_forecast_params lat lon tz) [] ;;
         ret (res_json (VObj [(str "place", place);
                              (str "forecast", f_data)])))
    (ret (res_status_json 500 (error_object "Search failed"))).

(** *** GET /api/favorites *)

(** [.sort({ createdAt: -1 })]: newest first.  The database fixes no
    order among documents of the same instant; here they keep the
    order of insertion. *)
Fixpoint insert_newest_first (f : Favorite) (l : list Favorite)
  : list Favorite :=
  match l with
  | g :: l' =>
      if (fav_createdAt g <=? fav_createdAt f)%N then f :: l
      else g :: insert_newest_first f l'
  | [] => [f]
  end.

Definition sort_newest_first (l : list Favorite) : list Favorite :=
  fold_right insert_newest_first [] l.

(** [await Favorite.find().sort({ createdAt: -1 }).lean()] *)
Definition Favorite_find_sorted : M (list Favorite) :=
  fun w => (Ok (sort_newest_first (favorites w)), w).

(** The handler has no [try]; what it hands to [res.json], with status
    200, is the list of documents. *)
Definition favorites_list (req : Request) : M (list Favorite) :=
  favs <- Favorite_find_sorted ;;
  ret favs.

(** *** POST /api/favorites *)

Definition favorites_create (req : Request) : M Response :=
  try_catch
    (let b := js_or (req_body req) (VObj []) in
     name <- must (get_prop b (str "name")) ;;
     lat <- must (get_prop b (str "lat")) ;;
     lon <- must (get_prop b (str "lon")) ;;
     if negb (truthy name) || negb (is_number lat) || negb (is_number lon)
     then ret (res_status_json 400 (error_object "name, lat, lon required"))
     else
       match lat, lon with
       | VNum lat, VNum lon =>
           existing <- Favorite_findOne lat lon ;;
           match existing with
           | Some doc => ret {| status := 200; payload := BDoc doc |}
           | None =>
               fav <- Favorite_create name lat lon ;;
               ret {| status := 200; payload := BDoc fav |}
           end
       | _, _ => throw   (* not reached: both are numbers here *)
       end)
    (ret (res_status_json 500 (error_object "Save failed"))).

(** The same handler as the event loop runs it: an [async] function
    gives way at each [await], and other requests are served in
    between.  [favorites_create_lookup] is the handler up to the answer
    of [await Favorite.findOne], [favorites_create_save] what it does
    from there; [favorites_create] is the two with nothing in
    between. *)
Inductive create_turn : Type :=
| Replied (r : Response)                      (* the reply is sent *)
| Saving (name : value) (lat lon : number).   (* [Favorite.create] is next *)

Definition favorites_create_lookup (req : Request) : M create_turn :=
  try_catch
    (let b := js_or (req_body req) (VObj []) in
     name <- must (get_prop b (str "name")) ;;
     lat <- must (get_prop b (str "lat")) ;;
     lon <- must (get_prop b (str "lon")) ;;
     if negb (truthy name) || negb (is_number lat) || negb (is_number lon)
     then ret (Replied (res_status_json 400
                          (error_object "name, lat, lon required")))
     else
       match lat, lon with
       | VNum lat, VNum lon =>
           existing <- Favorite_findOne lat lon ;;
           match existing with
           | Some doc => ret (Replied {| status := 200; payload := BDoc doc |})
           | None => ret (Saving name lat lon)
           end
       | _, _ => throw
       end)
    (ret (Replied (res_status_json 500 (error_object "Save failed")))).

Definition favorites_create_save (t : create_turn) : M Response :=
  match t with
  | Replied r => ret r
  | Saving name lat lon =>
      try_catch
        (fav <- Favorite_create name lat lon ;;
         ret {| status := 200; payload := BDoc fav |})
        (ret (res_status_json 500 (error_object "Save failed")))
  end.

(** *** DELETE /api/favorites/:id *)

Definition ok_true : value := VObj [(str "ok", VBool true)].

Definition favorites_delete (req : Request) : M Response :=
  (* [.catch(() => {})] *)
  try_catch (Favorite_findByIdAndDelete (req_params_id req) ;;; ret tt)
            (ret tt) ;;;
  ret (res_json ok_true).

End Handlers.

End Server.

(** ** The client: client/src/App.js *)

Module Client.

(** One record of the 7-day list. *)
Record Day : Type := {
  date : value;
  tmax : value;
  tmin : value;
  precip : value;
  uv : value;
  windmax : value
}.

(** [xs.map((t, i) => f(t, i))], the callback throwing where [f] is
    [None]; [i] counts from [start]. *)
Fixpoint mapi_from {A B} (f : A -> nat -> option B) (start : nat)
  (xs : list A) : option (list B) :=
  match xs with
  | [] => Some []
  | t :: xs' =>
      match f t start with
      | Some b =>
          match mapi_from f (S start) xs' with
          | Some bs => Some (b :: bs)
          | None => None
          end
      | None => None
      end
  end.

(** The callback of [daily]. *)
Definition day_of (d : value) (t : value) (i : nat) : option Day :=
  match get_prop d (str "temperature_2m_max") with
  | Some maxs =>
  match get_index maxs i with
  | Some tmax_i =>
  match get_prop d (str "temperature_2m_min") with
  | Some mins =>
  match get_index mins i with
  | Some tmin_i =>
  match get_prop d (str "precipitation_sum") with
  | Some sums =>
  match get_index sums i with
  | Some precip_i =>
      Some {| date := t; tmax := tmax_i; tmin := tmin_i;
              precip := precip_i;
              uv := get_index_opt (get_prop_opt d (str "uv_index_max")) i;
              windmax :=
                get_index_opt (get_prop_opt d (str "wind_speed_10m_max")) i |}
  | None => None end
  | None => None end
  | None => None end
  | None => None end
  | None => None end
  | None => None end.

(** [const daily = useMemo(...)]: the parallel arrays of
    [forecast.daily] transposed; [None] where rendering throws. *)
Definition daily (forecast : value) : option (list Day) :=
  let d := get_prop_opt forecast (str "daily") in
  if negb (truthy d) then Some []
  else
    match get_prop d (str "time") with
    | Some (VArr times) => mapi_from (day_of d) 0 times
    | _ => None
    end.

Definition is_neg_zero (x : number) : bool :=
  PrimFloat.is_zero x && PrimFloat.get_sign x.

Definition is_pos_zero (x : number) : bool :=
  PrimFloat.is_zero x && negb (PrimFloat.get_sign x).

(** [Math.min(...args)] on numbers, as ECMAScript defines it. *)
Definition Math_min (args : list number) : number :=
  if existsb isNaN args then nan
  else
    fold_left
      (fun lowest x =>
         if is_neg_zero x && is_pos_zero lowest then x
         else if (x <? lowest)%float then x
         else lowest)
      args infinity.

(** [Math.min(100, d.precip * 10)]: the number the bar's height prints,
    followed by a percent sign. *)
Definition bar_height (d : Day) : option number :=
  match ToNumber (precip d) with
  | Some p => Some (Math_min [100; p * 10])%float
  | None => None
  end.

(** [a === b]; two objects or arrays reached through parsed JSON are
    never the same object. *)
Definition strict_eq (a b : value) : bool :=
  match a, b with
  | VUndefined, VUndefined => true
  | VNull, VNull => true
  | VBool x, VBool y => Bool.eqb x y
  | VNum x, VNum y => (x =? y)%float
  | VStr x, VStr y => jsstring_eqb x y
  | _, _ => false
  end.

(** [xs.some(f)], the callback throwing where [f] is [None]. *)
Fixpoint js_some {A} (f : A -> option bool) (xs : list A) : option bool :=
  match xs with
  | [] => Some false
  | x :: xs' =>
      match f x with
      | Some true => Some true
      | Some false => js_some f xs'
      | None => None
      end
  end.

(** The state update of [saveFavorite] on the server's reply [data]:
    [if (data?._id) setFavs((p) => p.some(f => f._id === data._id) ? p : [data, ...p])];
    [None] where the updater throws. *)
Definition saveFavorite_setFavs (data : value) (p : list value)
  : option (list value) :=
  if truthy (get_prop_opt data (str "_id")) then
    match js_some
            (fun f =>
               match get_prop f (str "_id"), get_prop data (str "_id") with
               | Some fid, Some did => Some (strict_eq fid did)
               | _, _ => None
               end) p with
    | Some true => Some p
    | Some false => Some (data :: p)
    | None => None
    end
  else Some p.

(** *** The state of the component and its network effects *)

(** The seven [useState] cells. *)
Record AppState : Type := {
  query : jsstring;
  suggestions : value;
  selected : value;
  forecast : value;
  loading : bool;
  error : jsstring;
  favs : value
}.

(** The state at the first render. *)
Definition initial_state : AppState :=
  {| query := str "Kolhapur"; suggestions := VArr []; selected := VNull;
     forecast := VNull; loading := false; error := []; favs := VArr [] |}.

(** A request of the client to the API, by what its URL and body are
    built from. *)
Inductive ClientRequest : Type :=
| GetFavorites
| GetGeocode (q : jsstring)
| GetForecast (lat lon : value) (tz : jsstring)
| GetSearchWeather (q tz : jsstring)
| PostFavorite (body : value).

(** [await fetch(...)] followed by [await r.json()]: the parsed body,
    whatever the status, or a rejection (no connection, a body that is
    no JSON) with the message of its error. *)
Inductive fetched : Type :=
| Resolved (data : value)
| Rejected (message : jsstring).

Section Effects.

(** The network: what each request comes back with. *)
Variable fetch_json : ClientRequest -> fetched.

(** [Intl.DateTimeFormat().resolvedOptions().timeZone] *)
Variable timeZone : jsstring.

(** [String(v)] of a value that is no string and converts. *)
Variable ToString_other : value -> jsstring.

(** The message of the engine's TypeError raised on a value: on a
    property read of [null] or [undefined], on a conversion to a
    string of what has none. *)
Variable TypeError_message : value -> jsstring.

(** The message of the engine's URIError. *)
Variable URIError_message : jsstring.

(** [String(v)], [`${v}`]; [None] where it throws a TypeError. *)
Definition ToString (v : value) : option jsstring :=
  match v with
  | VStr s => Some s
  | _ => if to_string_throws v then None else Some (ToString_other v)
  end.

(** Whether every surrogate of the string is one of a pair: what
    [encodeURIComponent] requires, throwing a URIError otherwise. *)
Fixpoint well_formed (s : jsstring) : bool :=
  match s with
  | [] => true
  | c :: s' =>
      if ((55296 <=? c) && (c <=? 56319))%N then
        match s' with
        | d :: s'' =>
            ((56320 <=? d) && (d <=? 57343))%N && well_formed s''
        | [] => false
        end
      else if ((56320 <=? c) && (c <=? 57343))%N then false
      else well_formed s'
  end.

(** [e.message || fallback] *)
Definition message_or (message : jsstring) (fallback : string) : jsstring :=
  match message with
  | [] => str fallback
  | _ => message
  end.

(** The end of the [try] of [fetchForecast] and of [runSearch], from
    the reply on: the data of a reply that carries no error, or the
    message of what was thrown:
    [const data = await r.json(); if (data.error) throw new Error(data.error);] *)
Definition data_or_throw (r : fetched) : jsstring + value :=
  match r with
  | Rejected message => inl message
  | Resolved data =>
      match get_prop data (str "error") with
      | None => inl (TypeError_message data)
      | Some err =>
          if truthy err then
            match ToString err with
            | Some message => inl message
            | None => inl (TypeError_message err)
            end
          else inr data
      end
  end.

(** The state once the synchronous head of [fetchForecast] and of
    [runSearch] has run: [setLoading(true); setError("");] *)
Definition request_started (st : AppState) : AppState :=
  {| query := query st; suggestions := suggestions st;
     selected := selected st; forecast := forecast st;
     loading := true; error := []; favs := favs st |}.

(** The state once the [try] has ended: its last two setters or its
    [catch], and its [finally]. *)
Definition request_finished (outcome : jsstring + (value * value))
  (fallback : string) (st : AppState) : AppState :=
  match outcome with
  | inr (place, data) =>
      {| query := query st; suggestions := suggestions st;
         selected := place; forecast := data;
         loading := false; error := error st; favs := favs st |}
  | inl message =>
      {| query := query st; suggestions := suggestions st;
         selected := selected st; forecast := forecast st;
         loading := false; error := message_or message fallback;
         favs := favs st |}
  end.

(** [fetchForecast(place)], run to its end. *)
Definition fetchForecast (place : value) (st : AppState) : AppState :=
  if negb (truthy place) then st
  else
    let lat := get_prop_opt place (str "lat") in
    let lon := get_prop_opt place (str "lon") in
    request_finished
      (match ToString lat, ToString lon with
       | None, _ => inl (TypeError_message lat)
       | Some _, None => inl (TypeError_message lon)
       | Some _, Some _ =>
           if negb (well_formed timeZone) then inl URIError_message
           else
             match data_or_throw (fetch_json (GetForecast lat lon timeZone))
             with
             | inl message => inl message
             | inr data => inr (place, data)
             end
       end)
      "Failed to load forecast" (request_started st).

(** [runSearch()], run to its end. *)
Definition runSearch (st : AppState) : AppState :=
  let q := trim (query st) in
  if negb (truthy (VStr q)) then st
  else
    request_finished
      (if negb (well_formed q && well_formed timeZone)
       then inl URIError_message
       else
         match data_or_throw (fetch_json (GetSearchWeather q timeZone)) with
         | inl message => inl message
         | inr data =>
             inr (get_prop_opt data (str "place"),
                  get_prop_opt data (str "forecast"))
         end)
      "Search failed" (request_started st).

(** [setSuggestions(v)] *)
Definition setSuggestions (v : value) (st : AppState) : AppState :=
  {| query := query st; suggestions := v; selected := selected st;
     forecast := forecast st; loading := loading st;
     error := error st; favs := favs st |}.

(** [setFavs(v)] *)
Definition setFavs (v : value) (st : AppState) : AppState :=
  {| query := query st; suggestions := suggestions st;
     selected := selected st; forecast := forecast st;
     loading := loading st; error := error st; favs := v |}.

(** The callback of the suggestions timer, run to its end. *)
Definition suggest (st : AppState) : AppState :=
  if negb (truthy (VStr (trim (query st)))) then setSuggestions (VArr []) st
  else if negb (well_formed (query st)) then setSuggestions (VArr []) st
  else
    match fetch_json (GetGeocode (query st)) with
    | Resolved data => setSuggestions data st
    | Rejected _ => setSuggestions (VArr []) st
    end.

(** [saveFavorite()], run to its end; [None] where the updater of
    [setFavs] throws.  A rejected request leaves the state as it is. *)
Definition saveFavorite (st : AppState) : option AppState :=
  if negb (truthy (selected st)) then Some st
  else
    match fetch_json (PostFavorite (selected st)) with
    | Rejected _ => Some st
    | Resolved data =>
        if truthy (get_prop_opt data (str "_id")) then
          match favs st with
          | VArr p =>
              match saveFavorite_setFavs data p with
              | Some p' => Some (setFavs (VArr p') st)
              | None => None
              end
          | _ => None
          end
        else Some st
    end.

End Effects.

End Client.

(** ** What the properties speak of *)

Open Scope string_scope.
Open Scope list_scope.

(** The world after one more upstream request. *)
Definition after_call (w : World) (c : UpstreamCall) : World :=
  {| favorites := favorites w; next_oid := next_oid w; now := now w;
     sent := sent w ++ [c] |}.

(** The requests of a log that went to the forecast service. *)
Definition forecast_calls (log : list UpstreamCall) : list UpstreamCall :=
  filter (fun c => jsstring_eqb (call_url c) Server.open_meteo) log.

(** The place search of [searchWeather] for a trimmed query. *)
Definition search_geocode_call (q : jsstring) : UpstreamCall :=
  {| call_url := Server.nominatim;
     call_params := Server.search_geocode_params q;
     call_headers := Server.UA |}.

(** The place search of [geocode] for a trimmed query. *)
Definition geocode_call (q : jsstring) : UpstreamCall :=
  {| call_url := Server.nominatim;
     call_params := Server.geocode_params q;
     call_headers := Server.UA |}.

(** The request of [forecast] for a pair of coordinates. *)
Definition forecast_call (lat lon : number) (tz : value) : UpstreamCall :=
  {| call_url := Server.open_meteo;
     call_params := Server.forecast_params lat lon tz;
     call_headers := [] |}.
Arguments forecast_call (lat lon)%_float tz.

(** Whether a query parameter parses as a finite number. *)
Definition parses_as_finite (v : value) : bool :=
  match ToNumber v with
  | Some x => PrimFloat.is_finite x
  | None => false
  end.

(** [forecast] turns the request down as invalid and sends nothing. *)
Definition forecast_rejects (upstream : UpstreamCall -> option value)
  (req : Request) (w : World) : Prop :=
  Server.forecast upstream req w =
  (Ok (res_status_json 400 (error_object "lat/lon required")), w).

(** The names between the commas of a parameter of the forecast
    service. *)
Definition split_commas (s : jsstring) : list jsstring :=
  fold_right
    (fun c acc =>
       if (c =? 44)%N then [] :: acc
       else match acc with
            | h :: t => (c :: h) :: t
            | [] => [[c]]
            end)
    [[]] s.

Definition same_names (a b : list jsstring) : bool :=
  forallb (fun x => existsb (jsstring_eqb x) b) a
  && forallb (fun x => existsb (jsstring_eqb x) a) b.

(** The request asks, under [group], for exactly the variables [vars]. *)
Definition group_is (c : UpstreamCall) (group : string)
  (vars : list string) : bool :=
  match lookup (str group) (call_params c) with
  | Some (VStr s) => same_names (split_commas s) (map str vars)
  | _ => false
  end.

(** The request asks for a horizon of [days] days. *)
Definition horizon_is (c : UpstreamCall) (days : number) : bool :=
  match lookup (str "forecast_days") (call_params c) with
  | Some (VNum x) => (x =? days)%float
  | _ => false
  end.

Definition keys_are (c : UpstreamCall) (keys : list string) : bool :=
  if list_eq_dec (list_eq_dec N.eq_dec)
       (map fst (call_params c)) (map str keys)
  then true else false.

(** The current variables the specification lists: temperature,
    apparent temperature, humidity, wind speed, precipitation. *)
Definition spec_current : list string :=
  ["temperature_2m"; "apparent_temperature"; "relative_humidity_2m";
   "wind_speed_10m"; "precipitation"].

(** The daily variables the specification lists: weather code, maximum
    and minimum temperature, precipitation sum, maximum UV index,
    maximum wind speed. *)
Definition spec_daily : list string :=
  ["weathercode"; "temperature_2m_max"; "temperature_2m_min";
   "precipitation_sum"; "uv_index_max"; "wind_speed_10m_max"].

(** The hourly variables of the source: temperature, precipitation,
    humidity, wind speed. *)
Definition source_hourly : list string :=
  ["temperature_2m"; "precipitation"; "relative_humidity_2m";
   "wind_speed_10m"].

(** The request as the specification words it: the two groups, the
    horizon of seven days, and no other group. *)
Definition requests_current_and_daily_only (c : UpstreamCall) : bool :=
  group_is c "current" spec_current
  && group_is c "daily" spec_daily
  && horizon_is c 7%float
  && keys_are c ["latitude"; "longitude"; "current"; "daily"; "timezone";
                 "forecast_days"].

(** The request as the source builds it: a third group, hourly. *)
Definition requests_current_hourly_daily (c : UpstreamCall) : bool :=
  group_is c "current" spec_current
  && group_is c "hourly" source_hourly
  && group_is c "daily" spec_daily
  && horizon_is c 7%float
  && keys_are c ["latitude"; "longitude"; "current"; "hourly"; "daily";
                 "timezone"; "forecast_days"].

(** [lo <= x <= hi]; false of [NaN], and of the infinities for finite
    bounds. *)
Definition in_range (lo hi x : number) : bool :=
  ((lo <=? x) && (x <=? hi))%float.
Arguments in_range (lo hi x)%_float.

(** A Place with a latitude in [-90, 90] and a longitude in
    [-180, 180]. *)
Definition valid_place (p : value) : bool :=
  match p with
  | VObj fields =>
      match lookup (str "lat") fields, lookup (str "lon") fields with
      | Some (VNum lat), Some (VNum lon) =>
          in_range (-90) 90 lat && in_range (-180) 180 lon
      | _, _ => false
      end
  | _ => false
  end.

(** [geocode] answers with at most five Places, all valid. *)
Definition geocode_bounded (upstream : UpstreamCall -> option value)
  (req : Request) (w : World) : Prop :=
  exists places : list value,
    fst (Server.geocode upstream req w) = Ok (res_json (VArr places))
    /\ (List.length places <= 5)%nat
    /\ forallb valid_place places = true.

(** An upstream record whose [lat] and [lon] convert to numbers. *)
Definition convertible (r : value) : bool :=
  match get_prop r (str "lat"), get_prop r (str "lon") with
  | Some rlat, Some rlon =>
      match ToNumber rlat, ToNumber rlon with
      | Some _, Some _ => true
      | _, _ => false
      end
  | _, _ => false
  end.

Definition number_of (v : value) : number :=
  match ToNumber v with Some x => x | None => nan end.

(** The Place of a convertible upstream record: its display name, and
    its coordinates converted to numbers. *)
Definition place_of_record (r : value) : value :=
  VObj [(str "name", get_prop_opt r (str "display_name"));
        (str "lat", VNum (number_of (get_prop_opt r (str "lat"))));
        (str "lon", VNum (number_of (get_prop_opt r (str "lon"))))].

(** The reply that carries a document of the collection. *)
Definition record_reply (doc : Favorite) : outcome Response :=
  Ok {| status := 200; payload := BDoc doc |}.

(** [POST /api/favorites] with the body [{ name, lat, lon }]. *)
Definition create_request (name lat lon : value) : Request :=
  {| req_query := [];
     req_body := VObj [(str "name", name); (str "lat", lat);
                       (str "lon", lon)];
     req_params_id := [] |}.

(** Two creations in a row with the same coordinates return the same
    record, and the second inserts nothing. *)
Definition create_twice_same_record (Number_toString : number -> jsstring)
  (name1 name2 : jsstring) (lat lon : number) (w : World) : Prop :=
  let '(reply1, w1) :=
    Server.favorites_create Number_toString
      (create_request (VStr name1) (VNum lat) (VNum lon)) w in
  let '(reply2, w2) :=
    Server.favorites_create Number_toString
      (create_request (VStr name2) (VNum lat) (VNum lon)) w1 in
  exists doc : Favorite,
    reply1 = record_reply doc
    /\ reply2 = record_reply doc
    /\ favorites w2 = favorites w1.
Arguments create_twice_same_record Number_toString name1 name2
  (lat lon)%_float w.

(** The reply of [favorites_create] to an invalid body. *)
Definition invalid_body_reply : outcome Response :=
  Ok (res_status_json 400 (error_object "name, lat, lon required")).

(** The body as the handler reads it: [req.body || {}]. *)
Definition body_of (req : Request) : value :=
  js_or (req_body req) (VObj []).

(** The lesser of two numbers, neither of them [NaN]. *)
Definition lesser (a b : number) : number :=
  if (b <? a)%float then b else a.
Arguments lesser (a b)%_float.

(** [forecast.daily.precipitation_sum[i]], where the forecast has it. *)
Definition precipitation_sum_at (forecast : value) (i : nat) : option value :=
  get_index
    (get_prop_opt (get_prop_opt forecast (str "daily"))
       (str "precipitation_sum")) i.

(** [f._id], [undefined] where [f] has no properties. *)
Definition id_of (f : value) : value := get_prop_opt f (str "_id").

(** The entries have pairwise distinct [_id] values: no two of them
    are [===]. *)
Definition distinct_ids (favs : list value) : Prop :=
  ForallOrdPairs
    (fun a b => Client.strict_eq (id_of a) (id_of b) = false) favs.

(** Every entry can be asked for its [_id]: none is [null] or
    [undefined]. *)
Definition all_records (favs : list value) : Prop :=
  Forall (fun f => get_prop f (str "_id") <> None) favs.

(** ** What the further properties speak of *)

(** [Array.isArray(v)] *)
Definition is_array (v : value) : bool :=
  match v with VArr _ => true | _ => false end.

(** [typeof v === "string"] *)
Definition is_string (v : value) : bool :=
  match v with VStr _ => true | _ => false end.

(** The reply of [geocode] to anything thrown in its [try]. *)
Definition geocoding_failed : Response :=
  res_status_json 500 (error_object "Geocoding failed").

(** The reply of [forecast] to anything thrown in its [try]. *)
Definition forecast_failed : Response :=
  res_status_json 500 (error_object "Forecast failed").

(** The reply of [searchWeather] to anything thrown in its [try]. *)
Definition search_failed : Response :=
  res_status_json 500 (error_object "Search failed").

(** The forecast request of [searchWeather] for a pair of
    coordinates. *)
Definition search_forecast_call (lat lon : number) (tz : value)
  : UpstreamCall :=
  {| call_url := Server.open_meteo;
     call_params := Server.search_forecast_params lat lon tz;
     call_headers := [] |}.

(** [req.query.tz || "auto"] *)
Definition timezone_of (req : Request) : value :=
  js_or (query_param req "tz") (VStr (str "auto")).

(** A request to the forecast service for the coordinates [lat] and
    [lon] in the time zone [tz]. *)
Definition asks_forecast_of (c : UpstreamCall) (lat lon : number)
  (tz : value) : Prop :=
  call_url c = str "https://api.open-meteo.com/v1/forecast"
  /\ lookup (str "latitude") (call_params c) = Some (VNum lat)
  /\ lookup (str "longitude") (call_params c) = Some (VNum lon)
  /\ lookup (str "timezone") (call_params c) = Some tz.

(** The reply 200 with [v] for its body. *)
Definition replies_200_with (v : value) : outcome Response :=
  Ok {| status := 200; payload := BJson v |}.

(** The reply 200 [{ ok: true }]. *)
Definition ok_reply : outcome Response :=
  replies_200_with (VObj [(str "ok", VBool true)]).

(** A request that writes to the collection. *)
Inductive write : Type :=
| Create (req : Request)
| Delete (req : Request).

(** The world after the writes of [l], handled one at a time: each
    handler has sent its reply before the next request is taken up. *)
Definition handled_in_turn (Number_toString : number -> jsstring)
  (castObjectId : jsstring -> option N) (l : list write) (w : World)
  : World :=
  fold_left
    (fun w wr =>
       match wr with
       | Create req => snd (Server.favorites_create Number_toString req w)
       | Delete req => snd (Server.favorites_delete castObjectId req w)
       end) l w.

(** Two creations that overlap: both have the answer of their
    [findOne] before either calls [create]. *)
Definition overlapping_creates (Number_toString : number -> jsstring)
  (req1 req2 : Request) : M (Response * Response) :=
  (t1 <- Server.favorites_create_lookup req1 ;;
   t2 <- Server.favorites_create_lookup req2 ;;
   r1 <- Server.favorites_create_save Number_toString t1 ;;
   r2 <- Server.favorites_create_save Number_toString t2 ;;
   ret (r1, r2))%handler.

(** Two worlds with the same collection, identifier counter and
    clock. *)
Definition same_store (w w' : World) : Prop :=
  favorites w' = favorites w
  /\ next_oid w' = next_oid w
  /\ now w' = now w.

(** No two documents of the collection have the same coordinates. *)
Definition unique_coords (l : list Favorite) : Prop :=
  ForallOrdPairs
    (fun a b => Server.matches_coords (fav_lat a) (fav_lon a) b = false) l.

(** Every identifier in use is below the next one to be generated. *)
Definition ids_below (w : World) : Prop :=
  Forall (fun f => (fav_id f < next_oid w)%N) (favorites w).

(** The documents from the newest to the oldest. *)
Definition newest_first (l : list Favorite) : Prop :=
  StronglySorted (fun a b => (fav_createdAt b <= fav_createdAt a)%N) l.

(** At most [n] requests, each of them as [U] says. *)
Definition upto (n : nat) (U : UpstreamCall -> Prop)
  (new : list UpstreamCall) : Prop :=
  (List.length new <= n)%nat /\ Forall U new.

(** A computation whose only effect is to append to the log at most
    [n] requests, each of them as [U] says: it leaves the collection,
    the identifier counter and the clock as they are. *)
Definition logs_at_most {A} (c : M A) (n : nat)
  (U : UpstreamCall -> Prop) : Prop :=
  forall w : World,
    same_store w (snd (c w))
    /\ exists new : list UpstreamCall,
         sent (snd (c w)) = sent w ++ new /\ upto n U new.

Definition to_place_search (call : UpstreamCall) : Prop :=
  call_url call = Server.nominatim.

Definition to_forecast_service (call : UpstreamCall) : Prop :=
  call_url call = Server.open_meteo.

Definition to_either_service (call : UpstreamCall) : Prop :=
  to_place_search call \/ to_forecast_service call.

(** A handler that never throws: in every world it sends a reply, and
    the reply is as [P] says. *)
Definition always_replies (c : M Response) (P : Response -> Prop) : Prop :=
  forall w : World, exists r : Response, fst (c w) = Ok r /\ P r.

(** A computation that, where it returns, returns as [P] says. *)
Definition returns_only {A} (c : M A) (P : A -> Prop) : Prop :=
  forall w : World,
    match fst (c w) with
    | Ok a => P a
    | Throw => True
    end.

(** The replies of [geocode]: 200 with an array, or 500. *)
Definition geocode_reply (r : Response) : Prop :=
  (status r = 200%N /\ exists places, payload r = BJson (VArr places))
  \/ r = geocoding_failed.

(** The replies of [forecast]: 200, 400 or 500. *)
Definition forecast_reply (r : Response) : Prop :=
  status r = 200%N
  \/ r = res_status_json 400 (error_object "lat/lon required")
  \/ r = forecast_failed.

(** The replies of [searchWeather]: 200 with a place and a forecast,
    400, 404 or 500. *)
Definition search_reply (r : Response) : Prop :=
  (status r = 200%N
   /\ exists place data,
        payload r = BJson (VObj [(str "place", place);
                                 (str "forecast", data)]))
  \/ r = res_status_json 400 (error_object "q required")
  \/ r = res_status_json 404 (error_object "Place not found")
  \/ r = search_failed.

(** The replies of [favorites_create]: 200 with a document, 400 or
    500. *)
Definition create_reply (r : Response) : Prop :=
  (exists doc, r = {| status := 200; payload := BDoc doc |})
  \/ r = res_status_json 400 (error_object "name, lat, lon required")
  \/ r = res_status_json 500 (error_object "Save failed").

(** A value that a property can be read of: neither [undefined] nor
    [null]. *)
Definition has_properties (v : value) : bool :=
  match v with VUndefined | VNull => false | _ => true end.

(** [forecast.daily[name][i]], where the forecast has it. *)
Definition daily_column (forecast : value) (name : string) (i : nat)
  : option value :=
  get_index
    (get_prop_opt (get_prop_opt forecast (str "daily")) (str name)) i.

(** Whether [forecast.daily] has the column [name]. *)
Definition has_column (forecast : value) (name : string) : bool :=
  has_properties
    (get_prop_opt (get_prop_opt forecast (str "daily")) (str name)).


(** The request that [runSearch] makes of the server for a trimmed
    query and a time zone. *)
Definition search_request (q tz : jsstring) : Request :=
  {| req_query := [(str "q", VStr q); (str "tz", VStr tz)];
     req_body := VUndefined;
     req_params_id := [] |}.

(** ** Requests, worlds and upstream services of the scenarios *)

Module Scenario.

Definition empty_world : World :=
  {| favorites := []; next_oid := 1; now := 1700000000000; sent := [] |}.

(** [GET path?k1=v1&k2=v2] with string parameters. *)
Definition get_request (params : list (string * string)) : Request :=
  {| req_query := map (fun kv => (str (fst kv), VStr (str (snd kv)))) params;
     req_body := VUndefined;
     req_params_id := [] |}.

(** [DELETE /api/favorites/id] *)
Definition delete_request (id : jsstring) : Request :=
  {| req_query := []; req_body := VUndefined; req_params_id := id |}.

(** The cast of a route parameter as current mongoose does it: a
    string of 24 hexadecimal digits is the identifier it writes. *)
Definition cast_hex24 (id : jsstring) : option N :=
  match read_digits 16 id 0 0 with
  | (v, n, []) => if (n =? 24)%Z then Some (Z.to_N v) else None
  | _ => None
  end.

(** A collection of one document, Kolhapur, saved under an
    identifier. *)
Definition one_favorite : World :=
  {| favorites :=
       [{| fav_id := 0x65a1b2c3d4e5f60718293a4b;
           fav_name := str "Kolhapur";
           fav_lat := 16.7; fav_lon := 74.24;
           fav_createdAt := 1700000000000;
           fav_updatedAt := 1700000000000 |}];
     next_oid := 0x65a1b2c3d4e5f60718293a4c;
     now := 1700000001000;
     sent := [] |}.

(** In the scenarios no name is a number, so the printer of numbers is
    never consulted. *)
Definition no_number_names : number -> jsstring := fun _ => [].

(** A record of the place-search service. *)
Definition osm_record (display_name lat lon : string) : value :=
  VObj [(str "place_id", VNum 1);
        (str "lat", VStr (str lat)); (str "lon", VStr (str lon));
        (str "display_name", VStr (str display_name))].

Definition kolhapur : value :=
  osm_record "Kolhapur, Maharashtra, India" "16.7028412" "74.2405329".

(** A forecast of two days, the second one wet. *)
Definition two_days : value :=
  VObj [(str "daily",
         VObj [(str "time", VArr [VStr (str "2026-11-02");
                                  VStr (str "2026-11-03")]);
               (str "temperature_2m_max", VArr [VNum 31.5; VNum 29]);
               (str "temperature_2m_min", VArr [VNum 19; VNum 20.5]);
               (str "precipitation_sum", VArr [VNum 0.7; VNum 12.4])])].

(** The two services: the place search knows Kolhapur and nothing
    else; the forecast service answers for coordinates within their
    ranges and turns any other request down, which [axios] reports by
    rejecting. *)
Definition services (c : UpstreamCall) : option value :=
  if jsstring_eqb (call_url c) Server.nominatim then
    match lookup (str "q") (call_params c) with
    | Some (VStr q) =>
        if jsstring_eqb q (str "Kolhapur") then Some (VArr [kolhapur])
        else Some (VArr [])
    | _ => Some (VArr [])
    end
  else
    match lookup (str "latitude") (call_params c),
          lookup (str "longitude") (call_params c) with
    | Some (VNum lat), Some (VNum lon) =>
        if in_range (-90) 90 lat && in_range (-180) 180 lon
        then Some two_days else None
    | _, _ => None
    end.

(** The same, but for a place search that ignores the limit and
    answers with six records. *)
Definition services_six (c : UpstreamCall) : option value :=
  if jsstring_eqb (call_url c) Server.nominatim
  then Some (VArr [kolhapur; kolhapur; kolhapur; kolhapur; kolhapur; kolhapur])
  else services c.

Definition dry_day : Client.Day :=
  {| Client.date := VStr (str "2026-11-02");
     Client.tmax := VNum 31.5; Client.tmin := VNum 19;
     Client.precip := VNum 0.7;
     Client.uv := VUndefined; Client.windmax := VUndefined |}.

Definition wet_day : Client.Day :=
  {| Client.date := VStr (str "2026-11-03");
     Client.tmax := VNum 29; Client.tmin := VNum 20.5;
     Client.precip := VNum 12.4;
     Client.uv := VUndefined; Client.windmax := VUndefined |}.

(** A saved favorite as the server serialises it. *)
Definition saved (id name : string) : value :=
  VObj [(str "_id", VStr (str id)); (str "name", VStr (str name));
        (str "lat", VNum 16.7); (str "lon", VNum 74.24)].

(** The services out of reach. *)
Definition services_down (c : UpstreamCall) : option value := None.

(** A place search whose answer has a [null] among its records. *)
Definition services_null_record (c : UpstreamCall) : option value :=
  if jsstring_eqb (call_url c) Server.nominatim
  then Some (VArr [kolhapur; VNull])
  else services c.

(** A collection of two documents, Pune saved a second after
    Kolhapur. *)
Definition pune_doc : Favorite :=
  {| fav_id := 0x65a1b2c3d4e5f60718293a4c;
     fav_name := str "Pune";
     fav_lat := 18.52; fav_lon := 73.86;
     fav_createdAt := 1700000001000;
     fav_updatedAt := 1700000001000 |}.

Definition two_favorites : World :=
  {| favorites := favorites one_favorite ++ [pune_doc];
     next_oid := 0x65a1b2c3d4e5f60718293a4d;
     now := 1700000002000;
     sent := [] |}.

(** The time zone of the browser. *)
Definition kolkata : jsstring := str "Asia/Kolkata".

(** The engine's messages. *)
Definition type_error (v : value) : jsstring :=
  str "Cannot read properties of null".

Definition uri_error : jsstring := str "URI malformed".

(** In the scenarios no string is asked of a value for its own sake:
    the printed form is never looked at. *)
Definition unread_string : value -> jsstring := fun _ => [].

(** The API as the client meets it over a server with an empty
    collection: a search goes through [searchWeather], a forecast for
    a place of numeric coordinates through the forecast service, a
    save is turned down. *)
Definition api (r : Client.ClientRequest) : Client.fetched :=
  match r with
  | Client.GetSearchWeather q tz =>
      match Server.searchWeather services (search_request q tz) empty_world
      with
      | (Ok reply, _) =>
          match payload reply with
          | BJson v => Client.Resolved v
          | BDoc _ => Client.Rejected (str "Failed to fetch")
          end
      | (Throw, _) => Client.Rejected (str "Failed to fetch")
      end
  | Client.GetForecast (VNum lat) (VNum lon) tz =>
      match services (forecast_call lat lon (VStr tz)) with
      | Some data => Client.Resolved data
      | None => Client.Resolved (error_object "Forecast failed")
      end
  | Client.PostFavorite body =>
      Client.Resolved (error_object "name, lat, lon required")
  | _ => Client.Rejected (str "Failed to fetch")
  end.

(** A place as a click on the map makes it. *)
Definition clicked : value :=
  VObj [(str "name", VStr (str "Lat 16.700, Lon 74.240"));
        (str "lat", VNum 16.7); (str "lon", VNum 74.24)].

(** The state with a query typed in. *)
Definition typed (q : string) : Client.AppState :=
  {| Client.query := str q; Client.suggestions := VArr [];
     Client.selected := VNull; Client.forecast := VNull;
     Client.loading := false; Client.error := [];
     Client.favs := VArr [] |}.

End Scenario.

(** * Properties *)

(** ** Strings *)

Example trim_strips_both_ends :
  trim (str "  Kolhapur, India   ") = str "Kolhapur, India"
  /\ trim [160; 9; 75; 8232; 65279]%N = [75%N].
Proof. split; vm_compute; reflexivity. Qed.

Lemma trim_start_all_space (s : jsstring) :
  forallb is_js_space s = true -> trim_start s = [].
Proof.
  induction s as [|c s IH]; simpl; [reflexivity|].
  intros H. apply andb_prop in H. destruct H as [Hc Hs].
  rewrite Hc. exact (IH Hs).
Qed.

Lemma trim_all_space (s : jsstring) :
  forallb is_js_space s = true -> trim s = [].
Proof.
  intros H. unfold trim, trim_end.
  rewrite (trim_start_all_space s H). reflexivity.
Qed.

Lemma truthy_nonempty (s : jsstring) : s <> [] -> truthy (VStr s) = true.
Proof. destruct s; [congruence | reflexivity]. Qed.

(** ** Numbers *)

(** [Number] on strings, at the corners of its grammar. *)
Example Number_of_decimal :
  StringToNumber (str " 16.7 ") = 16.7%float
  /\ StringToNumber (str "-.5e1") = (-5)%float
  /\ StringToNumber (str "0x1F") = 31%float
  /\ StringToNumber (str "") = 0%float.
Proof. repeat split; vm_compute; reflexivity. Qed.

Example Number_of_no_number :
  StringToNumber (str "north") = nan
  /\ StringToNumber (str "1e") = nan
  /\ StringToNumber (str "1 2") = nan
  /\ StringToNumber (str ".") = nan
  /\ StringToNumber (str "-0x1F") = nan.
Proof. repeat split; vm_compute; reflexivity. Qed.

Example Number_of_infinite :
  StringToNumber (str "Infinity") = infinity
  /\ StringToNumber (str "-Infinity") = neg_infinity
  /\ StringToNumber (str "1e999") = infinity
  /\ StringToNumber (str "1.7976931348623157e308")
     = 1.7976931348623157e308%float
  /\ StringToNumber (str "1.7976931348623159e308") = infinity.
Proof. repeat split; vm_compute; reflexivity. Qed.

(** Rounding is to the nearest double, ties to even, down to the
    subnormal numbers. *)
Example Number_of_rounded :
  StringToNumber (str "9007199254740993") = 9007199254740992%float
  /\ StringToNumber (str "0.30000000000000004") = (0.1 + 0.2)%float
  /\ StringToNumber (str "5e-324") = 0x1p-1074%float
  /\ StringToNumber (str "2e-324") = 0%float.
Proof. repeat split; vm_compute; reflexivity. Qed.

Example Number_of_values :
  ToNumber VUndefined = Some nan
  /\ ToNumber VNull = Some 0%float
  /\ ToNumber (VArr [VStr (str "5")]) = Some 5%float
  /\ ToNumber (VArr [VStr (str "1"); VStr (str "2")]) = Some nan
  /\ ToNumber (VObj [(str "a", VStr (str "1"))]) = Some nan
  /\ ToNumber (VObj [(str "toString", VStr (str "1"))]) = None.
Proof. repeat split; vm_compute; reflexivity. Qed.

Lemma shr_1_nonneg mrs : (0 <= shr_m mrs -> 0 <= shr_m (shr_1 mrs))%Z.
Proof.
  destruct mrs as [m r s]; simpl.
  destruct m as [|p|p]; simpl; try lia; destruct p; simpl; lia.
Qed.

Lemma iter_shr_1_nonneg n mrs :
  (0 <= shr_m mrs -> 0 <= shr_m (iter_pos shr_1 n mrs))%Z.
Proof.
  revert mrs; induction n as [n IH|n IH|]; intros mrs H; simpl.
  - apply IH, IH, shr_1_nonneg, H.
  - apply IH, IH, H.
  - apply shr_1_nonneg, H.
Qed.

Lemma shr_fexp_nonneg m e l :
  (0 <= m -> 0 <= shr_m (fst (shr_fexp prec emax m e l)))%Z.
Proof.
  intros H. unfold shr_fexp, shr.
  assert (H0 : (0 <= shr_m (shr_record_of_loc m l))%Z).
  { destruct l as [|[]]; simpl; exact H. }
  destruct (fexp prec emax (Zdigits2 m + e) - e)%Z; simpl; auto.
  apply iter_shr_1_nonneg, H0.
Qed.

Lemma round_nearest_even_nonneg m l :
  (0 <= m -> 0 <= round_nearest_even m l)%Z.
Proof.
  intros H; destruct l as [|[]]; simpl; try lia.
  destruct (Z.even m); lia.
Qed.

Lemma binary_round_aux_not_nan s m e l :
  (0 <= m)%Z -> binary_round_aux prec emax s m e l <> S754_nan.
Proof.
  intros H. unfold binary_round_aux.
  pose proof (@shr_fexp_nonneg m e l H) as H1.
  destruct (shr_fexp prec emax m e l) as [mrs' e']; simpl in H1.
  pose proof (@round_nearest_even_nonneg _ (loc_of_shr_record mrs') H1) as H2.
  pose proof (@shr_fexp_nonneg _ e' loc_Exact H2) as H3.
  destruct (shr_fexp prec emax _ e' loc_Exact) as [mrs'' e'']; simpl in H3.
  destruct (shr_m mrs'') as [|p|p]; try discriminate; try lia.
  destruct (e'' <=? emax - prec)%Z; discriminate.
Qed.

Lemma is_nan_spec x : PrimFloat.is_nan x = true <-> Prim2SF x = S754_nan.
Proof.
  unfold PrimFloat.is_nan. rewrite eqb_spec. unfold SFeqb.
  destruct (Prim2SF x) as [s| s| |s m e]; simpl.
  - split; discriminate.
  - destruct s; split; discriminate.
  - split; reflexivity.
  - rewrite Z.compare_refl.
    destruct s; rewrite Pos.compare_cont_refl; simpl; split; discriminate.
Qed.

Lemma is_nan_false_spec x : PrimFloat.is_nan x = false <-> Prim2SF x <> S754_nan.
Proof.
  rewrite <- is_nan_spec. destruct (PrimFloat.is_nan x); split; congruence.
Qed.

Lemma mul_ten_not_nan p :
  PrimFloat.is_nan p = false -> PrimFloat.is_nan (p * 10)%float = false.
Proof.
  rewrite !is_nan_false_spec, mul_spec. intros H.
  set (ten := Prim2SF 10). vm_compute in ten. subst ten.
  destruct (Prim2SF p) as [s| s| |s m e]; simpl; try discriminate; try congruence.
  apply binary_round_aux_not_nan. lia.
Qed.

Lemma float_eqb_sym x y : (x =? y)%float = (y =? x)%float.
Proof.
  rewrite !eqb_spec. unfold SFeqb.
  destruct (Prim2SF x) as [s| s| |s m e], (Prim2SF y) as [s'| s'| |s' m' e'];
    simpl; try reflexivity;
    try (destruct s, s'; reflexivity); try (destruct s; reflexivity);
    try (destruct s'; reflexivity).
  assert (He : (e' ?= e)%Z = CompOpp (e ?= e')%Z) by apply Z.compare_antisym.
  assert (Hm : Pos.compare_cont Eq m' m = CompOpp (Pos.compare_cont Eq m m')).
  { symmetry. apply (Pos.compare_cont_antisym m m' Eq). }
  rewrite He, Hm.
  destruct s, s'; simpl; try reflexivity;
    destruct (e ?= e')%Z; simpl; try reflexivity;
    destruct (Pos.compare_cont Eq m m'); reflexivity.
Qed.

(** ** The server *)

Section ServerProperties.

Variable upstream : UpstreamCall -> option value.
Variable Number_toString : number -> jsstring.
Variable castObjectId : jsstring -> option N.

Lemma axios_get_eq url params headers w :
  Server.axios_get upstream url params headers w =
  let c := {| call_url := url; call_params := params;
              call_headers := headers |} in
  (match upstream c with Some data => Ok data | None => Throw end,
   after_call w c).
Proof.
  unfold Server.axios_get, after_call; simpl.
  destruct (upstream _); reflexivity.
Qed.

(** C6. A query of white space only, the empty string included, gets
    the empty sequence from [geocode], and no request goes to the
    place-search service: the world, with its log of upstream requests,
    is the one before. *)
Theorem geocode_blank_query (req : Request) (q : jsstring) (w : World) :
  query_param req "q" = VStr q ->
  forallb is_js_space q = true ->
  Server.geocode upstream req w = (Ok (res_json (VArr [])), w).
Proof.
  intros Hq Hblank.
  unfold Server.geocode, try_catch, bind. rewrite Hq.
  assert (Htrim : call_trim (js_or (VStr q) (VStr [])) w = (Ok [], w)).
  { unfold js_or. destruct q as [|c q']; simpl; [reflexivity|].
    unfold ret. now rewrite (trim_all_space (c :: q') Hblank). }
  rewrite Htrim. reflexivity.
Qed.

(** The same without a query at all. *)
Lemma geocode_missing_query (req : Request) (w : World) :
  query_param req "q" = VUndefined ->
  Server.geocode upstream req w = (Ok (res_json (VArr [])), w).
Proof.
  intros Hq. unfold Server.geocode, try_catch, bind. rewrite Hq.
  reflexivity.
Qed.

Lemma forecast_calls_after_nominatim (w : World) (c : UpstreamCall) :
  call_url c = Server.nominatim ->
  forecast_calls (sent (after_call w c)) = forecast_calls (sent w).
Proof.
  intros Hurl. unfold forecast_calls, after_call; simpl.
  rewrite filter_app; simpl. rewrite Hurl.
  replace (jsstring_eqb Server.nominatim Server.open_meteo) with false
    by (vm_compute; reflexivity).
  apply app_nil_r.
Qed.

(** C3. For a query that is not blank, when the place search of
    [searchWeather] finds nothing the reply is 404 with the error
    "Place not found" (neither the 400 of validation nor the 500 of an
    upstream failure), and no request goes to the forecast service: the
    one request sent is the place search. *)
Theorem searchWeather_place_not_found (req : Request) (q : jsstring)
  (w : World) :
  query_param req "q" = VStr q ->
  trim q <> [] ->
  upstream (search_geocode_call (trim q)) = Some (VArr []) ->
  let '(reply, w') := Server.searchWeather upstream req w in
  reply = Ok (res_status_json 404 (error_object "Place not found"))
  /\ w' = after_call w (search_geocode_call (trim q))
  /\ forecast_calls (sent w') = forecast_calls (sent w).
Proof.
  intros Hq Hne Hup.
  assert (Hq0 : q <> []) by (intros ->; apply Hne; reflexivity).
  unfold Server.searchWeather, try_catch, bind. rewrite Hq.
  unfold js_or. rewrite (truthy_nonempty Hq0). simpl call_trim.
  unfold ret at 1. rewrite (truthy_nonempty Hne). cbn [negb].
  rewrite axios_get_eq. fold (search_geocode_call (trim q)).
  cbv zeta. rewrite Hup. simpl.
  repeat split.
  apply forecast_calls_after_nominatim. reflexivity.
Qed.

(** [forecast] on a request one of whose coordinates converts to
    [NaN]. *)
Lemma forecast_nan_reply (req : Request) (w : World) (x y : number) :
  ToNumber (query_param req "lat") = Some x ->
  ToNumber (query_param req "lon") = Some y ->
  isNaN x || isNaN y = true ->
  Server.forecast upstream req w =
  (Ok (res_status_json 400 (error_object "lat/lon required")), w).
Proof.
  intros Hlat Hlon Hnan.
  unfold Server.forecast, try_catch, bind.
  rewrite Hlat, Hlon. cbn [must]. unfold ret at 1 2.
  rewrite Hnan. reflexivity.
Qed.

(** C2, as amended.  A request to [forecast] whose [lat] and [lon]
    convert under [Number] and one of which converts to [NaN] (a
    missing parameter, a string that is no numeric literal) is turned
    down with status 400, and no request goes to the forecast service:
    the world, with its log of upstream requests, is the one before.
    The check is [Number.isNaN], which an infinity passes. *)
Theorem forecast_rejects_nan (req : Request) (w : World) (x y : number) :
  ToNumber (query_param req "lat") = Some x ->
  ToNumber (query_param req "lon") = Some y ->
  isNaN x || isNaN y = true ->
  forecast_rejects upstream req w.
Proof.
  intros Hlat Hlon Hnan. unfold forecast_rejects.
  exact (forecast_nan_reply req w Hlat Hlon Hnan).
Qed.

(** Where both parameters convert to numbers other than [NaN], the
    request is forwarded. *)
Lemma forecast_forwards (req : Request) (w : World) (x y : number) :
  ToNumber (query_param req "lat") = Some x ->
  ToNumber (query_param req "lon") = Some y ->
  isNaN x || isNaN y = false ->
  let c := forecast_call x y
             (js_or (query_param req "tz") (VStr (str "auto"))) in
  Server.forecast upstream req w =
  (Ok match upstream c with
      | Some data => res_json data
      | None => res_status_json 500 (error_object "Forecast failed")
      end,
   after_call w c).
Proof.
  intros Hlat Hlon Hnan c.
  unfold Server.forecast, try_catch, bind.
  rewrite Hlat, Hlon. cbn [must]. unfold ret at 1 2.
  rewrite Hnan. rewrite axios_get_eq. fold (forecast_call x y
    (js_or (query_param req "tz") (VStr (str "auto")))). fold c.
  cbv zeta. destruct (upstream c); reflexivity.
Qed.

Lemma forecast_call_groups (x y : number) (tz : value) :
  requests_current_hourly_daily (forecast_call x y tz) = true.
Proof. vm_compute. reflexivity. Qed.

(** C5, as amended.  Every request that [forecast] sends upstream asks
    for the current variables (temperature, apparent temperature,
    humidity, wind speed, precipitation), for the daily variables
    (weather code, maximum and minimum temperature, precipitation sum,
    maximum UV index, maximum wind speed), for a third group of hourly
    variables (temperature, precipitation, humidity, wind speed), and
    for a horizon of seven days; it sends one request at most. *)
Theorem forecast_requests_three_groups (req : Request) (w : World) :
  exists new : list UpstreamCall,
    sent (snd (Server.forecast upstream req w)) = sent w ++ new
    /\ (List.length new <= 1)%nat
    /\ Forall (fun c => call_url c = Server.open_meteo
                        /\ requests_current_hourly_daily c = true) new.
Proof.
  destruct (ToNumber (query_param req "lat")) as [x|] eqn:Hlat;
    [destruct (ToNumber (query_param req "lon")) as [y|] eqn:Hlon;
     [destruct (isNaN x || isNaN y) eqn:Hnan|]|].
  - exists []. rewrite (forecast_nan_reply req w Hlat Hlon Hnan).
    simpl. rewrite app_nil_r. auto.
  - eexists [_]. rewrite (forecast_forwards req w Hlat Hlon Hnan).
    simpl. split; [reflexivity|]. split; [apply le_n|].
    constructor; [|constructor]. split; [reflexivity|].
    apply forecast_call_groups.
  - exists []. unfold Server.forecast, try_catch, bind.
    rewrite Hlat, Hlon. simpl. rewrite app_nil_r. auto.
  - exists []. unfold Server.forecast, try_catch, bind.
    rewrite Hlat. simpl. rewrite app_nil_r. auto.
Qed.

Lemma to_place_convertible (r : value) (w : World) :
  convertible r = true ->
  Server.to_place r w = (Ok (place_of_record r), w).
Proof.
  unfold convertible, Server.to_place, place_of_record, number_of,
    get_prop_opt, bind.
  destruct r; simpl; try discriminate;
    repeat match goal with
      | |- context [ToNumber ?v] => destruct (ToNumber v); simpl
      end; try discriminate; reflexivity.
Qed.

Lemma mapM_to_place (records : list value) (w : World) :
  forallb convertible records = true ->
  mapM Server.to_place records w = (Ok (map place_of_record records), w).
Proof.
  induction records as [|r records IH]; simpl; intros H; [reflexivity|].
  apply andb_prop in H. destruct H as [Hr Hrs].
  unfold bind. rewrite (to_place_convertible r w Hr), (IH Hrs).
  reflexivity.
Qed.

(** C4, as amended.  For a query that is not blank, [geocode] asks the
    place-search service for five results at most and, answered with an
    array of records whose coordinates convert to numbers, returns one
    Place for each record, in the order of the answer, with the
    record's display name and its coordinates converted: as many Places
    as the upstream sent, five at most when it honours the limit.  The
    handler neither cuts the list nor checks the coordinates. *)
Theorem geocode_passes_upstream_through (req : Request) (q : jsstring)
  (records : list value) (w : World) :
  query_param req "q" = VStr q ->
  trim q <> [] ->
  upstream (geocode_call (trim q)) = Some (VArr records) ->
  forallb convertible records = true ->
  let places := map place_of_record records in
  Server.geocode upstream req w =
    (Ok (res_json (VArr places)), after_call w (geocode_call (trim q)))
  /\ lookup (str "limit") (call_params (geocode_call (trim q)))
     = Some (VNum 5)
  /\ List.length places = List.length records
  /\ ((List.length records <= 5)%nat ->
      forallb valid_place places = true ->
      geocode_bounded upstream req w).
Proof.
  intros Hq Hne Hup Hrec places.
  assert (Hq0 : q <> []) by (intros ->; apply Hne; reflexivity).
  assert (Hrun : Server.geocode upstream req w =
    (Ok (res_json (VArr places)), after_call w (geocode_call (trim q)))).
  2:{ split; [exact Hrun|]. split; [reflexivity|].
      split; [apply length_map|].
      intros Hlen Hvalid. exists places. rewrite Hrun.
      split; [reflexivity|]. split; [|exact Hvalid].
      unfold places. rewrite length_map. exact Hlen. }
  unfold Server.geocode, try_catch, bind. rewrite Hq.
  unfold js_or. rewrite (truthy_nonempty Hq0). simpl call_trim.
  unfold ret at 1. rewrite (truthy_nonempty Hne). cbn [negb].
  rewrite axios_get_eq. fold (geocode_call (trim q)).
  cbv zeta. rewrite Hup. unfold call_map, bind.
  rewrite (mapM_to_place records _ Hrec). reflexivity.
Qed.

(** *** Favorites *)

Lemma mongo_num_eq_refl (x : number) : Server.mongo_num_eq x x = true.
Proof.
  unfold Server.mongo_num_eq, isNaN, PrimFloat.is_nan.
  destruct (x =? x)%float; reflexivity.
Qed.

Lemma favorites_create_valid (name : jsstring) (lat lon : number)
  (w : World) :
  name <> [] ->
  Server.favorites_create Number_toString
    (create_request (VStr name) (VNum lat) (VNum lon)) w =
  match find (Server.matches_coords lat lon) (favorites w) with
  | Some doc => (record_reply doc, w)
  | None =>
      let fav := {| fav_id := next_oid w; fav_name := name;
                    fav_lat := lat; fav_lon := lon;
                    fav_createdAt := now w; fav_updatedAt := now w |} in
      (record_reply fav,
       {| favorites := favorites w ++ [fav];
          next_oid := N.succ (next_oid w);
          now := now w; sent := sent w |})
  end.
Proof.
  intros Hname. destruct name as [|c name]; [congruence|].
  unfold Server.favorites_create, try_catch, bind, create_request,
    Server.Favorite_findOne, Server.Favorite_create.
  cbn.
  destruct (find (Server.matches_coords lat lon) (favorites w));
    reflexivity.
Qed.

Lemma find_app_none {A} (f : A -> bool) (l : list A) (x : A) :
  find f l = None -> f x = true -> find f (l ++ [x]) = Some x.
Proof.
  induction l as [|a l IH]; simpl; intros Hnone Hx.
  - now rewrite Hx.
  - destruct (f a); [discriminate | auto].
Qed.

Lemma find_some_holds {A} (f : A -> bool) (l : list A) (x : A) :
  find f l = Some x -> f x = true.
Proof. intros H. apply find_some in H. apply H. Qed.

(** C1, as amended.  For names that are not empty and any coordinates,
    two creations in a row with the same coordinates return the same
    record, and the second inserts nothing; when no record had the
    coordinates before, the record carries the first name. *)
Theorem favorites_create_idempotent (name1 name2 : jsstring)
  (lat lon : number) (w : World) :
  name1 <> [] ->
  name2 <> [] ->
  create_twice_same_record Number_toString name1 name2 lat lon w
  /\ (find (Server.matches_coords lat lon) (favorites w) = None ->
      exists doc : Favorite,
        fst (Server.favorites_create Number_toString
               (create_request (VStr name1) (VNum lat) (VNum lon)) w)
        = record_reply doc
        /\ fav_name doc = name1
        /\ Server.matches_coords lat lon doc = true).
Proof.
  intros H1 H2. unfold create_twice_same_record.
  rewrite (favorites_create_valid lat lon w H1).
  destruct (find (Server.matches_coords lat lon) (favorites w))
    as [doc|] eqn:Hfind.
  - cbv beta iota.
    rewrite (favorites_create_valid lat lon w H2), Hfind.
    split; [|discriminate]. exists doc. auto.
  - cbv beta iota zeta.
    set (fav := {| fav_id := next_oid w; fav_name := name1;
                   fav_lat := lat; fav_lon := lon;
                   fav_createdAt := now w; fav_updatedAt := now w |}).
    assert (Hfav : Server.matches_coords lat lon fav = true).
    { unfold Server.matches_coords; simpl.
      now rewrite !mongo_num_eq_refl. }
    rewrite (favorites_create_valid lat lon _ H2). cbn [favorites].
    rewrite (find_app_none _ _ fav Hfind Hfav).
    split.
    + exists fav. auto.
    + intros _. exists fav. auto.
Qed.

Lemma get_prop_truthy (v : value) (k : jsstring) :
  truthy v = true -> get_prop v k = Some (get_prop_opt v k).
Proof.
  unfold get_prop_opt. destruct v; simpl; try discriminate; reflexivity.
Qed.

Lemma body_of_truthy (req : Request) : truthy (body_of req) = true.
Proof.
  unfold body_of, js_or.
  destruct (truthy (req_body req)) eqn:H; [exact H | reflexivity].
Qed.

(** [favorites_create] on a body whose [lat] or [lon] is no number. *)
Lemma favorites_create_not_number (req : Request) (w : World) :
  is_number (get_prop_opt (body_of req) (str "lat")) = false
  \/ is_number (get_prop_opt (body_of req) (str "lon")) = false ->
  Server.favorites_create Number_toString req w = (invalid_body_reply, w).
Proof.
  intros H.
  unfold Server.favorites_create, try_catch, bind. fold (body_of req).
  rewrite !(fun k => @get_prop_truthy (body_of req) k (body_of_truthy req)).
  cbn [must].
  unfold ret at 1 2 3.
  assert (Hguard :
    negb (truthy (get_prop_opt (body_of req) (str "name")))
    || negb (is_number (get_prop_opt (body_of req) (str "lat")))
    || negb (is_number (get_prop_opt (body_of req) (str "lon"))) = true).
  { destruct H as [H|H]; rewrite H; simpl;
      [rewrite orb_true_r | rewrite orb_true_r]; reflexivity. }
  rewrite Hguard. reflexivity.
Qed.

(** C9.  A creation whose [lat] or [lon] is not of type number is
    turned down with status 400 and stores nothing, also where the
    value is a string that reads as a number: the test is on the type.
    [forecast] differs: given the same values as query parameters, it
    converts them and, where neither conversion is [NaN], forwards the
    numbers upstream. *)
Theorem favorites_create_numeric_by_type (req freq : Request) (w : World) :
  let lat := get_prop_opt (body_of req) (str "lat") in
  let lon := get_prop_opt (body_of req) (str "lon") in
  is_number lat = false \/ is_number lon = false ->
  Server.favorites_create Number_toString req w = (invalid_body_reply, w)
  /\ forall x y : number,
       query_param freq "lat" = lat ->
       query_param freq "lon" = lon ->
       ToNumber lat = Some x ->
       ToNumber lon = Some y ->
       isNaN x || isNaN y = false ->
       snd (Server.forecast upstream freq w) =
       after_call w (forecast_call x y
                       (js_or (query_param freq "tz") (VStr (str "auto")))).
Proof.
  intros lat lon H. split.
  - apply favorites_create_not_number. exact H.
  - intros x y Hqlat Hqlon Hx Hy Hnan.
    rewrite <- Hqlat in Hx. rewrite <- Hqlon in Hy.
    rewrite (forecast_forwards freq w Hx Hy Hnan). reflexivity.
Qed.

Lemma remove_by_id_absent (oid : N) (l : list Favorite) :
  find (fun f => (fav_id f =? oid)%N) l = None ->
  Server.remove_by_id oid l = l.
Proof.
  induction l as [|f l IH]; simpl; [reflexivity|].
  destruct (fav_id f =? oid)%N; [discriminate|].
  intros H. now rewrite (IH H).
Qed.

(** C7.  For every identifier, whether or not it names a stored
    Favorite and whether or not it casts to an identifier of the
    collection at all, [favorites_delete] replies 200 with
    [{ ok: true }], the first time and again the second time; the
    collection loses the document of that identifier, if there is one,
    and nothing else. *)
Theorem favorites_delete_always_ok (req : Request) (w : World) :
  let '(reply1, w1) := Server.favorites_delete castObjectId req w in
  let '(reply2, w2) := Server.favorites_delete castObjectId req w1 in
  reply1 = ok_reply
  /\ reply2 = ok_reply
  /\ favorites w1 =
     match castObjectId (req_params_id req) with
     | Some oid => Server.remove_by_id oid (favorites w)
     | None => favorites w
     end.
Proof.
  unfold Server.favorites_delete, try_catch, bind,
    Server.Favorite_findByIdAndDelete.
  destruct (castObjectId (req_params_id req)); simpl; auto.
Qed.

End ServerProperties.

(** ** The client *)

Lemma Math_min_100 (x : number) :
  isNaN x = false -> Client.Math_min [100%float; x] = lesser 100 x.
Proof.
  intros Hx. unfold Client.Math_min. cbn [existsb fold_left].
  replace (isNaN 100%float) with false by reflexivity.
  rewrite Hx. cbn [orb].
  replace (Client.is_neg_zero 100%float && Client.is_pos_zero infinity)
    with false by reflexivity.
  replace (100 <? infinity)%float with true by reflexivity.
  replace (Client.is_pos_zero 100%float) with false by reflexivity.
  rewrite andb_false_r. reflexivity.
Qed.

Lemma mapi_from_nth {A B} (f : A -> nat -> option B) (xs : list A) :
  forall (start : nat) (ys : list B) (i : nat) (y : B),
    Client.mapi_from f start xs = Some ys ->
    nth_error ys i = Some y ->
    exists t : A, nth_error xs i = Some t /\ f t (start + i) = Some y.
Proof.
  induction xs as [|t xs IH]; simpl; intros start ys i y Hmap Hnth.
  - injection Hmap as <-. destruct i; discriminate.
  - destruct (f t start) as [b|] eqn:Hb; [|discriminate].
    destruct (Client.mapi_from f (S start) xs) as [bs|] eqn:Hbs;
      [|discriminate].
    injection Hmap as <-. destruct i as [|i]; simpl in Hnth.
    + injection Hnth as <-. exists t. rewrite Nat.add_0_r. auto.
    + destruct (IH (S start) bs i y Hbs Hnth) as [t' [Ht' Hf]].
      exists t'. rewrite Nat.add_succ_r. auto.
Qed.

(** The day at offset [i] carries the precipitation sum at offset
    [i] of the forecast. *)
Lemma daily_precip (forecast : value) (days : list Client.Day) (i : nat)
  (day : Client.Day) :
  Client.daily forecast = Some days ->
  nth_error days i = Some day ->
  precipitation_sum_at forecast i = Some (Client.precip day).
Proof.
  unfold Client.daily, precipitation_sum_at.
  set (d := get_prop_opt forecast (str "daily")).
  destruct (truthy d) eqn:Hd; simpl.
  2:{ intros H; injection H as <-. destruct i; discriminate. }
  destruct (get_prop d (str "time")) as [[| | | | |times|]|]; try discriminate.
  intros Hmap Hnth.
  destruct (mapi_from_nth _ _ _ _ Hmap Hnth) as [t [_ Hday]].
  simpl in Hday. unfold Client.day_of in Hday.
  rewrite (@get_prop_truthy d (str "precipitation_sum") Hd) in Hday.
  repeat match type of Hday with
    | match ?c with _ => _ end = _ =>
        destruct c; [|discriminate]
    end.
  injection Hday as <-. reflexivity.
Qed.

(** C8.  For every day of a loaded forecast whose precipitation sum is
    the number [p], the height of the day's bar is the lesser of 100
    and [p * 10], in percent. *)
Theorem precipitation_bar_height (forecast : value)
  (days : list Client.Day) (i : nat) (day : Client.Day) (p : number) :
  Client.daily forecast = Some days ->
  nth_error days i = Some day ->
  precipitation_sum_at forecast i = Some (VNum p) ->
  isNaN p = false ->
  Client.bar_height day = Some (lesser 100 (p * 10)).
Proof.
  intros Hdaily Hnth Hsum Hp.
  rewrite (daily_precip forecast i Hdaily Hnth) in Hsum.
  injection Hsum as Hprecip.
  unfold Client.bar_height. rewrite Hprecip. cbn [ToNumber].
  rewrite Math_min_100; [reflexivity|].
  apply mul_ten_not_nan. exact Hp.
Qed.

Lemma jsstring_eqb_sym (a b : jsstring) : jsstring_eqb a b = jsstring_eqb b a.
Proof.
  unfold jsstring_eqb.
  destruct (list_eq_dec N.eq_dec a b), (list_eq_dec N.eq_dec b a);
    congruence.
Qed.

Lemma strict_eq_sym (a b : value) : Client.strict_eq a b = Client.strict_eq b a.
Proof.
  destruct a, b; simpl; try reflexivity.
  - destruct b0, b; reflexivity.
  - apply float_eqb_sym.
  - apply jsstring_eqb_sym.
Qed.

(** [some] over records is [existsb]. *)
Lemma js_some_records (did : value) (p : list value) :
  all_records p ->
  Client.js_some
    (fun f =>
       match get_prop f (str "_id"), Some did with
       | Some fid, Some did => Some (Client.strict_eq fid did)
       | _, _ => None
       end) p
  = Some (existsb (fun f => Client.strict_eq (id_of f) did) p).
Proof.
  induction 1 as [|f p Hf Hp IH]; simpl; [reflexivity|].
  unfold id_of at 1, get_prop_opt.
  destruct (get_prop f (str "_id")) as [fid|]; [|congruence].
  destruct (Client.strict_eq fid did); simpl; [reflexivity | exact IH].
Qed.

Lemma truthy_id_record (data : value) :
  truthy (id_of data) = true ->
  get_prop data (str "_id") = Some (id_of data).
Proof.
  unfold id_of, get_prop_opt.
  destruct (get_prop data (str "_id")); [reflexivity | discriminate].
Qed.

(** C10.  The state update of [saveFavorite] keeps the identifiers of
    the local favorites pairwise distinct: on a list of records with
    pairwise distinct [_id] values and any reply of the server, the
    update returns a list, and its [_id] values are pairwise distinct.
    The list is the old one where the reply has no [_id] or an entry
    has the reply's [_id], and the old one with the reply in front
    otherwise. *)
Theorem saveFavorite_keeps_ids_distinct (data : value) (p : list value) :
  all_records p ->
  distinct_ids p ->
  exists p' : list value,
    Client.saveFavorite_setFavs data p = Some p'
    /\ distinct_ids p'
    /\ p' = (if truthy (id_of data)
                && negb (existsb
                           (fun f => Client.strict_eq (id_of f) (id_of data)) p)
             then data :: p else p).
Proof.
  intros Hrec Hdist. unfold Client.saveFavorite_setFavs.
  fold (id_of data).
  destruct (truthy (id_of data)) eqn:Hid; simpl.
  2:{ exists p. auto. }
  rewrite (truthy_id_record data Hid).
  rewrite (js_some_records (id_of data) Hrec).
  destruct (existsb (fun f => Client.strict_eq (id_of f) (id_of data)) p)
    eqn:Hsome; simpl.
  - exists p. auto.
  - exists (data :: p). split; [reflexivity|]. split; [|reflexivity].
    constructor; [|exact Hdist].
    apply Forall_forall. intros f Hin.
    rewrite strict_eq_sym.
    destruct (Client.strict_eq (id_of f) (id_of data)) eqn:Heq;
      [|reflexivity].
    assert (Hex : existsb
              (fun f => Client.strict_eq (id_of f) (id_of data)) p = true).
    { apply existsb_exists. exists f. auto. }
    congruence.
Qed.

(** * Lengths as numbers *)

Ltac znorm :=
  try change IntDef.Z.max with Z.max in *;
  try change IntDef.Z.sub with Z.sub in *;
  try change IntDef.Z.add with Z.add in *.

Lemma digits2_pos_iter_xO (p : positive) (k : positive) :
  digits2_pos (Pos.iter xO p k) = (digits2_pos p + k)%positive.
Proof.
  revert p. induction k using Pos.peano_ind; intros p.
  - simpl. lia.
  - rewrite Pos.iter_succ. simpl. rewrite IHk. lia.
Qed.

Lemma digits2_pos_bound (p : positive) (d : Z) :
  (Zpos p < 2 ^ d)%Z -> (0 <= d)%Z -> (Zpos (digits2_pos p) <= d)%Z.
Proof.
  revert d. induction p as [p IH|p IH|]; intros d H Hd; simpl.
  - assert (d <> 0)%Z by (intros ->; simpl in H; lia).
    replace d with (Z.succ (d - 1))%Z in H by lia.
    rewrite Z.pow_succ_r in H by lia.
    specialize (IH (d - 1)%Z). lia.
  - assert (d <> 0)%Z by (intros ->; simpl in H; lia).
    replace d with (Z.succ (d - 1))%Z in H by lia.
    rewrite Z.pow_succ_r in H by lia.
    specialize (IH (d - 1)%Z). lia.
  - assert (d <> 0)%Z by (intros ->; simpl in H; lia). lia.
Qed.

Lemma shr_fexp_exact (mz : positive) (ez : Z) :
  (fexp prec emax (Zpos (digits2_pos mz) + ez) - ez <= 0)%Z ->
  shr_fexp prec emax (Zpos mz) ez loc_Exact =
  ({| shr_m := Zpos mz; shr_r := false; shr_s := false |}, ez).
Proof.
  intros H. unfold shr_fexp, shr. cbn [Zdigits2 shr_record_of_loc].
  znorm.
  destruct (fexp prec emax (Zpos (digits2_pos mz) + ez) - ez)%Z;
    try reflexivity; lia.
Qed.

Lemma binary_round_aux_exact (mz : positive) (ez : Z) :
  (fexp prec emax (Zpos (digits2_pos mz) + ez) - ez <= 0)%Z ->
  (ez <= emax - prec)%Z ->
  binary_round_aux prec emax false (Zpos mz) ez loc_Exact =
  S754_finite false mz ez.
Proof.
  intros H Hez. unfold binary_round_aux.
  rewrite (@shr_fexp_exact mz ez H).
  cbn [shr_m loc_of_shr_record round_nearest_even].
  rewrite (@shr_fexp_exact mz ez H). cbn [shr_m]. znorm.
  apply Z.leb_le in Hez. rewrite Hez. reflexivity.
Qed.

Lemma binary_normalize_small (p : positive) :
  (Zpos p < 2 ^ 53)%Z ->
  exists m e,
    binary_normalize prec emax (Zpos p) 0 false = S754_finite false m e.
Proof.
  intros H. pose proof (@digits2_pos_bound p 53 H ltac:(lia)) as Hd.
  unfold binary_normalize, binary_round, shl_align. znorm.
  set (d := digits2_pos p) in *.
  assert (Hfexp : (fexp prec emax (Zpos d + 0) = Zpos d - 53)%Z).
  { unfold fexp, emin, prec, emax. znorm. lia. }
  rewrite Hfexp, Z.sub_0_r.
  destruct (Zpos d - 53)%Z as [|k|k] eqn:Hk; try lia.
  - exists p, 0%Z. apply binary_round_aux_exact.
    + fold d. unfold fexp, emin, prec, emax. znorm. lia.
    + unfold emax, prec. lia.
  - exists (Pos.iter xO p k), (Z.neg k). apply binary_round_aux_exact.
    + rewrite digits2_pos_iter_xO. fold d.
      unfold fexp, emin, prec, emax. znorm. lia.
    + unfold emax, prec. lia.
Qed.

Lemma of_nat_truthy (n : nat) :
  (0 < Z.of_nat n < 2 ^ 53)%Z ->
  let x := PrimFloat.of_uint63 (Uint63.of_Z (Z.of_nat n)) in
  PrimFloat.is_nan x = false /\ (x =? 0)%float = false.
Proof.
  intros Hn x.
  assert (Hspec : exists m e, Prim2SF x = S754_finite false m e).
  { unfold x. rewrite of_uint63_spec.
    rewrite Uint63.of_Z_spec. rewrite Z.mod_small.
    2:{ unfold Uint63.wB, Uint63.size. simpl. lia. }
    destruct (Z.of_nat n) as [|p|p] eqn:Hp; try lia.
    apply binary_normalize_small. lia. }
  destruct Hspec as [m [e Hx]].
  unfold PrimFloat.is_nan. rewrite !FloatAxioms.eqb_spec, Hx.
  set (z := Prim2SF 0). vm_compute in z. subst z.
  unfold SFeqb; simpl. rewrite Z.compare_refl, Pos.compare_cont_refl.
  auto.
Qed.

(** The [length] of an array that is not empty, and of fewer than 2^53
    items, is truthy. *)
Lemma length_truthy (items : list value) :
  items <> [] ->
  (Z.of_nat (List.length items) < 2 ^ 53)%Z ->
  truthy (get_prop_opt (VArr items) (str "length")) = true.
Proof.
  intros Hne Hlen.
  assert (Hpos : (0 < Z.of_nat (List.length items))%Z).
  { destruct items; [congruence | simpl List.length; lia]. }
  destruct (@of_nat_truthy (List.length items) (conj Hpos Hlen)) as [Hnan Hz].
  unfold get_prop_opt, get_prop.
  replace (jsstring_eqb (str "length") (str "length")) with true
    by (vm_compute; reflexivity).
  cbn [truthy]. unfold isNaN, number_of_nat. rewrite Hnan, Hz. reflexivity.
Qed.

(** * Further properties of the server *)

Section MoreServerProperties.

Variable upstream : UpstreamCall -> option value.
Variable Number_toString : number -> jsstring.
Variable castObjectId : jsstring -> option N.

(** The head of [geocode] on a string query that is not blank: one
    request to the place search, and the rest of the [try] on its
    answer. *)
Lemma geocode_nonblank (req : Request) (q : jsstring) (w : World) :
  query_param req "q" = VStr q ->
  trim q <> [] ->
  Server.geocode upstream req w =
  let w' := after_call w (geocode_call (trim q)) in
  match upstream (geocode_call (trim q)) with
  | Some data =>
      match call_map data Server.to_place w' with
      | (Ok places, w'') => (Ok (res_json places), w'')
      | (Throw, w'') => (Ok geocoding_failed, w'')
      end
  | None => (Ok geocoding_failed, w')
  end.
Proof.
  intros Hq Hne.
  assert (Hq0 : q <> []) by (intros ->; apply Hne; reflexivity).
  unfold Server.geocode, try_catch, bind. rewrite Hq.
  unfold js_or. rewrite (truthy_nonempty Hq0). simpl call_trim.
  unfold ret at 1. rewrite (truthy_nonempty Hne). cbn [negb].
  rewrite (axios_get_eq upstream). fold (geocode_call (trim q)).
  cbv zeta. destruct (upstream (geocode_call (trim q))) as [data|];
    [|reflexivity].
  destruct (call_map data Server.to_place _) as [[places|] w'']; reflexivity.
Qed.

Lemma to_place_keeps_world (r : value) (w : World) :
  snd (Server.to_place r w) = w.
Proof.
  unfold Server.to_place, bind, must, ret, throw.
  repeat match goal with
    | |- context [match ?o with Some _ => _ | None => _ end] =>
        destruct o; simpl
    end; reflexivity.
Qed.

Lemma to_place_not_convertible (r : value) (w : World) :
  convertible r = false -> Server.to_place r w = (Throw, w).
Proof.
  unfold convertible, Server.to_place, bind.
  destruct r; simpl; try reflexivity;
    repeat match goal with
      | |- context [ToNumber ?v] => destruct (ToNumber v); simpl
      end; try discriminate; reflexivity.
Qed.

Lemma mapM_to_place_throws (records : list value) (w : World) :
  forallb convertible records = false ->
  mapM Server.to_place records w = (Throw, w).
Proof.
  induction records as [|r records IH]; simpl; [discriminate|].
  intros H. unfold bind.
  destruct (convertible r) eqn:Hr.
  - rewrite (to_place_convertible r w Hr). simpl in H.
    rewrite (IH H). reflexivity.
  - rewrite (to_place_not_convertible r w Hr). reflexivity.
Qed.

(** X1.  For a query that is not blank, when the request to the place
    search fails or its answer is no array, [geocode] replies 500 with
    the error "Geocoding failed"; the one request stays in the log. *)
Theorem geocode_upstream_failure (req : Request) (q : jsstring)
  (w : World) :
  query_param req "q" = VStr q ->
  trim q <> [] ->
  match upstream (geocode_call (trim q)) with
  | Some data => is_array data = false
  | None => True
  end ->
  Server.geocode upstream req w =
  (Ok geocoding_failed, after_call w (geocode_call (trim q))).
Proof.
  intros Hq Hne Hup. rewrite (geocode_nonblank req w Hq Hne). cbv zeta.
  destruct (upstream (geocode_call (trim q))) as [data|]; [|reflexivity].
  destruct data; try discriminate; reflexivity.
Qed.

(** X2.  [geocode] gives no partial result: when one record of the
    answer is [null] or has a coordinate that does not convert, the
    reply is 500 "Geocoding failed", whatever the other records. *)
Theorem geocode_bad_record_fails_all (req : Request) (q : jsstring)
  (records : list value) (w : World) :
  query_param req "q" = VStr q ->
  trim q <> [] ->
  upstream (geocode_call (trim q)) = Some (VArr records) ->
  forallb convertible records = false ->
  Server.geocode upstream req w =
  (Ok geocoding_failed, after_call w (geocode_call (trim q))).
Proof.
  intros Hq Hne Hup Hbad. rewrite (geocode_nonblank req w Hq Hne).
  cbv zeta. rewrite Hup. unfold call_map, bind.
  rewrite (mapM_to_place_throws records _ Hbad). reflexivity.
Qed.

(** X3.  A query parameter that is no string but an array or an
    object, as [?q=a&q=b] parses, has no [trim]: [geocode] replies 500
    "Geocoding failed" and sends no request. *)
Theorem geocode_repeated_parameter (req : Request) (w : World) :
  truthy (query_param req "q") = true ->
  is_string (query_param req "q") = false ->
  Server.geocode upstream req w = (Ok geocoding_failed, w).
Proof.
  intros Htruthy Hstr.
  unfold Server.geocode, try_catch, bind, js_or. rewrite Htruthy.
  destruct (query_param req "q"); try discriminate; reflexivity.
Qed.

(** X4.  [forecast] passes the answer of the forecast service through
    unchanged: where both coordinates convert to numbers other than
    [NaN] and the service answers, the reply is 200 with the service's
    data as its body, after one request, to the forecast service, whose
    [latitude] is the converted [lat], whose [longitude] is the
    converted [lon] and whose [timezone] is that of the request, or
    "auto" where it names none. *)
Theorem forecast_passes_data_through (req : Request) (w : World)
  (x y : number) (data : value) :
  ToNumber (query_param req "lat") = Some x ->
  ToNumber (query_param req "lon") = Some y ->
  isNaN x || isNaN y = false ->
  upstream (forecast_call x y (timezone_of req)) = Some data ->
  let call := forecast_call x y (timezone_of req) in
  Server.forecast upstream req w = (replies_200_with data, after_call w call)
  /\ asks_forecast_of call x y (timezone_of req).
Proof.
  intros Hlat Hlon Hnan Hup call. split.
  - rewrite (forecast_forwards upstream req w Hlat Hlon Hnan). cbv zeta.
    fold (timezone_of req). fold call. unfold call at 1. rewrite Hup.
    reflexivity.
  - repeat split.
Qed.

(** X5.  Where the request to the forecast service fails, [forecast]
    replies 500 with the error "Forecast failed", not the 400 of an
    invalid request; the request stays in the log. *)
Theorem forecast_upstream_failure (req : Request) (w : World)
  (x y : number) :
  ToNumber (query_param req "lat") = Some x ->
  ToNumber (query_param req "lon") = Some y ->
  isNaN x || isNaN y = false ->
  upstream (forecast_call x y (timezone_of req)) = None ->
  Server.forecast upstream req w =
  (Ok forecast_failed, after_call w (forecast_call x y (timezone_of req))).
Proof.
  intros Hlat Hlon Hnan Hup.
  rewrite (forecast_forwards upstream req w Hlat Hlon Hnan). cbv zeta.
  fold (timezone_of req). rewrite Hup. reflexivity.
Qed.

(** X6.  Without a query, or with a blank one, [searchWeather] replies
    400 with the error "q required" and sends no request. *)
Theorem searchWeather_missing_query (req : Request) (w : World) :
  query_param req "q" = VUndefined
  \/ (exists q : jsstring,
        query_param req "q" = VStr q /\ forallb is_js_space q = true) ->
  Server.searchWeather upstream req w =
  (Ok (res_status_json 400 (error_object "q required")), w).
Proof.
  intros [Hq | [q [Hq Hblank]]];
    unfold Server.searchWeather, try_catch, bind; rewrite Hq.
  - reflexivity.
  - assert (Htrim : call_trim (js_or (VStr q) (VStr [])) w = (Ok [], w)).
    { unfold js_or. destruct q as [|c q']; simpl; [reflexivity|].
      unfold ret. now rewrite (trim_all_space (c :: q') Hblank). }
    rewrite Htrim. reflexivity.
Qed.

Lemma get_prop_defined (v : value) (k k' : jsstring) :
  get_prop v k <> None -> get_prop v k' = Some (get_prop_opt v k').
Proof.
  unfold get_prop_opt. destruct v; simpl; congruence.
Qed.

(** The head of [searchWeather] on a string query that is not blank:
    the place search, and the rest of the [try] on its answer. *)
Lemma searchWeather_nonblank (req : Request) (q : jsstring) (w : World) :
  query_param req "q" = VStr q ->
  trim q <> [] ->
  upstream (search_geocode_call (trim q)) = None ->
  Server.searchWeather upstream req w =
  (Ok search_failed, after_call w (search_geocode_call (trim q))).
Proof.
  intros Hq Hne Hup.
  assert (Hq0 : q <> []) by (intros ->; apply Hne; reflexivity).
  unfold Server.searchWeather, try_catch, bind. rewrite Hq.
  unfold js_or. rewrite (truthy_nonempty Hq0). simpl call_trim.
  unfold ret at 1. rewrite (truthy_nonempty Hne). cbn [negb].
  rewrite (axios_get_eq upstream). fold (search_geocode_call (trim q)).
  cbv zeta. rewrite Hup. reflexivity.
Qed.

(** X7.  [searchWeather] composes the two services: for a query that
    is not blank and an answer of the place search that begins with a
    record whose coordinates convert, it sends the place search and
    then one forecast request whose [latitude] and [longitude] are the
    converted [lat] and [lon] of that first record (the other records
    play no part) and whose [timezone] is that of the request, asking
    for the current and the daily variables only, over seven days; the
    reply is 200 with the place of the first record and the forecast
    data, or 500 "Search failed" where the forecast request fails. *)
Theorem searchWeather_composes (req : Request) (q : jsstring)
  (first : value) (others : list value) (w : World) :
  query_param req "q" = VStr q ->
  trim q <> [] ->
  upstream (search_geocode_call (trim q)) = Some (VArr (first :: others)) ->
  (Z.of_nat (List.length (first :: others)) < 2 ^ 32)%Z ->
  convertible first = true ->
  let f := search_forecast_call
             (number_of (get_prop_opt first (str "lat")))
             (number_of (get_prop_opt first (str "lon")))
             (timezone_of req) in
  Server.searchWeather upstream req w =
  (match upstream f with
   | Some data =>
       replies_200_with (VObj [(str "place", place_of_record first);
                               (str "forecast", data)])
   | None => Ok search_failed
   end,
   after_call (after_call w (search_geocode_call (trim q))) f)
  /\ asks_forecast_of f
       (number_of (get_prop_opt first (str "lat")))
       (number_of (get_prop_opt first (str "lon")))
       (timezone_of req)
  /\ requests_current_and_daily_only f = true.
Proof.
  intros Hq Hne Hup Hlen Hconv f.
  split; [|split; [repeat split | vm_compute; reflexivity]].
  assert (Hq0 : q <> []) by (intros ->; apply Hne; reflexivity).
  assert (Htruthy :
    truthy (get_prop_opt (VArr (first :: others)) (str "length")) = true).
  { apply length_truthy; [discriminate | lia]. }
  unfold Server.searchWeather, try_catch, bind. rewrite Hq.
  unfold js_or at 1. rewrite (truthy_nonempty Hq0). simpl call_trim.
  unfold ret at 1. rewrite (truthy_nonempty Hne). cbn [negb].
  rewrite (axios_get_eq upstream). fold (search_geocode_call (trim q)).
  cbv zeta. rewrite Hup, Htruthy. cbn [negb get_index nth_error must].
  unfold ret at 1.
  unfold convertible in Hconv.
  destruct (get_prop first (str "lat")) as [rlat|] eqn:Hrlat;
    [|discriminate].
  destruct (get_prop first (str "lon")) as [rlon|] eqn:Hrlon;
    [|discriminate].
  destruct (ToNumber rlat) as [x|] eqn:Hx; [|discriminate].
  destruct (ToNumber rlon) as [y|] eqn:Hy; [|discriminate].
  assert (Hdef : get_prop first (str "lat") <> None) by congruence.
  rewrite (get_prop_defined first (str "lat") (str "display_name") Hdef).
  cbn [must]. unfold ret at 1 2 3 4 5.
  rewrite Hx. cbn [must]. unfold ret at 1.
  rewrite Hy. cbn [must]. unfold ret at 1.
  rewrite (axios_get_eq upstream). fold (timezone_of req).
  assert (Hnx : number_of (get_prop_opt first (str "lat")) = x).
  { unfold number_of, get_prop_opt. now rewrite Hrlat, Hx. }
  assert (Hny : number_of (get_prop_opt first (str "lon")) = y).
  { unfold number_of, get_prop_opt. now rewrite Hrlon, Hy. }
  unfold f, place_of_record. rewrite Hnx, Hny.
  fold (search_forecast_call x y (timezone_of req)). cbv zeta.
  destruct (upstream (search_forecast_call x y (timezone_of req)));
    reflexivity.
Qed.

(** X8.  Where the place search itself fails, [searchWeather] replies
    500 "Search failed" and attempts no forecast: the place search is
    the one request sent. *)
Theorem searchWeather_geocoding_failure (req : Request) (q : jsstring)
  (w : World) :
  query_param req "q" = VStr q ->
  trim q <> [] ->
  upstream (search_geocode_call (trim q)) = None ->
  let '(reply, w') := Server.searchWeather upstream req w in
  reply = Ok search_failed
  /\ sent w' = sent w ++ [search_geocode_call (trim q)]
  /\ forecast_calls (sent w') = forecast_calls (sent w).
Proof.
  intros Hq Hne Hup.
  rewrite (searchWeather_nonblank req w Hq Hne Hup).
  split; [reflexivity|]. split; [reflexivity|].
  apply forecast_calls_after_nominatim. reflexivity.
Qed.

(** *** What the handlers leave alone *)

Lemma same_store_refl (w : World) : same_store w w.
Proof. repeat split. Qed.

Lemma same_store_trans (w1 w2 w3 : World) :
  same_store w1 w2 -> same_store w2 w3 -> same_store w1 w3.
Proof.
  unfold same_store. intros [H1 [H2 H3]] [H4 [H5 H6]].
  repeat split; congruence.
Qed.

Lemma upto_nil (n : nat) (U : UpstreamCall -> Prop) : upto n U [].
Proof. split; [apply Nat.le_0_l | constructor]. Qed.

Lemma upto_app (n m : nat) (U : UpstreamCall -> Prop)
  (l1 l2 : list UpstreamCall) :
  upto n U l1 -> upto m U l2 -> upto (n + m) U (l1 ++ l2).
Proof.
  intros [H1 H2] [H3 H4]. split.
  - rewrite length_app. lia.
  - apply Forall_app. auto.
Qed.

Lemma upto_weaken (n m : nat) (U V : UpstreamCall -> Prop)
  (l : list UpstreamCall) :
  (n <= m)%nat -> (forall c, U c -> V c) -> upto n U l -> upto m V l.
Proof.
  intros Hle HUV [H1 H2]. split; [lia|].
  eapply Forall_impl; eauto.
Qed.

Lemma logs_ret {A} (a : A) (U : UpstreamCall -> Prop) :
  logs_at_most (ret a) 0 U.
Proof.
  intros w. split; [apply same_store_refl|].
  exists []. simpl. rewrite app_nil_r. split; [reflexivity | apply upto_nil].
Qed.

Lemma logs_throw {A} (U : UpstreamCall -> Prop) :
  logs_at_most (@throw A) 0 U.
Proof.
  intros w. split; [apply same_store_refl|].
  exists []. simpl. rewrite app_nil_r. split; [reflexivity | apply upto_nil].
Qed.

Lemma logs_must {A} (o : option A) (U : UpstreamCall -> Prop) :
  logs_at_most (must o) 0 U.
Proof. destruct o; [apply logs_ret | apply logs_throw]. Qed.

Lemma logs_weaken {A} (c : M A) (n m : nat) (U V : UpstreamCall -> Prop) :
  (n <= m)%nat -> (forall call, U call -> V call) ->
  logs_at_most c n U -> logs_at_most c m V.
Proof.
  intros Hle HUV H w. destruct (H w) as [Hs [new [Hnew Hup]]].
  split; [exact Hs|]. exists new. split; [exact Hnew|].
  eapply upto_weaken; eauto.
Qed.

Lemma logs_bind {A B} (c : M A) (k : A -> M B) (n m : nat)
  (U : UpstreamCall -> Prop) :
  logs_at_most c n U -> (forall a, logs_at_most (k a) m U) ->
  logs_at_most (bind c k) (n + m) U.
Proof.
  intros Hc Hk w. unfold bind.
  destruct (Hc w) as [Hs [new [Hnew Hup]]].
  destruct (c w) as [[a|] w1]; simpl in *.
  - destruct (Hk a w1) as [Hs' [new' [Hnew' Hup']]].
    split; [eapply same_store_trans; eauto|].
    exists (new ++ new'). rewrite Hnew', Hnew, app_assoc.
    split; [reflexivity | apply upto_app; assumption].
  - split; [exact Hs|]. exists new. split; [exact Hnew|].
    eapply upto_weaken; [| |exact Hup]; [lia | auto].
Qed.

Lemma logs_try_catch {A} (body handler : M A) (n : nat)
  (U : UpstreamCall -> Prop) :
  logs_at_most body n U -> logs_at_most handler 0 U ->
  logs_at_most (try_catch body handler) n U.
Proof.
  intros Hb Hh w. unfold try_catch.
  destruct (Hb w) as [Hs [new [Hnew Hup]]].
  destruct (body w) as [[a|] w1]; simpl in *.
  - split; [exact Hs|]. exists new. auto.
  - destruct (Hh w1) as [Hs' [new' [Hnew' [Hlen' _]]]].
    destruct new'; [|simpl in Hlen'; lia]. rewrite app_nil_r in Hnew'.
    split; [eapply same_store_trans; eauto|].
    exists new. rewrite Hnew'. auto.
Qed.

Lemma logs_axios_get (url : jsstring) (params : list (jsstring * value))
  (headers : list (jsstring * jsstring)) (U : UpstreamCall -> Prop) :
  U {| call_url := url; call_params := params; call_headers := headers |} ->
  logs_at_most (Server.axios_get upstream url params headers) 1 U.
Proof.
  intros HU w. rewrite (axios_get_eq upstream). cbv zeta. simpl.
  split; [repeat split|].
  eexists [_]. split; [reflexivity|].
  split; [simpl; lia | constructor; [exact HU | constructor]].
Qed.

Lemma logs_mapM_to_place (records : list value) (U : UpstreamCall -> Prop) :
  logs_at_most (mapM Server.to_place records) 0 U.
Proof.
  induction records as [|r records IH]; simpl; [apply logs_ret|].
  apply logs_bind with (n := 0) (m := 0).
  - unfold Server.to_place.
    repeat (apply logs_bind with (n := 0) (m := 0);
            [apply logs_must | intros ?]).
    apply logs_ret.
  - intros b. apply logs_bind with (n := 0) (m := 0); [exact IH|].
    intros bs. apply logs_ret.
Qed.

Lemma logs_geocode (req : Request) :
  logs_at_most (Server.geocode upstream req) 1 to_place_search.
Proof.
  unfold Server.geocode.
  apply logs_try_catch; [|apply logs_ret].
  apply logs_bind with (n := 0) (m := 1).
  { unfold call_trim. destruct (js_or _ _); try apply logs_throw.
    apply logs_ret. }
  intros q. destruct (negb (truthy (VStr q))).
  { apply logs_weaken with (n := 0) (U := to_place_search); auto.
    apply logs_ret. }
  apply logs_bind with (n := 1) (m := 0).
  { apply logs_axios_get. reflexivity. }
  intros data. apply logs_bind with (n := 0) (m := 0); [|intros; apply logs_ret].
  unfold call_map. destruct data; try apply logs_throw.
  apply logs_bind with (n := 0) (m := 0);
    [apply logs_mapM_to_place | intros; apply logs_ret].
Qed.

Lemma logs_forecast (req : Request) :
  logs_at_most (Server.forecast upstream req) 1 to_forecast_service.
Proof.
  unfold Server.forecast.
  apply logs_try_catch; [|apply logs_ret].
  apply logs_bind with (n := 0) (m := 1); [apply logs_must|]. intros lat.
  apply logs_bind with (n := 0) (m := 1); [apply logs_must|]. intros lon.
  destruct (isNaN lat || isNaN lon).
  { apply logs_weaken with (n := 0) (U := to_forecast_service); auto.
    apply logs_ret. }
  apply logs_bind with (n := 1) (m := 0).
  { apply logs_axios_get. reflexivity. }
  intros data. apply logs_ret.
Qed.

Lemma logs_searchWeather (req : Request) :
  logs_at_most (Server.searchWeather upstream req) 2 to_either_service.
Proof.
  unfold Server.searchWeather.
  apply logs_try_catch; [|apply logs_ret].
  apply logs_bind with (n := 0) (m := 2).
  { unfold call_trim. destruct (js_or _ _); try apply logs_throw.
    apply logs_ret. }
  intros q. destruct (negb (truthy (VStr q))).
  { apply logs_weaken with (n := 0) (U := to_either_service); auto.
    apply logs_ret. }
  apply logs_bind with (n := 1) (m := 1).
  { apply logs_axios_get. left. reflexivity. }
  intros g_data. destruct (negb (truthy _)).
  { apply logs_weaken with (n := 0) (U := to_either_service); auto.
    apply logs_ret. }
  repeat (apply logs_bind with (n := 0) (m := 1);
          [apply logs_must | intros ?]).
  apply logs_bind with (n := 1) (m := 0).
  { apply logs_axios_get. right. reflexivity. }
  intros f_data. apply logs_ret.
Qed.

(** X9.  The three handlers that call the services never touch the
    favorites: whatever the request, the services' answers and the
    world, they leave the collection, the identifier counter and the
    clock as they are, and their only effect is to append requests to
    the log, [geocode] at most one, to the place search, [forecast] at
    most one, to the forecast service, [searchWeather] at most two. *)
Theorem service_handlers_keep_store (req : Request) :
  logs_at_most (Server.geocode upstream req) 1 to_place_search
  /\ logs_at_most (Server.forecast upstream req) 1 to_forecast_service
  /\ logs_at_most (Server.searchWeather upstream req) 2 to_either_service.
Proof.
  split; [apply logs_geocode|].
  split; [apply logs_forecast | apply logs_searchWeather].
Qed.

(** *** The collection *)

(** [favorites_create] in one piece. *)
Lemma favorites_create_eq (req : Request) (w : World) :
  Server.favorites_create Number_toString req w =
  let name := get_prop_opt (body_of req) (str "name") in
  match get_prop_opt (body_of req) (str "lat"),
        get_prop_opt (body_of req) (str "lon") with
  | VNum lat, VNum lon =>
      if truthy name then
        match find (Server.matches_coords lat lon) (favorites w) with
        | Some doc => (record_reply doc, w)
        | None =>
            match Server.castString Number_toString name with
            | Some s =>
                let fav := {| fav_id := next_oid w; fav_name := s;
                              fav_lat := lat; fav_lon := lon;
                              fav_createdAt := now w;
                              fav_updatedAt := now w |} in
                (record_reply fav,
                 {| favorites := favorites w ++ [fav];
                    next_oid := N.succ (next_oid w);
                    now := now w; sent := sent w |})
            | None =>
                (Ok (res_status_json 500 (error_object "Save failed")), w)
            end
        end
      else (invalid_body_reply, w)
  | _, _ => (invalid_body_reply, w)
  end.
Proof.
  unfold Server.favorites_create, try_catch, bind. fold (body_of req).
  rewrite !(fun k => @get_prop_truthy (body_of req) k (body_of_truthy req)).
  cbn [must]. unfold ret at 1 2 3. cbv zeta.
  generalize (get_prop_opt (body_of req) (str "name")) as name.
  generalize (get_prop_opt (body_of req) (str "lat")) as vlat.
  generalize (get_prop_opt (body_of req) (str "lon")) as vlon.
  intros vlon vlat name.
  destruct (truthy name) eqn:Hname;
    destruct vlat as [| | | lat | | |]; try reflexivity;
    destruct vlon as [| | | lon | | |]; try reflexivity.
  cbn [negb is_number orb].
  unfold Server.Favorite_findOne, Server.Favorite_create.
  destruct (find (Server.matches_coords lat lon) (favorites w));
    [reflexivity|].
  destruct (Server.castString Number_toString name); reflexivity.
Qed.

(** The world after [favorites_create]: as before, or with one more
    document, of coordinates that no document had. *)
Lemma favorites_create_world (req : Request) (w : World) :
  snd (Server.favorites_create Number_toString req w) = w
  \/ exists fav : Favorite,
       snd (Server.favorites_create Number_toString req w) =
         {| favorites := favorites w ++ [fav];
            next_oid := N.succ (next_oid w);
            now := now w; sent := sent w |}
       /\ fav_id fav = next_oid w
       /\ fav_createdAt fav = now w
       /\ find (Server.matches_coords (fav_lat fav) (fav_lon fav))
            (favorites w) = None.
Proof.
  rewrite favorites_create_eq. cbv zeta.
  destruct (get_prop_opt (body_of req) (str "lat")) as [| | | lat | | |];
    try (left; reflexivity).
  destruct (get_prop_opt (body_of req) (str "lon")) as [| | | lon | | |];
    try (left; reflexivity).
  destruct (truthy _); [|left; reflexivity].
  destruct (find (Server.matches_coords lat lon) (favorites w)) eqn:Hfind;
    [left; reflexivity|].
  destruct (Server.castString Number_toString _) as [s|];
    [|left; reflexivity].
  right. eexists. cbn [snd]. repeat split. exact Hfind.
Qed.

Lemma mongo_num_eq_sym (a b : number) :
  Server.mongo_num_eq a b = Server.mongo_num_eq b a.
Proof.
  unfold Server.mongo_num_eq.
  rewrite (andb_comm (isNaN a)), (float_eqb_sym a b). reflexivity.
Qed.

Lemma matches_coords_sym (a b : Favorite) :
  Server.matches_coords (fav_lat a) (fav_lon a) b =
  Server.matches_coords (fav_lat b) (fav_lon b) a.
Proof.
  unfold Server.matches_coords.
  rewrite (mongo_num_eq_sym (fav_lat b)), (mongo_num_eq_sym (fav_lon b)).
  reflexivity.
Qed.

Lemma ordered_pairs_snoc {A} (R : A -> A -> Prop) (l : list A) (x : A) :
  ForallOrdPairs R l -> Forall (fun a => R a x) l ->
  ForallOrdPairs R (l ++ [x]).
Proof.
  induction 1 as [|a l Ha Hl IH]; simpl; intros Hx.
  - constructor; constructor.
  - inversion Hx; subst. constructor.
    + apply Forall_app. split; [exact Ha | constructor; auto].
    + apply IH. assumption.
Qed.

Lemma remove_by_id_incl (oid : N) (l : list Favorite) (f : Favorite) :
  In f (Server.remove_by_id oid l) -> In f l.
Proof.
  induction l as [|g l IH]; simpl; [auto|].
  destruct (fav_id g =? oid)%N; simpl; intuition.
Qed.

Lemma ordered_pairs_remove (R : Favorite -> Favorite -> Prop) (oid : N)
  (l : list Favorite) :
  ForallOrdPairs R l -> ForallOrdPairs R (Server.remove_by_id oid l).
Proof.
  induction 1 as [|a l Ha Hl IH]; simpl; [constructor|].
  destruct (fav_id a =? oid)%N; [exact Hl|].
  constructor; [|exact IH].
  apply Forall_forall. intros f Hf.
  apply (proj1 (Forall_forall _ _) Ha). eapply remove_by_id_incl; eauto.
Qed.

Lemma favorites_delete_world (req : Request) (w : World) :
  favorites (snd (Server.favorites_delete castObjectId req w)) =
  match castObjectId (req_params_id req) with
  | Some oid => Server.remove_by_id oid (favorites w)
  | None => favorites w
  end.
Proof.
  unfold Server.favorites_delete, try_catch, bind,
    Server.Favorite_findByIdAndDelete.
  destruct (castObjectId (req_params_id req)); reflexivity.
Qed.

Lemma favorites_create_keeps_unique_coords (req : Request) (w : World) :
  unique_coords (favorites w) ->
  unique_coords
    (favorites (snd (Server.favorites_create Number_toString req w))).
Proof.
  intros Huniq.
  destruct (favorites_create_world req w)
    as [Hsame | [fav [Hw' [_ [_ Hfind]]]]].
  - rewrite Hsame. exact Huniq.
  - rewrite Hw'. cbn [favorites].
    apply ordered_pairs_snoc; [exact Huniq|].
    apply Forall_forall. intros a Ha.
    rewrite matches_coords_sym.
    exact (find_none _ _ Hfind a Ha).
Qed.

Lemma favorites_delete_keeps_unique_coords (req : Request) (w : World) :
  unique_coords (favorites w) ->
  unique_coords
    (favorites (snd (Server.favorites_delete castObjectId req w))).
Proof.
  intros Huniq. rewrite favorites_delete_world.
  destruct (castObjectId (req_params_id req)); [|exact Huniq].
  apply ordered_pairs_remove. exact Huniq.
Qed.

(** X10.  Writes handled one at a time keep the collection free of
    doubles: where no two documents have the same coordinates, none
    have after any sequence of creations and deletions in which each
    handler has replied before the next request is taken up, whatever
    the requests.  (Requests that overlap are another matter: X27.) *)
Theorem favorites_writes_keep_unique_coords (writes : list write)
  (w : World) :
  unique_coords (favorites w) ->
  unique_coords
    (favorites (handled_in_turn Number_toString castObjectId writes w)).
Proof.
  revert w. induction writes as [|wr writes IH]; intros w Huniq;
    [exact Huniq|].
  unfold handled_in_turn. cbn [fold_left]. apply IH.
  destruct wr as [req | req].
  - apply favorites_create_keeps_unique_coords. exact Huniq.
  - apply favorites_delete_keeps_unique_coords. exact Huniq.
Qed.

Lemma remove_by_id_filter (oid : N) (l : list Favorite) :
  NoDup (map fav_id l) ->
  Server.remove_by_id oid l =
  filter (fun f => negb (fav_id f =? oid)%N) l.
Proof.
  induction l as [|f l IH]; simpl; [reflexivity|].
  intros Hnd. inversion Hnd as [|? ? Hnotin Hnd']; subst.
  destruct (fav_id f =? oid)%N eqn:Hid; simpl.
  - apply N.eqb_eq in Hid. symmetry. apply forallb_filter_id.
    apply forallb_forall. intros g Hg.
    destruct (fav_id g =? oid)%N eqn:Hg'; [|reflexivity].
    apply N.eqb_eq in Hg'. exfalso. apply Hnotin.
    rewrite Hid, <- Hg'. apply in_map. exact Hg.
  - now rewrite (IH Hnd').
Qed.

Lemma find_filter_none (oid : N) (l : list Favorite) :
  find (fun f => (fav_id f =? oid)%N)
    (filter (fun f => negb (fav_id f =? oid)%N) l) = None.
Proof.
  induction l as [|f l IH]; simpl; [reflexivity|].
  destruct (fav_id f =? oid)%N eqn:Hid; simpl; [exact IH|].
  now rewrite Hid.
Qed.

(** X11.  [favorites_delete] removes the document of the identifier
    and nothing else: in a collection of distinct identifiers, what is
    left are the documents of every other identifier, in their order;
    none has the identifier any more, and deleting it again changes
    nothing. *)
Theorem favorites_delete_removes_exactly (req : Request) (oid : N)
  (w : World) :
  castObjectId (req_params_id req) = Some oid ->
  NoDup (map fav_id (favorites w)) ->
  let w1 := snd (Server.favorites_delete castObjectId req w) in
  let w2 := snd (Server.favorites_delete castObjectId req w1) in
  favorites w1 = filter (fun f => negb (fav_id f =? oid)%N) (favorites w)
  /\ find (fun f => (fav_id f =? oid)%N) (favorites w1) = None
  /\ favorites w2 = favorites w1.
Proof.
  intros Hcast Hnd w1 w2.
  assert (H1 : favorites w1 =
               filter (fun f => negb (fav_id f =? oid)%N) (favorites w)).
  { unfold w1. rewrite favorites_delete_world, Hcast.
    apply remove_by_id_filter. exact Hnd. }
  assert (H2 : find (fun f => (fav_id f =? oid)%N) (favorites w1) = None).
  { rewrite H1. apply find_filter_none. }
  split; [exact H1|]. split; [exact H2|].
  unfold w2. rewrite favorites_delete_world, Hcast.
  apply remove_by_id_absent. exact H2.
Qed.

Lemma remove_by_id_snoc (l : list Favorite) (fav : Favorite) :
  Forall (fun f => (fav_id f < fav_id fav)%N) l ->
  Server.remove_by_id (fav_id fav) (l ++ [fav]) = l.
Proof.
  induction 1 as [|f l Hf Hl IH]; simpl.
  - now rewrite N.eqb_refl.
  - destruct (fav_id f =? fav_id fav)%N eqn:Hid.
    + apply N.eqb_eq in Hid. lia.
    + now rewrite IH.
Qed.

(** X12.  Creation and deletion are inverse to each other: in a store
    whose identifiers are all older than the next one, creating a
    favorite at coordinates that no document has and then deleting the
    identifier of the new record gives the collection back as it
    was. *)
Theorem favorites_create_then_delete (creq dreq : Request)
  (name : jsstring) (lat lon : number) (w : World) :
  creq = create_request (VStr name) (VNum lat) (VNum lon) ->
  name <> [] ->
  find (Server.matches_coords lat lon) (favorites w) = None ->
  ids_below w ->
  castObjectId (req_params_id dreq) = Some (next_oid w) ->
  let '(reply, w1) := Server.favorites_create Number_toString creq w in
  let w2 := snd (Server.favorites_delete castObjectId dreq w1) in
  (exists doc : Favorite,
     reply = record_reply doc /\ fav_id doc = next_oid w
     /\ fav_name doc = name /\ In doc (favorites w1))
  /\ favorites w2 = favorites w.
Proof.
  intros -> Hname Hfind Hids Hcast.
  rewrite (favorites_create_valid Number_toString lat lon w Hname), Hfind.
  cbv zeta beta iota.
  set (fav := {| fav_id := next_oid w; fav_name := name;
                 fav_lat := lat; fav_lon := lon;
                 fav_createdAt := now w; fav_updatedAt := now w |}).
  split.
  - exists fav. repeat split. cbn [favorites].
    apply in_or_app. right. left. reflexivity.
  - rewrite favorites_delete_world, Hcast. cbn [favorites].
    change (next_oid w) with (fav_id fav). apply remove_by_id_snoc.
    exact Hids.
Qed.

(** *** The listing *)

Lemma insert_newest_first_perm (f : Favorite) (l : list Favorite) :
  Permutation (f :: l) (Server.insert_newest_first f l).
Proof.
  induction l as [|g l IH]; simpl; [reflexivity|].
  destruct (fav_createdAt g <=? fav_createdAt f)%N; [reflexivity|].
  rewrite perm_swap. apply perm_skip. exact IH.
Qed.

Lemma sort_newest_first_perm (l : list Favorite) :
  Permutation l (Server.sort_newest_first l).
Proof.
  induction l as [|f l IH]; simpl; [constructor|].
  rewrite <- insert_newest_first_perm. apply perm_skip. exact IH.
Qed.

Lemma insert_newest_first_sorted (f : Favorite) (l : list Favorite) :
  newest_first l -> newest_first (Server.insert_newest_first f l).
Proof.
  unfold newest_first.
  induction 1 as [|g l Hl IH Hg]; simpl.
  - constructor; constructor.
  - destruct (fav_createdAt g <=? fav_createdAt f)%N eqn:Hle.
    + apply N.leb_le in Hle. constructor.
      * constructor; assumption.
      * constructor; [exact Hle|].
        eapply Forall_impl; [|exact Hg]. simpl. intros; lia.
    + apply N.leb_gt in Hle. constructor; [exact IH|].
      apply (Permutation_Forall (insert_newest_first_perm f l)).
      constructor; [lia | exact Hg].
Qed.

Lemma sort_newest_first_sorted (l : list Favorite) :
  newest_first (Server.sort_newest_first l).
Proof.
  induction l as [|f l IH]; simpl.
  - constructor.
  - apply insert_newest_first_sorted. exact IH.
Qed.

(** X13.  [favorites_list] hands over every document of the collection
    once, from the newest to the oldest, and changes nothing. *)
Theorem favorites_list_newest_first (req : Request) (w : World) :
  exists favs : list Favorite,
    Server.favorites_list req w = (Ok favs, w)
    /\ Permutation (favorites w) favs
    /\ newest_first favs.
Proof.
  exists (Server.sort_newest_first (favorites w)).
  split; [reflexivity|].
  split; [apply sort_newest_first_perm | apply sort_newest_first_sorted].
Qed.

Lemma sort_newest_first_snoc (l : list Favorite) (x : Favorite) :
  Forall (fun f => (fav_createdAt f < fav_createdAt x)%N) l ->
  Server.sort_newest_first (l ++ [x]) = x :: Server.sort_newest_first l.
Proof.
  induction 1 as [|f l Hf Hl IH]; simpl; [reflexivity|].
  rewrite IH. simpl.
  destruct (fav_createdAt x <=? fav_createdAt f)%N eqn:Hle;
    [|reflexivity].
  apply N.leb_le in Hle. lia.
Qed.

(** X14.  A favorite just created heads the listing: where the clock
    is past the creation time of every stored document and no document
    has the coordinates, the record that [favorites_create] returns is
    the first that [favorites_list] hands over, before the former
    listing. *)
Theorem favorites_created_is_listed_first (req : Request)
  (name : jsstring) (lat lon : number) (w : World) :
  name <> [] ->
  find (Server.matches_coords lat lon) (favorites w) = None ->
  Forall (fun f => (fav_createdAt f < now w)%N) (favorites w) ->
  let '(reply, w1) :=
    Server.favorites_create Number_toString
      (create_request (VStr name) (VNum lat) (VNum lon)) w in
  exists doc : Favorite,
    reply = record_reply doc
    /\ fst (Server.favorites_list req w1) =
       Ok (doc :: Server.sort_newest_first (favorites w)).
Proof.
  intros Hname Hfind Hclock.
  rewrite (favorites_create_valid Number_toString lat lon w Hname), Hfind.
  cbv zeta beta iota. eexists. split; [reflexivity|].
  unfold Server.favorites_list, Server.Favorite_find_sorted, bind, ret.
  cbn [fst favorites]. rewrite sort_newest_first_snoc; [reflexivity|].
  exact Hclock.
Qed.

(** *** The replies *)

Lemma returns_ret {A} (a : A) (P : A -> Prop) : P a -> returns_only (ret a) P.
Proof. intros H w. exact H. Qed.

Lemma returns_throw {A} (P : A -> Prop) : returns_only (@throw A) P.
Proof. intros w. exact I. Qed.

Lemma returns_bind {A B} (c : M A) (k : A -> M B) (P : B -> Prop) :
  (forall a, returns_only (k a) P) -> returns_only (bind c k) P.
Proof.
  intros Hk w. unfold bind. destruct (c w) as [[a|] w1]; [|exact I].
  apply Hk.
Qed.

Lemma returns_bind_with {A B} (c : M A) (k : A -> M B) (Q : A -> Prop)
  (P : B -> Prop) :
  returns_only c Q -> (forall a, Q a -> returns_only (k a) P) ->
  returns_only (bind c k) P.
Proof.
  intros Hc Hk w. unfold bind. specialize (Hc w).
  destruct (c w) as [[a|] w1]; [|exact I].
  apply Hk. exact Hc.
Qed.

Lemma call_map_returns_array (data : value) (f : value -> M value) :
  returns_only (call_map data f) (fun v => exists out, v = VArr out).
Proof.
  unfold call_map. destruct data; try apply returns_throw.
  apply returns_bind. intros out. apply returns_ret. eexists; reflexivity.
Qed.

Lemma replies_try_catch (body : M Response) (r500 : Response)
  (P : Response -> Prop) :
  returns_only body P -> P r500 ->
  always_replies (try_catch body (ret r500)) P.
Proof.
  intros Hb H500 w. unfold try_catch. specialize (Hb w).
  destruct (body w) as [[r|] w1]; simpl in *; eauto.
Qed.

Lemma geocode_always_replies (req : Request) :
  always_replies (Server.geocode upstream req) geocode_reply.
Proof.
  apply replies_try_catch; [|right; reflexivity].
  apply returns_bind. intros q.
  destruct (negb (truthy (VStr q))).
  { apply returns_ret. left. split; [reflexivity | eexists; reflexivity]. }
  apply returns_bind. intros data.
  apply returns_bind_with with (Q := fun v => exists out, v = VArr out);
    [apply call_map_returns_array|].
  intros places [out ->]. apply returns_ret.
  left. split; [reflexivity | eexists; reflexivity].
Qed.

Lemma forecast_always_replies (req : Request) :
  always_replies (Server.forecast upstream req) forecast_reply.
Proof.
  apply replies_try_catch; [|right; right; reflexivity].
  apply returns_bind. intros lat. apply returns_bind. intros lon.
  destruct (isNaN lat || isNaN lon).
  { apply returns_ret. right. left. reflexivity. }
  apply returns_bind. intros data. apply returns_ret. left. reflexivity.
Qed.

Lemma searchWeather_always_replies (req : Request) :
  always_replies (Server.searchWeather upstream req) search_reply.
Proof.
  apply replies_try_catch; [|right; right; right; reflexivity].
  apply returns_bind. intros q.
  destruct (negb (truthy (VStr q))).
  { apply returns_ret. right. left. reflexivity. }
  apply returns_bind. intros g_data.
  destruct (negb (truthy _)).
  { apply returns_ret. right. right. left. reflexivity. }
  repeat (apply returns_bind; intros ?).
  apply returns_ret. left. split; [reflexivity|].
  eexists. eexists. reflexivity.
Qed.

(** X15.  The three handlers that call the services always answer, and
    with a reply of their table: [geocode] 200 with an array or 500
    "Geocoding failed"; [forecast] 200, 400 "lat/lon required" or 500
    "Forecast failed"; [searchWeather] 200 with a place and a
    forecast, 400 "q required", 404 "Place not found" or 500 "Search
    failed".  Nothing thrown in them escapes. *)
Theorem service_handlers_always_reply (req : Request) :
  always_replies (Server.geocode upstream req) geocode_reply
  /\ always_replies (Server.forecast upstream req) forecast_reply
  /\ always_replies (Server.searchWeather upstream req) search_reply.
Proof.
  split; [apply geocode_always_replies|].
  split; [apply forecast_always_replies | apply searchWeather_always_replies].
Qed.

(** X16.  [favorites_create] always answers: 200 with a document, 400
    "name, lat, lon required" exactly when the name is falsy or a
    coordinate is not of type number, or 500 "Save failed"; and unless
    it answers 200 it leaves the world as it was. *)
Theorem favorites_create_replies (req : Request) (w : World) :
  let name := get_prop_opt (body_of req) (str "name") in
  let lat := get_prop_opt (body_of req) (str "lat") in
  let lon := get_prop_opt (body_of req) (str "lon") in
  let '(reply, w') := Server.favorites_create Number_toString req w in
  exists r : Response,
    reply = Ok r /\ create_reply r
    /\ (reply = invalid_body_reply <->
        truthy name && is_number lat && is_number lon = false)
    /\ (status r = 200%N \/ w' = w).
Proof.
  intros name lat lon. rewrite favorites_create_eq. cbv zeta.
  fold name lat lon.
  destruct lat as [| | | x | | |]; destruct lon as [| | | y | | |];
    try (eexists; split; [reflexivity|]; split; [right; left; reflexivity|];
         split; [|right; reflexivity];
         rewrite ?andb_false_r; split; reflexivity).
  destruct (truthy name) eqn:Hname.
  - destruct (find _ _) as [doc|].
    + eexists. split; [reflexivity|]. split; [left; eexists; reflexivity|].
      split; [|left; reflexivity]. split; discriminate.
    + destruct (Server.castString Number_toString name) as [s|].
      * eexists. split; [reflexivity|].
        split; [left; eexists; reflexivity|].
        split; [|left; reflexivity]. split; discriminate.
      * eexists. split; [reflexivity|].
        split; [right; right; reflexivity|].
        split; [|right; reflexivity]. split; discriminate.
  - eexists. split; [reflexivity|]. split; [right; left; reflexivity|].
    split; [|right; reflexivity]. split; reflexivity.
Qed.

(** *** The handler of creation, turn by turn *)

(** [favorites_create] is its two turns with nothing in between. *)
Lemma favorites_create_turns (req : Request) (w : World) :
  Server.favorites_create Number_toString req w =
  (t <- Server.favorites_create_lookup req ;;
   Server.favorites_create_save Number_toString t)%handler w.
Proof.
  unfold Server.favorites_create, Server.favorites_create_lookup,
    try_catch, bind.
  fold (body_of req).
  rewrite !(fun k => @get_prop_truthy (body_of req) k (body_of_truthy req)).
  cbn [must]. unfold ret, throw. cbv zeta.
  generalize (get_prop_opt (body_of req) (str "name")) as name.
  generalize (get_prop_opt (body_of req) (str "lat")) as vlat.
  generalize (get_prop_opt (body_of req) (str "lon")) as vlon.
  intros vlon vlat name.
  destruct (truthy name) eqn:Hname;
    destruct vlat as [| | | lat | | |]; try reflexivity;
    destruct vlon as [| | | lon | | |]; try reflexivity.
  cbn [negb is_number orb].
  unfold Server.Favorite_findOne.
  destruct (find (Server.matches_coords lat lon) (favorites w));
    [reflexivity|].
  cbn [Server.favorites_create_save]. unfold try_catch, bind, ret.
  destruct (Server.Favorite_create Number_toString name lat lon w)
    as [[fav|] w']; reflexivity.
Qed.

Lemma favorites_create_lookup_valid (name : jsstring) (lat lon : number)
  (w : World) :
  name <> [] ->
  Server.favorites_create_lookup
    (create_request (VStr name) (VNum lat) (VNum lon)) w =
  (Ok match find (Server.matches_coords lat lon) (favorites w) with
      | Some doc =>
          Server.Replied {| status := 200; payload := BDoc doc |}
      | None => Server.Saving (VStr name) lat lon
      end, w).
Proof.
  intros Hname. destruct name as [|c name]; [congruence|].
  unfold Server.favorites_create_lookup, try_catch, bind, create_request,
    Server.Favorite_findOne.
  cbn.
  destruct (find (Server.matches_coords lat lon) (favorites w));
    reflexivity.
Qed.

Lemma matches_coords_own (f : Favorite) :
  Server.matches_coords (fav_lat f) (fav_lon f) f = true.
Proof.
  unfold Server.matches_coords. now rewrite !mongo_num_eq_refl.
Qed.

Lemma ordered_pairs_last_two {A} (R : A -> A -> Prop) (l : list A)
  (a b : A) :
  ForallOrdPairs R (l ++ [a; b]) -> R a b.
Proof.
  induction l as [|x l IH]; simpl; intros H;
    inversion H as [|? ? Hall Hrest]; subst.
  - inversion Hall; subst. assumption.
  - apply IH. exact Hrest.
Qed.

(** X27.  Two creations that overlap both insert: where no document
    has the coordinates and both requests, of names that are not empty
    and of the same coordinates, have the answer of their [findOne]
    before either calls [create], each is answered 200 with a record
    of its own, and the collection ends with both records, two
    documents of the same coordinates. *)
Theorem favorites_create_overlapping_inserts_twice
  (name1 name2 : jsstring) (lat lon : number) (w : World) :
  name1 <> [] ->
  name2 <> [] ->
  find (Server.matches_coords lat lon) (favorites w) = None ->
  let req1 := create_request (VStr name1) (VNum lat) (VNum lon) in
  let req2 := create_request (VStr name2) (VNum lat) (VNum lon) in
  let '(replies, w') := overlapping_creates Number_toString req1 req2 w in
  exists doc1 doc2 : Favorite,
    replies = Ok ({| status := 200; payload := BDoc doc1 |},
                  {| status := 200; payload := BDoc doc2 |})
    /\ fav_name doc1 = name1 /\ fav_name doc2 = name2
    /\ fav_id doc1 <> fav_id doc2
    /\ Server.matches_coords lat lon doc1 = true
    /\ Server.matches_coords lat lon doc2 = true
    /\ favorites w' = favorites w ++ [doc1; doc2]
    /\ ~ unique_coords (favorites w').
Proof.
  intros Hname1 Hname2 Hfind req1 req2.
  unfold overlapping_creates, bind at 1.
  unfold req1. rewrite (favorites_create_lookup_valid lat lon w Hname1).
  rewrite Hfind. unfold bind at 1.
  unfold req2. rewrite (favorites_create_lookup_valid lat lon w Hname2).
  rewrite Hfind.
  unfold bind, Server.favorites_create_save, try_catch,
    Server.Favorite_create, ret.
  cbn [Server.castString favorites next_oid now sent].
  set (doc1 := {| fav_id := next_oid w; fav_name := name1;
                  fav_lat := lat; fav_lon := lon;
                  fav_createdAt := now w; fav_updatedAt := now w |}).
  set (doc2 := {| fav_id := N.succ (next_oid w); fav_name := name2;
                  fav_lat := lat; fav_lon := lon;
                  fav_createdAt := now w; fav_updatedAt := now w |}).
  exists doc1, doc2.
  split; [reflexivity|]. split; [reflexivity|]. split; [reflexivity|].
  split; [cbn [doc1 doc2 fav_id]; lia|].
  split; [exact (matches_coords_own doc1)|].
  split; [exact (matches_coords_own doc2)|].
  assert (Hfavs : (favorites w ++ [doc1]) ++ [doc2]
                  = favorites w ++ [doc1; doc2])
    by (rewrite <- app_assoc; reflexivity).
  split; [exact Hfavs|].
  intros Huniq.
  change (unique_coords ((favorites w ++ [doc1]) ++ [doc2])) in Huniq.
  rewrite Hfavs in Huniq.
  apply ordered_pairs_last_two in Huniq.
  pose proof (matches_coords_own doc2) as Hown.
  change (Server.matches_coords lat lon doc2 = false) in Huniq.
  change (Server.matches_coords lat lon doc2 = true) in Hown.
  congruence.
Qed.

End MoreServerProperties.

(** * Further properties of the client *)

Lemma mapi_from_length {A B} (f : A -> nat -> option B) (xs : list A) :
  forall (start : nat) (ys : list B),
    Client.mapi_from f start xs = Some ys ->
    List.length ys = List.length xs.
Proof.
  induction xs as [|t xs IH]; simpl; intros start ys Hmap.
  - injection Hmap as <-. reflexivity.
  - destruct (f t start) as [b|]; [|discriminate].
    destruct (Client.mapi_from f (S start) xs) as [bs|] eqn:Hbs;
      [|discriminate].
    injection Hmap as <-. simpl. now rewrite (IH _ _ Hbs).
Qed.

Lemma mapi_from_total {A B} (f : A -> nat -> option B) (xs : list A) :
  (forall t i, f t i <> None) ->
  forall start : nat, Client.mapi_from f start xs <> None.
Proof.
  intros Hf. induction xs as [|t xs IH]; simpl; intros start.
  - discriminate.
  - destruct (f t start) eqn:Hb; [|intros _; exact (Hf _ _ Hb)].
    destruct (Client.mapi_from f (S start) xs) eqn:Hbs;
      [discriminate | intros _; exact (IH _ Hbs)].
Qed.

Lemma get_index_has_properties (v : value) (i : nat) :
  has_properties v = true -> get_index v i <> None.
Proof. destruct v; simpl; congruence. Qed.

(** The day that the callback of [daily] builds carries the entries at
    its offset. *)
Lemma day_of_columns (d t : value) (i : nat) (day : Client.Day) :
  truthy d = true ->
  Client.day_of d t i = Some day ->
  Client.date day = t
  /\ get_index (get_prop_opt d (str "temperature_2m_max")) i
     = Some (Client.tmax day)
  /\ get_index (get_prop_opt d (str "temperature_2m_min")) i
     = Some (Client.tmin day)
  /\ get_index (get_prop_opt d (str "precipitation_sum")) i
     = Some (Client.precip day)
  /\ Client.uv day = get_index_opt (get_prop_opt d (str "uv_index_max")) i
  /\ Client.windmax day
     = get_index_opt (get_prop_opt d (str "wind_speed_10m_max")) i.
Proof.
  intros Hd. unfold Client.day_of.
  rewrite !(fun k => @get_prop_truthy d k Hd).
  destruct (get_index (get_prop_opt d (str "temperature_2m_max")) i);
    [|discriminate].
  destruct (get_index (get_prop_opt d (str "temperature_2m_min")) i);
    [|discriminate].
  destruct (get_index (get_prop_opt d (str "precipitation_sum")) i);
    [|discriminate].
  intros H. injection H as <-. simpl. repeat split.
Qed.

(** X17.  [daily] transposes the parallel arrays of the forecast: where
    it returns, it returns one day for each entry of [daily.time], and
    the day at offset [i] carries the entries at offset [i] of the
    time, the two temperature and the precipitation arrays, and those
    of the UV and wind arrays or [undefined] where these are absent. *)
Theorem daily_transposes (forecast : value) (days : list Client.Day)
  (i : nat) (day : Client.Day) :
  Client.daily forecast = Some days ->
  nth_error days i = Some day ->
  List.length days =
    match get_prop_opt (get_prop_opt forecast (str "daily")) (str "time")
    with
    | VArr times => List.length times
    | _ => 0%nat
    end
  /\ daily_column forecast "time" i = Some (Client.date day)
  /\ daily_column forecast "temperature_2m_max" i = Some (Client.tmax day)
  /\ daily_column forecast "temperature_2m_min" i = Some (Client.tmin day)
  /\ daily_column forecast "precipitation_sum" i = Some (Client.precip day)
  /\ Client.uv day =
     get_index_opt
       (get_prop_opt (get_prop_opt forecast (str "daily"))
          (str "uv_index_max")) i
  /\ Client.windmax day =
     get_index_opt
       (get_prop_opt (get_prop_opt forecast (str "daily"))
          (str "wind_speed_10m_max")) i.
Proof.
  unfold Client.daily, daily_column.
  set (d := get_prop_opt forecast (str "daily")).
  destruct (truthy d) eqn:Hd; simpl.
  2:{ intros H; injection H as <-. destruct i; discriminate. }
  rewrite (@get_prop_truthy d (str "time") Hd).
  destruct (get_prop_opt d (str "time")) as [| | | | |times|];
    try discriminate.
  intros Hmap Hnth.
  split; [exact (mapi_from_length _ _ _ Hmap)|].
  destruct (mapi_from_nth _ _ _ _ Hmap Hnth) as [t [Ht Hday]].
  simpl in Hday.
  destruct (day_of_columns d t i Hd Hday) as [Hdate Hrest].
  split; [|exact Hrest].
  simpl. rewrite Ht, Hdate. reflexivity.
Qed.

(** X18.  [daily] returns, and rendering does not throw, whenever
    [daily.time] is an array and the two temperature arrays and the
    precipitation array are there, whatever their lengths; the UV and
    the wind arrays may be missing. *)
Theorem daily_returns (forecast : value) (times : list value) :
  get_prop_opt (get_prop_opt forecast (str "daily")) (str "time")
    = VArr times ->
  has_column forecast "temperature_2m_max" = true ->
  has_column forecast "temperature_2m_min" = true ->
  has_column forecast "precipitation_sum" = true ->
  exists days : list Client.Day,
    Client.daily forecast = Some days
    /\ List.length days = List.length times.
Proof.
  unfold has_column, Client.daily.
  set (d := get_prop_opt forecast (str "daily")).
  intros Htime Hmax Hmin Hsum.
  assert (Hd : truthy d = true).
  { destruct d; try reflexivity; exfalso;
      unfold get_prop_opt in Htime; simpl in Htime; try discriminate;
      destruct (jsstring_eqb _ _); discriminate. }
  rewrite Hd. cbn [negb].
  rewrite (@get_prop_truthy d (str "time") Hd), Htime.
  destruct (Client.mapi_from (Client.day_of d) 0 times) as [days|] eqn:Hmap.
  - exists days. split; [reflexivity|].
    exact (mapi_from_length _ _ _ Hmap).
  - exfalso. revert Hmap. apply mapi_from_total.
    intros t i. unfold Client.day_of.
    rewrite !(fun k => @get_prop_truthy d k Hd).
    pose proof (@get_index_has_properties _ i Hmax) as H1.
    pose proof (@get_index_has_properties _ i Hmin) as H2.
    pose proof (@get_index_has_properties _ i Hsum) as H3.
    destruct (get_index (get_prop_opt d (str "temperature_2m_max")) i);
      [|congruence].
    destruct (get_index (get_prop_opt d (str "temperature_2m_min")) i);
      [|congruence].
    destruct (get_index (get_prop_opt d (str "precipitation_sum")) i);
      [|congruence].
    discriminate.
Qed.


Lemma get_index_no_properties (v : value) (i : nat) :
  has_properties v = false -> get_index v i = None.
Proof. destruct v; simpl; congruence. Qed.

(** X19.  Where [daily.time] has an entry and one of the two
    temperature arrays or the precipitation array is missing, [daily]
    throws: the component does not render. *)
Theorem daily_missing_column (forecast : value) (t : value)
  (times : list value) :
  get_prop_opt (get_prop_opt forecast (str "daily")) (str "time")
    = VArr (t :: times) ->
  has_column forecast "temperature_2m_max"
  && has_column forecast "temperature_2m_min"
  && has_column forecast "precipitation_sum" = false ->
  Client.daily forecast = None.
Proof.
  unfold has_column, Client.daily.
  set (d := get_prop_opt forecast (str "daily")).
  intros Htime Hmissing.
  assert (Hd : truthy d = true).
  { destruct d; try reflexivity; exfalso;
      unfold get_prop_opt in Htime; simpl in Htime; try discriminate;
      destruct (jsstring_eqb _ _); discriminate. }
  rewrite Hd. cbn [negb].
  rewrite (@get_prop_truthy d (str "time") Hd), Htime.
  cbn [Client.mapi_from]. unfold Client.day_of.
  rewrite !(fun k => @get_prop_truthy d k Hd).
  destruct (has_properties (get_prop_opt d (str "temperature_2m_max")))
    eqn:H1.
  2:{ now rewrite (@get_index_no_properties _ 0 H1). }
  destruct (get_index (get_prop_opt d (str "temperature_2m_max")) 0);
    [|reflexivity].
  destruct (has_properties (get_prop_opt d (str "temperature_2m_min")))
    eqn:H2.
  2:{ now rewrite (@get_index_no_properties _ 0 H2). }
  destruct (get_index (get_prop_opt d (str "temperature_2m_min")) 0);
    [|reflexivity].
  simpl in Hmissing.
  now rewrite (@get_index_no_properties _ 0 Hmissing).
Qed.

Lemma float_ltb_leb (x y : number) :
  (x <? y)%float = true -> (x <=? y)%float = true.
Proof.
  rewrite ltb_spec, leb_spec. unfold SFltb, SFleb.
  destruct (SFcompare (Prim2SF x) (Prim2SF y)) as [[| |]|];
    try discriminate; reflexivity.
Qed.

(** X20.  The bar never overflows its box: whatever the precipitation
    entry of a day, a height that is a number is 100 at most. *)
Theorem bar_height_at_most_100 (day : Client.Day) (h : number) :
  Client.bar_height day = Some h ->
  isNaN h = false ->
  (h <=? 100)%float = true.
Proof.
  unfold Client.bar_height.
  destruct (ToNumber (Client.precip day)) as [p|]; [|discriminate].
  intros H Hh. injection H as <-.
  destruct (isNaN (p * 10)) eqn:Hnan.
  - exfalso. unfold Client.Math_min in Hh. cbn [existsb] in Hh.
    rewrite Hnan in Hh. rewrite orb_true_r in Hh. cbn [orb] in Hh.
    discriminate Hh.
  - replace (Client.Math_min _) with (lesser 100 (p * 10))
      by (symmetry; apply Math_min_100; exact Hnan).
    unfold lesser.
    destruct (p * 10 <? 100)%float eqn:Hlt.
    + apply float_ltb_leb. exact Hlt.
    + reflexivity.
Qed.

Section ClientProperties.

Variable fetch_json : Client.ClientRequest -> Client.fetched.
Variable timeZone : jsstring.
Variable ToString_other : value -> jsstring.
Variable TypeError_message : value -> jsstring.
Variable URIError_message : jsstring.

Lemma message_or_forecast (m : jsstring) :
  Client.message_or m "Failed to load forecast" <> [].
Proof. destruct m; [vm_compute|simpl]; discriminate. Qed.

Lemma message_or_search (m : jsstring) :
  Client.message_or m "Search failed" <> [].
Proof. destruct m; [vm_compute|simpl]; discriminate. Qed.

(** What [data_or_throw] lets through is the data of a reply whose
    [error] is falsy. *)
Lemma data_or_throw_data (r : Client.fetched) (data : value) :
  Client.data_or_throw ToString_other TypeError_message r = inr data ->
  r = Client.Resolved data
  /\ truthy (get_prop_opt data (str "error")) = false.
Proof.
  unfold Client.data_or_throw, get_prop_opt.
  destruct r as [d|m]; [|discriminate].
  destruct (get_prop d (str "error")) as [err|] eqn:Hget; [|discriminate].
  destruct (truthy err) eqn:Herr.
  - destruct (Client.ToString ToString_other err); discriminate.
  - intros H. injection H as <-. rewrite Hget.
    split; [reflexivity | exact Herr].
Qed.

(** X21.  [fetchForecast] on a place ends with the loader off, and
    either shows the place with the data of the reply and no error, or
    shows an error and keeps the place and the forecast it had; the
    query, the suggestions and the favorites are as before. *)
Theorem fetchForecast_outcome (place : value) (st : Client.AppState) :
  truthy place = true ->
  let st' := Client.fetchForecast fetch_json timeZone ToString_other
               TypeError_message URIError_message place st in
  Client.loading st' = false
  /\ Client.query st' = Client.query st
  /\ Client.suggestions st' = Client.suggestions st
  /\ Client.favs st' = Client.favs st
  /\ ((Client.error st' = []
       /\ Client.selected st' = place
       /\ fetch_json (Client.GetForecast (get_prop_opt place (str "lat"))
                        (get_prop_opt place (str "lon")) timeZone)
          = Client.Resolved (Client.forecast st')
       /\ truthy (get_prop_opt (Client.forecast st') (str "error")) = false)
      \/ (Client.error st' <> []
          /\ Client.selected st' = Client.selected st
          /\ Client.forecast st' = Client.forecast st)).
Proof.
  intros Hplace st'. unfold st', Client.fetchForecast. rewrite Hplace.
  cbn [negb].
  set (lat := get_prop_opt place (str "lat")).
  set (lon := get_prop_opt place (str "lon")).
  destruct (Client.ToString ToString_other lat);
    [destruct (Client.ToString ToString_other lon);
     [destruct (Client.well_formed timeZone); cbn [negb];
      [destruct (Client.data_or_throw ToString_other TypeError_message
                   (fetch_json (Client.GetForecast lat lon timeZone)))
         as [m|data] eqn:Hdata|]|]|];
    cbn; repeat (split; [reflexivity|]);
    try (right; split; [apply message_or_forecast | split; reflexivity]).
  left. destruct (data_or_throw_data _ Hdata) as [Hr Herr].
  repeat split; assumption.
Qed.

(** X22.  [runSearch] on a query that is not blank ends with the
    loader off, and either shows the place and the forecast of the
    reply and no error, or shows an error and keeps the place and the
    forecast it had; the query, the suggestions and the favorites are
    as before. *)
Theorem runSearch_outcome (st : Client.AppState) :
  trim (Client.query st) <> [] ->
  let st' := Client.runSearch fetch_json timeZone ToString_other
               TypeError_message URIError_message st in
  Client.loading st' = false
  /\ Client.query st' = Client.query st
  /\ Client.suggestions st' = Client.suggestions st
  /\ Client.favs st' = Client.favs st
  /\ ((Client.error st' = []
       /\ exists data : value,
            fetch_json (Client.GetSearchWeather (trim (Client.query st))
                          timeZone) = Client.Resolved data
            /\ truthy (get_prop_opt data (str "error")) = false
            /\ Client.selected st' = get_prop_opt data (str "place")
            /\ Client.forecast st' = get_prop_opt data (str "forecast"))
      \/ (Client.error st' <> []
          /\ Client.selected st' = Client.selected st
          /\ Client.forecast st' = Client.forecast st)).
Proof.
  intros Hq st'. unfold st', Client.runSearch.
  rewrite (truthy_nonempty Hq). cbn [negb].
  destruct (Client.well_formed (trim (Client.query st))
            && Client.well_formed timeZone); cbn [negb];
    [destruct (Client.data_or_throw ToString_other TypeError_message
                 (fetch_json (Client.GetSearchWeather
                                (trim (Client.query st)) timeZone)))
       as [m|data] eqn:Hdata|];
    cbn; repeat (split; [reflexivity|]);
    try (right; split; [apply message_or_search | split; reflexivity]).
  left. destruct (data_or_throw_data _ Hdata) as [Hr Herr].
  split; [reflexivity|]. exists data. repeat split; assumption.
Qed.

(** X23.  The client shows what the server says: [runSearch] given a
    reply of [searchWeather] whose status is not 200 ends with the
    error of that reply ("q required", "Place not found" or "Search
    failed") on display, the loader off, and the place and the
    forecast it had. *)
Theorem runSearch_shows_server_error
  (upstream : UpstreamCall -> option value) (w : World)
  (reply : Response) (v : value) (st : Client.AppState) :
  let q := trim (Client.query st) in
  q <> [] ->
  Client.well_formed q && Client.well_formed timeZone = true ->
  fst (Server.searchWeather upstream (search_request q timeZone) w)
    = Ok reply ->
  status reply <> 200%N ->
  payload reply = BJson v ->
  fetch_json (Client.GetSearchWeather q timeZone) = Client.Resolved v ->
  let st' := Client.runSearch fetch_json timeZone ToString_other
               TypeError_message URIError_message st in
  VStr (Client.error st') = get_prop_opt v (str "error")
  /\ Client.error st' <> []
  /\ Client.loading st' = false
  /\ Client.selected st' = Client.selected st
  /\ Client.forecast st' = Client.forecast st.
Proof.
  intros q Hq Hwf Hreply Hstatus Hpayload Hfetch st'.
  destruct (searchWeather_always_replies upstream
              (search_request q timeZone) w) as [r [Hr Hshape]].
  rewrite Hreply in Hr. injection Hr as <-.
  unfold st', Client.runSearch. fold q.
  rewrite (truthy_nonempty Hq), Hwf, Hfetch. cbn [negb].
  destruct Hshape as [[H200 _] | Herr]; [congruence|].
  destruct Herr as [-> | [-> | ->]];
    injection Hpayload as <-; vm_compute;
    repeat split; discriminate.
Qed.

(** X24.  A blank query asks nothing of the network: whatever it would
    answer, [runSearch] leaves the state as it is, and the callback of
    the suggestions timer only empties the suggestions. *)
Theorem blank_query_asks_nothing (st : Client.AppState) :
  forallb is_js_space (Client.query st) = true ->
  Client.runSearch fetch_json timeZone ToString_other TypeError_message
    URIError_message st = st
  /\ Client.suggest fetch_json st = Client.setSuggestions (VArr []) st.
Proof.
  intros Hblank. unfold Client.runSearch, Client.suggest.
  rewrite (trim_all_space _ Hblank). split; reflexivity.
Qed.

Lemma jsstring_eqb_refl (s : jsstring) : jsstring_eqb s s = true.
Proof.
  unfold jsstring_eqb. destruct (list_eq_dec N.eq_dec s s); congruence.
Qed.

Lemma saveFavorite_setFavs_string_id (data : value) (c : N) (id : jsstring)
  (p : list value) :
  all_records p ->
  id_of data = VStr (c :: id) ->
  Client.saveFavorite_setFavs data p =
  Some (if existsb
             (fun f => Client.strict_eq (id_of f) (VStr (c :: id))) p
        then p else data :: p).
Proof.
  intros Hrec Hid. unfold Client.saveFavorite_setFavs.
  fold (id_of data). rewrite Hid. cbn [truthy].
  assert (Hget : get_prop data (str "_id") = Some (VStr (c :: id))).
  { rewrite <- Hid. apply truthy_id_record. now rewrite Hid. }
  rewrite Hget.
  rewrite (js_some_records (VStr (c :: id)) Hrec).
  destruct (existsb _ p); reflexivity.
Qed.

(** X25.  Saving the same reply twice adds it once: on a list of
    records, the update of [saveFavorite] for a reply whose [_id] is a
    string, applied to its own result, changes nothing. *)
Theorem saveFavorite_twice_adds_once (data : value) (id : jsstring)
  (p : list value) :
  all_records p ->
  id_of data = VStr id ->
  exists p1 : list value,
    Client.saveFavorite_setFavs data p = Some p1
    /\ Client.saveFavorite_setFavs data p1 = Some p1.
Proof.
  intros Hrec Hid.
  destruct id as [|c id].
  { exists p. unfold Client.saveFavorite_setFavs. fold (id_of data).
    rewrite Hid. simpl. auto. }
  rewrite (@saveFavorite_setFavs_string_id data c id p Hrec Hid).
  destruct (existsb
              (fun f => Client.strict_eq (id_of f) (VStr (c :: id))) p)
    eqn:Hsome.
  - exists p. split; [reflexivity|].
    rewrite (@saveFavorite_setFavs_string_id data c id p Hrec Hid), Hsome.
    reflexivity.
  - exists (data :: p). split; [reflexivity|].
    assert (Hrec' : all_records (data :: p)).
    { constructor; [|exact Hrec].
      rewrite (truthy_id_record data); [discriminate|].
      now rewrite Hid. }
    rewrite (@saveFavorite_setFavs_string_id data c id (data :: p) Hrec' Hid).
    cbn [existsb]. rewrite Hid. cbn [Client.strict_eq].
    now rewrite jsstring_eqb_refl.
Qed.

(** X26.  A save that the server does not answer with 200 changes
    nothing: [saveFavorite] given a reply of [favorites_create] whose
    status is 400 or 500 returns the state as it was, favorites
    included. *)
Theorem saveFavorite_turned_down (Number_toString : number -> jsstring)
  (req : Request) (w : World) (reply : Response) (v : value)
  (st : Client.AppState) :
  fst (Server.favorites_create Number_toString req w) = Ok reply ->
  status reply <> 200%N ->
  payload reply = BJson v ->
  fetch_json (Client.PostFavorite (Client.selected st)) = Client.Resolved v ->
  Client.saveFavorite fetch_json st = Some st.
Proof.
  intros Hreply Hstatus Hpayload Hfetch.
  unfold Client.saveFavorite.
  destruct (negb (truthy (Client.selected st))); [reflexivity|].
  rewrite Hfetch.
  assert (Hv : v = error_object "name, lat, lon required"
               \/ v = error_object "Save failed").
  { rewrite favorites_create_eq in Hreply. cbv zeta in Hreply.
    destruct (get_prop_opt (body_of req) (str "lat")) as [| | | x | | |];
      try (injection Hreply as <-; injection Hpayload as <-;
           left; reflexivity).
    destruct (get_prop_opt (body_of req) (str "lon")) as [| | | y | | |];
      try (injection Hreply as <-; injection Hpayload as <-;
           left; reflexivity).
    destruct (truthy _);
      [|injection Hreply as <-; injection Hpayload as <-; left; reflexivity].
    destruct (find _ _);
      [injection Hreply as <-; simpl in Hstatus; congruence|].
    destruct (Server.castString Number_toString _);
      [injection Hreply as <-; simpl in Hstatus; congruence|].
    injection Hreply as <-. injection Hpayload as <-. right. reflexivity. }
  destruct Hv as [-> | ->]; reflexivity.
Qed.

End ClientProperties.

(** ** The properties at work on the scenarios *)

Import Scenario.

(** C1: the amended property on two creations at Kolhapur's
    coordinates in an empty collection. *)
Lemma favorites_create_idempotent_witness :
  str "Kolhapur" <> [] /\ str "Home" <> []
  /\ create_twice_same_record no_number_names
       (str "Kolhapur") (str "Home") 16.7 74.24 empty_world.
Proof.
  assert (H1 : str "Kolhapur" <> []) by (vm_compute; discriminate).
  assert (H2 : str "Home" <> []) by (vm_compute; discriminate).
  split; [exact H1|]. split; [exact H2|].
  exact (proj1 (favorites_create_idempotent no_number_names
                  16.7%float 74.24%float empty_world H1 H2)).
Defined.

(** C1 fails as stated: after a creation at Kolhapur's coordinates, a
    second one with the empty name is turned down with status 400 and
    does not return the stored record. *)
Lemma favorites_create_empty_name_counterexample :
  ~ create_twice_same_record no_number_names
      (str "Kolhapur") [] 16.7 74.24 empty_world.
Proof.
  intros H. vm_compute in H.
  destruct H as [doc [_ [H _]]]. discriminate H.
Qed.

(** C2: the amended property on a latitude that is no number. *)
Lemma forecast_rejects_nan_witness :
  let req := get_request [("lat", "north"); ("lon", "74.24")] in
  ToNumber (query_param req "lat") = Some nan
  /\ ToNumber (query_param req "lon") = Some 74.24%float
  /\ isNaN nan || isNaN 74.24 = true
  /\ forecast_rejects services req empty_world.
Proof.
  intros req.
  assert (Hlat : ToNumber (query_param req "lat") = Some nan)
    by (vm_compute; reflexivity).
  assert (Hlon : ToNumber (query_param req "lon") = Some 74.24%float)
    by (vm_compute; reflexivity).
  assert (Hnan : isNaN nan || isNaN 74.24 = true)
    by (vm_compute; reflexivity).
  split; [exact Hlat|]. split; [exact Hlon|]. split; [exact Hnan|].
  exact (forecast_rejects_nan services req empty_world
           Hlat Hlon Hnan).
Defined.

(** C2 fails as stated: the latitude [Infinity] does not parse as a
    finite number, yet the request is not turned down as invalid; it
    goes upstream with an infinite latitude, and the reply is the 500
    of an upstream failure. *)
Lemma forecast_infinite_latitude_counterexample :
  let req := get_request [("lat", "Infinity"); ("lon", "74.24")] in
  parses_as_finite (query_param req "lat") = false
  /\ Server.forecast services req empty_world =
     (Ok (res_status_json 500 (error_object "Forecast failed")),
      after_call empty_world
        (forecast_call infinity 74.24 (VStr (str "auto"))))
  /\ ~ forecast_rejects services req empty_world.
Proof.
  intros req.
  split; [vm_compute; reflexivity|].
  split; [vm_compute; reflexivity|].
  intros H. vm_compute in H. discriminate H.
Qed.

(** C3: the property on a query the place search knows nothing of. *)
Lemma searchWeather_place_not_found_witness :
  let req := get_request [("q", "ZZZNotAPlaceZZZ")] in
  let q := str "ZZZNotAPlaceZZZ" in
  query_param req "q" = VStr q
  /\ trim q <> []
  /\ services (search_geocode_call (trim q)) = Some (VArr [])
  /\ let '(reply, w') :=
       Server.searchWeather services req empty_world in
     reply = Ok (res_status_json 404 (error_object "Place not found"))
     /\ w' = after_call empty_world (search_geocode_call (trim q))
     /\ forecast_calls (sent w') = forecast_calls (sent empty_world).
Proof.
  intros req q.
  assert (Hq : query_param req "q" = VStr q) by (vm_compute; reflexivity).
  assert (Hne : trim q <> []) by (vm_compute; discriminate).
  assert (Hup : services (search_geocode_call (trim q))
                = Some (VArr [])) by (vm_compute; reflexivity).
  split; [exact Hq|]. split; [exact Hne|]. split; [exact Hup|].
  exact (searchWeather_place_not_found services req
           empty_world Hq Hne Hup).
Defined.

(** C4: the amended property on a search that finds Kolhapur. *)
Lemma geocode_passes_upstream_through_witness :
  let req := get_request [("q", " Kolhapur ")] in
  let q := str " Kolhapur " in
  query_param req "q" = VStr q
  /\ trim q <> []
  /\ services (geocode_call (trim q)) = Some (VArr [kolhapur])
  /\ forallb convertible [kolhapur] = true
  /\ Server.geocode services req empty_world =
     (Ok (res_json (VArr [place_of_record kolhapur])),
      after_call empty_world (geocode_call (trim q)))
  /\ valid_place (place_of_record kolhapur) = true.
Proof.
  intros req q.
  assert (Hq : query_param req "q" = VStr q) by (vm_compute; reflexivity).
  assert (Hne : trim q <> []) by (vm_compute; discriminate).
  assert (Hup : services (geocode_call (trim q))
                = Some (VArr [kolhapur])) by (vm_compute; reflexivity).
  assert (Hrec : forallb convertible [kolhapur] = true)
    by (vm_compute; reflexivity).
  split; [exact Hq|]. split; [exact Hne|]. split; [exact Hup|].
  split; [exact Hrec|].
  split; [|vm_compute; reflexivity].
  exact (proj1 (geocode_passes_upstream_through services req
                  empty_world Hq Hne Hup Hrec)).
Defined.

(** C4 fails as stated: where the place search answers with six
    records, [geocode] returns six Places. *)
Lemma geocode_six_places_counterexample :
  let req := get_request [("q", "Kolhapur")] in
  fst (Server.geocode services_six req empty_world) =
    Ok (res_json (VArr (map place_of_record
          [kolhapur; kolhapur; kolhapur; kolhapur; kolhapur; kolhapur])))
  /\ ~ geocode_bounded services_six req empty_world.
Proof.
  intros req. split; [vm_compute; reflexivity|].
  intros [places [Hreply [Hlen _]]].
  vm_compute in Hreply. injection Hreply as <-. simpl in Hlen. lia.
Qed.

(** C5 fails as stated: the request [forecast] sends for Kolhapur's
    coordinates asks for a third group, the hourly variables. *)
Lemma forecast_hourly_group_counterexample :
  let req := get_request [("lat", "16.7"); ("lon", "74.24")] in
  let c := forecast_call 16.7 74.24 (VStr (str "auto")) in
  sent (snd (Server.forecast services req empty_world)) = [c]
  /\ group_is c "hourly" source_hourly = true
  /\ requests_current_and_daily_only c = false.
Proof.
  intros req c. repeat split; vm_compute; reflexivity.
Qed.

(** C6: the property on a query of three spaces. *)
Lemma geocode_blank_query_witness :
  let req := get_request [("q", "   ")] in
  query_param req "q" = VStr (str "   ")
  /\ forallb is_js_space (str "   ") = true
  /\ Server.geocode services req empty_world =
     (Ok (res_json (VArr [])), empty_world).
Proof.
  intros req.
  assert (Hq : query_param req "q" = VStr (str "   "))
    by (vm_compute; reflexivity).
  assert (Hblank : forallb is_js_space (str "   ") = true)
    by (vm_compute; reflexivity).
  split; [exact Hq|]. split; [exact Hblank|].
  exact (geocode_blank_query services req empty_world Hq Hblank).
Defined.

(** C7 on a collection of one document: an identifier that does not
    cast, one that names no document, and the document's own, twice. *)
Example favorites_delete_scenarios :
  Server.favorites_delete cast_hex24 (delete_request (str "abc"))
    one_favorite = (ok_reply, one_favorite)
  /\ Server.favorites_delete cast_hex24
       (delete_request (str "000000000000000000000000")) one_favorite
     = (ok_reply, one_favorite)
  /\ let id := str "65a1b2c3d4e5f60718293a4b" in
     let '(reply1, w1) :=
       Server.favorites_delete cast_hex24 (delete_request id)
         one_favorite in
     let '(reply2, w2) :=
       Server.favorites_delete cast_hex24 (delete_request id) w1 in
     reply1 = ok_reply
     /\ reply2 = ok_reply
     /\ favorites w1 = [] /\ favorites w2 = [].
Proof. repeat split; vm_compute; reflexivity. Qed.

(** C8: the property on the second day of a forecast, with 12.4
    millimetres: the bar is full. *)
Lemma precipitation_bar_height_witness :
  Client.daily two_days = Some [dry_day; wet_day]
  /\ nth_error [dry_day; wet_day] 1 = Some wet_day
  /\ precipitation_sum_at two_days 1 = Some (VNum 12.4)
  /\ isNaN 12.4 = false
  /\ Client.bar_height wet_day = Some (lesser 100 (12.4 * 10))
  /\ lesser 100 (12.4 * 10) = 100%float.
Proof.
  assert (Hdaily : Client.daily two_days = Some [dry_day; wet_day])
    by (vm_compute; reflexivity).
  assert (Hnth : nth_error [dry_day; wet_day] 1 = Some wet_day)
    by reflexivity.
  assert (Hsum : precipitation_sum_at two_days 1 = Some (VNum 12.4))
    by (vm_compute; reflexivity).
  assert (Hp : isNaN 12.4 = false) by (vm_compute; reflexivity).
  split; [exact Hdaily|]. split; [exact Hnth|]. split; [exact Hsum|].
  split; [exact Hp|]. split; [|vm_compute; reflexivity].
  exact (precipitation_bar_height two_days 1 Hdaily Hnth Hsum Hp).
Defined.

(** C9: the property on a body whose coordinates are strings that
    read as numbers; [forecast] takes the same strings. *)
Lemma favorites_create_numeric_by_type_witness :
  let req := create_request (VStr (str "Kolhapur"))
               (VStr (str "16.7")) (VStr (str "74.24")) in
  let freq := get_request [("lat", "16.7"); ("lon", "74.24")] in
  (is_number (get_prop_opt (body_of req) (str "lat")) = false
   \/ is_number (get_prop_opt (body_of req) (str "lon")) = false)
  /\ Server.favorites_create no_number_names req empty_world
     = (invalid_body_reply, empty_world)
  /\ snd (Server.forecast services freq empty_world) =
     after_call empty_world
       (forecast_call 16.7 74.24 (VStr (str "auto"))).
Proof.
  intros req freq.
  assert (H : is_number (get_prop_opt (body_of req) (str "lat")) = false
              \/ is_number (get_prop_opt (body_of req) (str "lon")) = false)
    by (left; vm_compute; reflexivity).
  split; [exact H|].
  destruct (favorites_create_numeric_by_type services
              no_number_names req freq empty_world H) as [Hcreate Hfore].
  split; [exact Hcreate|].
  apply (Hfore 16.7%float 74.24%float); vm_compute; reflexivity.
Defined.

(** C10: the property on two saved favorites and the reply for a
    third. *)
Lemma saveFavorite_keeps_ids_distinct_witness :
  let p := [saved "b2" "Pune"; saved "a1" "Kolhapur"] in
  let data := saved "c3" "Delhi" in
  all_records p
  /\ distinct_ids p
  /\ Client.saveFavorite_setFavs data p = Some (data :: p)
  /\ distinct_ids (data :: p).
Proof.
  intros p data.
  assert (Hrec : all_records p)
    by (repeat constructor; vm_compute; discriminate).
  assert (Hdist : distinct_ids p)
    by (repeat constructor; vm_compute; reflexivity).
  split; [exact Hrec|]. split; [exact Hdist|].
  destruct (saveFavorite_keeps_ids_distinct data Hrec Hdist)
    as [p' [Hrun [Hdist' Hp']]].
  vm_compute in Hp'. subst p'.
  split; [exact Hrun | exact Hdist'].
Defined.

(** ** The further properties at work on the scenarios *)

(** X1 with the services out of reach. *)
Lemma geocode_upstream_failure_witness :
  let req := get_request [("q", "Kolhapur")] in
  let q := str "Kolhapur" in
  query_param req "q" = VStr q
  /\ trim q <> []
  /\ match services_down (geocode_call (trim q)) with
     | Some data => is_array data = false
     | None => True
     end
  /\ Server.geocode services_down req empty_world =
     (Ok geocoding_failed, after_call empty_world (geocode_call (trim q))).
Proof.
  intros req q.
  assert (Hq : query_param req "q" = VStr q) by (vm_compute; reflexivity).
  assert (Hne : trim q <> []) by (vm_compute; discriminate).
  assert (Hup : match services_down (geocode_call (trim q)) with
                | Some data => is_array data = false
                | None => True
                end) by exact I.
  split; [exact Hq|]. split; [exact Hne|]. split; [exact Hup|].
  exact (@geocode_upstream_failure services_down req q empty_world
           Hq Hne Hup).
Defined.

(** X2 with a [null] after Kolhapur in the answer. *)
Lemma geocode_bad_record_fails_all_witness :
  let req := get_request [("q", "Kolhapur")] in
  let q := str "Kolhapur" in
  query_param req "q" = VStr q
  /\ trim q <> []
  /\ services_null_record (geocode_call (trim q))
     = Some (VArr [kolhapur; VNull])
  /\ forallb convertible [kolhapur; VNull] = false
  /\ Server.geocode services_null_record req empty_world =
     (Ok geocoding_failed, after_call empty_world (geocode_call (trim q))).
Proof.
  intros req q.
  assert (Hq : query_param req "q" = VStr q) by (vm_compute; reflexivity).
  assert (Hne : trim q <> []) by (vm_compute; discriminate).
  assert (Hup : services_null_record (geocode_call (trim q))
                = Some (VArr [kolhapur; VNull])) by (vm_compute; reflexivity).
  assert (Hbad : forallb convertible [kolhapur; VNull] = false)
    by (vm_compute; reflexivity).
  split; [exact Hq|]. split; [exact Hne|]. split; [exact Hup|].
  split; [exact Hbad|].
  exact (@geocode_bad_record_fails_all services_null_record req q
           [kolhapur; VNull] empty_world Hq Hne Hup Hbad).
Defined.

(** X3 with [?q=a&q=b]. *)
Lemma geocode_repeated_parameter_witness :
  let req := {| req_query := [(str "q", VArr [VStr (str "a");
                                              VStr (str "b")])];
                req_body := VUndefined; req_params_id := [] |} in
  truthy (query_param req "q") = true
  /\ is_string (query_param req "q") = false
  /\ Server.geocode services req empty_world
     = (Ok geocoding_failed, empty_world).
Proof.
  intros req.
  assert (H1 : truthy (query_param req "q") = true)
    by (vm_compute; reflexivity).
  assert (H2 : is_string (query_param req "q") = false)
    by (vm_compute; reflexivity).
  split; [exact H1|]. split; [exact H2|].
  exact (@geocode_repeated_parameter services req empty_world H1 H2).
Defined.

(** X4 for Kolhapur's coordinates, no time zone named. *)
Lemma forecast_passes_data_through_witness :
  let req := get_request [("lat", "16.7"); ("lon", "74.24")] in
  ToNumber (query_param req "lat") = Some 16.7%float
  /\ ToNumber (query_param req "lon") = Some 74.24%float
  /\ isNaN 16.7 || isNaN 74.24 = false
  /\ services (forecast_call 16.7 74.24 (timezone_of req)) = Some two_days
  /\ Server.forecast services req empty_world =
     (replies_200_with two_days,
      after_call empty_world (forecast_call 16.7 74.24 (timezone_of req)))
  /\ asks_forecast_of (forecast_call 16.7 74.24 (timezone_of req))
       16.7 74.24 (VStr (str "auto")).
Proof.
  intros req.
  assert (Hlat : ToNumber (query_param req "lat") = Some 16.7%float)
    by (vm_compute; reflexivity).
  assert (Hlon : ToNumber (query_param req "lon") = Some 74.24%float)
    by (vm_compute; reflexivity).
  assert (Hnan : isNaN 16.7 || isNaN 74.24 = false)
    by (vm_compute; reflexivity).
  assert (Hup : services (forecast_call 16.7 74.24 (timezone_of req))
                = Some two_days) by (vm_compute; reflexivity).
  split; [exact Hlat|]. split; [exact Hlon|]. split; [exact Hnan|].
  split; [exact Hup|].
  exact (@forecast_passes_data_through services req empty_world
           16.7%float 74.24%float two_days Hlat Hlon Hnan Hup).
Defined.

(** X5 for a latitude of 91, which the forecast service turns down. *)
Lemma forecast_upstream_failure_witness :
  let req := get_request [("lat", "91"); ("lon", "0")] in
  ToNumber (query_param req "lat") = Some 91%float
  /\ ToNumber (query_param req "lon") = Some 0%float
  /\ isNaN 91 || isNaN 0 = false
  /\ services (forecast_call 91 0 (timezone_of req)) = None
  /\ Server.forecast services req empty_world =
     (Ok forecast_failed,
      after_call empty_world (forecast_call 91 0 (timezone_of req))).
Proof.
  intros req.
  assert (Hlat : ToNumber (query_param req "lat") = Some 91%float)
    by (vm_compute; reflexivity).
  assert (Hlon : ToNumber (query_param req "lon") = Some 0%float)
    by (vm_compute; reflexivity).
  assert (Hnan : isNaN 91 || isNaN 0 = false) by (vm_compute; reflexivity).
  assert (Hup : services (forecast_call 91 0 (timezone_of req)) = None)
    by (vm_compute; reflexivity).
  split; [exact Hlat|]. split; [exact Hlon|]. split; [exact Hnan|].
  split; [exact Hup|].
  exact (@forecast_upstream_failure services req empty_world
           91%float 0%float Hlat Hlon Hnan Hup).
Defined.

(** X6 for a request without a query. *)
Lemma searchWeather_missing_query_witness :
  let req := get_request [("tz", "Asia/Kolkata")] in
  (query_param req "q" = VUndefined
   \/ (exists q : jsstring,
         query_param req "q" = VStr q /\ forallb is_js_space q = true))
  /\ Server.searchWeather services req empty_world =
     (Ok (res_status_json 400 (error_object "q required")), empty_world).
Proof.
  intros req.
  assert (H : query_param req "q" = VUndefined
              \/ (exists q : jsstring,
                    query_param req "q" = VStr q
                    /\ forallb is_js_space q = true))
    by (left; vm_compute; reflexivity).
  split; [exact H|].
  exact (@searchWeather_missing_query services req empty_world H).
Defined.

(** X7 for a search of Kolhapur. *)
Lemma searchWeather_composes_witness :
  let req := get_request [("q", "Kolhapur")] in
  let q := str "Kolhapur" in
  let f := search_forecast_call 16.7028412 74.2405329 (VStr (str "auto")) in
  query_param req "q" = VStr q
  /\ trim q <> []
  /\ services (search_geocode_call (trim q)) = Some (VArr [kolhapur])
  /\ (Z.of_nat (List.length [kolhapur]) < 2 ^ 32)%Z
  /\ convertible kolhapur = true
  /\ Server.searchWeather services req empty_world =
     (replies_200_with (VObj [(str "place", place_of_record kolhapur);
                              (str "forecast", two_days)]),
      after_call (after_call empty_world (search_geocode_call (trim q))) f)
  /\ asks_forecast_of f 16.7028412 74.2405329 (VStr (str "auto")).
Proof.
  intros req q f.
  assert (Hq : query_param req "q" = VStr q) by (vm_compute; reflexivity).
  assert (Hne : trim q <> []) by (vm_compute; discriminate).
  assert (Hup : services (search_geocode_call (trim q))
                = Some (VArr [kolhapur])) by (vm_compute; reflexivity).
  assert (Hlen : (Z.of_nat (List.length [kolhapur]) < 2 ^ 32)%Z)
    by (vm_compute; reflexivity).
  assert (Hconv : convertible kolhapur = true) by (vm_compute; reflexivity).
  split; [exact Hq|]. split; [exact Hne|]. split; [exact Hup|].
  split; [exact Hlen|]. split; [exact Hconv|].
  destruct (@searchWeather_composes services req q kolhapur []
              empty_world Hq Hne Hup Hlen Hconv) as [H [Hasks _]].
  split; [rewrite H; vm_compute; reflexivity | exact Hasks].
Defined.

(** X8 with the services out of reach. *)
Lemma searchWeather_geocoding_failure_witness :
  let req := get_request [("q", "Kolhapur")] in
  let q := str "Kolhapur" in
  query_param req "q" = VStr q
  /\ trim q <> []
  /\ services_down (search_geocode_call (trim q)) = None
  /\ let '(reply, w') :=
       Server.searchWeather services_down req empty_world in
     reply = Ok search_failed
     /\ sent w' = sent empty_world ++ [search_geocode_call (trim q)]
     /\ forecast_calls (sent w') = forecast_calls (sent empty_world).
Proof.
  intros req q.
  assert (Hq : query_param req "q" = VStr q) by (vm_compute; reflexivity).
  assert (Hne : trim q <> []) by (vm_compute; discriminate).
  assert (Hup : services_down (search_geocode_call (trim q)) = None)
    by reflexivity.
  split; [exact Hq|]. split; [exact Hne|]. split; [exact Hup|].
  exact (@searchWeather_geocoding_failure services_down req q empty_world
           Hq Hne Hup).
Defined.

(** X10 on the collection of one document: Pune saved, saved again
    under another name, and Kolhapur deleted, one after the other. *)
Lemma favorites_writes_keep_unique_coords_witness :
  let writes :=
    [Create (create_request (VStr (str "Pune")) (VNum 18.52) (VNum 73.86));
     Create (create_request (VStr (str "Poona")) (VNum 18.52) (VNum 73.86));
     Delete (delete_request (str "65a1b2c3d4e5f60718293a4b"))] in
  let w' := handled_in_turn no_number_names cast_hex24 writes one_favorite in
  unique_coords (favorites one_favorite)
  /\ unique_coords (favorites w')
  /\ map fav_name (favorites w') = [str "Pune"].
Proof.
  intros writes w'.
  assert (H : unique_coords (favorites one_favorite))
    by (repeat constructor; vm_compute; reflexivity).
  split; [exact H|]. split; [|vm_compute; reflexivity].
  exact (@favorites_writes_keep_unique_coords no_number_names cast_hex24
           writes one_favorite H).
Defined.

(** X27 on the same collection: Pune saved twice at once is there
    twice. *)
Lemma favorites_create_overlapping_inserts_twice_witness :
  let req1 := create_request (VStr (str "Pune")) (VNum 18.52) (VNum 73.86) in
  let req2 := create_request (VStr (str "Poona")) (VNum 18.52) (VNum 73.86) in
  let w' := snd (overlapping_creates no_number_names req1 req2
                   one_favorite) in
  str "Pune" <> [] /\ str "Poona" <> []
  /\ find (Server.matches_coords 18.52 73.86) (favorites one_favorite)
     = None
  /\ map fav_name (favorites w')
     = [str "Kolhapur"; str "Pune"; str "Poona"]
  /\ ~ unique_coords (favorites w').
Proof.
  intros req1 req2 w'.
  assert (H1 : str "Pune" <> []) by (vm_compute; discriminate).
  assert (H2 : str "Poona" <> []) by (vm_compute; discriminate).
  assert (H3 : find (Server.matches_coords 18.52 73.86)
                 (favorites one_favorite) = None)
    by (vm_compute; reflexivity).
  split; [exact H1|]. split; [exact H2|]. split; [exact H3|].
  split; [vm_compute; reflexivity|].
  pose proof (@favorites_create_overlapping_inserts_twice no_number_names
                (str "Pune") (str "Poona") 18.52%float 73.86%float
                one_favorite H1 H2 H3) as H.
  cbv zeta in H. fold req1 req2 in H. unfold w'.
  destruct (overlapping_creates no_number_names req1 req2 one_favorite)
    as [replies w1].
  destruct H as [doc1 [doc2 H]]. cbn [snd]. apply H.
Defined.

(** X11 on the collection of two documents: Kolhapur goes, Pune
    stays. *)
Lemma favorites_delete_removes_exactly_witness :
  let req := delete_request (str "65a1b2c3d4e5f60718293a4b") in
  let oid := 0x65a1b2c3d4e5f60718293a4b%N in
  cast_hex24 (req_params_id req) = Some oid
  /\ NoDup (map fav_id (favorites two_favorites))
  /\ favorites (snd (Server.favorites_delete cast_hex24 req two_favorites))
     = [pune_doc].
Proof.
  intros req oid.
  assert (Hcast : cast_hex24 (req_params_id req) = Some oid)
    by (vm_compute; reflexivity).
  assert (Hnd : NoDup (map fav_id (favorites two_favorites))).
  { repeat constructor; vm_compute; intuition discriminate. }
  split; [exact Hcast|]. split; [exact Hnd|].
  rewrite (proj1 (@favorites_delete_removes_exactly cast_hex24 req oid
                    two_favorites Hcast Hnd)).
  vm_compute. reflexivity.
Defined.

(** X12 on the collection of one document: Pune is saved and deleted
    again. *)
Lemma favorites_create_then_delete_witness :
  let creq := create_request (VStr (str "Pune")) (VNum 18.52)
                (VNum 73.86) in
  let dreq := delete_request (str "65a1b2c3d4e5f60718293a4c") in
  creq = create_request (VStr (str "Pune")) (VNum 18.52) (VNum 73.86)
  /\ str "Pune" <> []
  /\ find (Server.matches_coords 18.52 73.86) (favorites one_favorite)
     = None
  /\ ids_below one_favorite
  /\ cast_hex24 (req_params_id dreq) = Some (next_oid one_favorite)
  /\ favorites
       (snd (Server.favorites_delete cast_hex24 dreq
               (snd (Server.favorites_create no_number_names creq
                       one_favorite))))
     = favorites one_favorite.
Proof.
  intros creq dreq.
  assert (H0 : creq = create_request (VStr (str "Pune")) (VNum 18.52)
                        (VNum 73.86)) by reflexivity.
  assert (H1 : str "Pune" <> []) by (vm_compute; discriminate).
  assert (H2 : find (Server.matches_coords 18.52 73.86)
                 (favorites one_favorite) = None)
    by (vm_compute; reflexivity).
  assert (H3 : ids_below one_favorite)
    by (repeat constructor; vm_compute; reflexivity).
  assert (H4 : cast_hex24 (req_params_id dreq) = Some (next_oid one_favorite))
    by (vm_compute; reflexivity).
  split; [exact H0|]. split; [exact H1|]. split; [exact H2|].
  split; [exact H3|]. split; [exact H4|].
  pose proof (@favorites_create_then_delete no_number_names cast_hex24
                creq dreq (str "Pune") 18.52%float 73.86%float
                one_favorite H0 H1 H2 H3 H4) as H.
  destruct (Server.favorites_create no_number_names creq one_favorite)
    as [reply w1].
  exact (proj2 H).
Defined.

(** X14 on the collection of one document: Pune, saved a second
    later, is listed before Kolhapur. *)
Lemma favorites_created_is_listed_first_witness :
  let req := get_request [] in
  str "Pune" <> []
  /\ find (Server.matches_coords 18.52 73.86) (favorites one_favorite)
     = None
  /\ Forall (fun f => (fav_createdAt f < now one_favorite)%N)
       (favorites one_favorite)
  /\ let '(reply, w1) :=
       Server.favorites_create no_number_names
         (create_request (VStr (str "Pune")) (VNum 18.52) (VNum 73.86))
         one_favorite in
     exists doc : Favorite,
       reply = record_reply doc
       /\ fst (Server.favorites_list req w1) =
          Ok (doc :: Server.sort_newest_first (favorites one_favorite)).
Proof.
  intros req.
  assert (H1 : str "Pune" <> []) by (vm_compute; discriminate).
  assert (H2 : find (Server.matches_coords 18.52 73.86)
                 (favorites one_favorite) = None)
    by (vm_compute; reflexivity).
  assert (H3 : Forall (fun f => (fav_createdAt f < now one_favorite)%N)
                 (favorites one_favorite))
    by (repeat constructor; vm_compute; reflexivity).
  split; [exact H1|]. split; [exact H2|]. split; [exact H3|].
  exact (@favorites_created_is_listed_first no_number_names req
           (str "Pune") 18.52%float 73.86%float one_favorite H1 H2 H3).
Defined.

(** X17 on the forecast of two days: the second day. *)
Lemma daily_transposes_witness :
  Client.daily two_days = Some [dry_day; wet_day]
  /\ nth_error [dry_day; wet_day] 1 = Some wet_day
  /\ List.length [dry_day; wet_day] = 2%nat
  /\ daily_column two_days "temperature_2m_max" 1
     = Some (Client.tmax wet_day)
  /\ Client.uv wet_day = VUndefined.
Proof.
  assert (Hdaily : Client.daily two_days = Some [dry_day; wet_day])
    by (vm_compute; reflexivity).
  assert (Hnth : nth_error [dry_day; wet_day] 1 = Some wet_day)
    by reflexivity.
  split; [exact Hdaily|]. split; [exact Hnth|].
  destruct (@daily_transposes two_days [dry_day; wet_day] 1 wet_day
              Hdaily Hnth) as [Hlen [_ [Hmax _]]].
  split; [reflexivity|]. split; [exact Hmax | reflexivity].
Defined.

(** X18 on the forecast of two days, which has neither UV nor wind. *)
Lemma daily_returns_witness :
  let times := [VStr (str "2026-11-02"); VStr (str "2026-11-03")] in
  get_prop_opt (get_prop_opt two_days (str "daily")) (str "time")
    = VArr times
  /\ has_column two_days "temperature_2m_max" = true
  /\ has_column two_days "temperature_2m_min" = true
  /\ has_column two_days "precipitation_sum" = true
  /\ has_column two_days "uv_index_max" = false
  /\ exists days : list Client.Day,
       Client.daily two_days = Some days
       /\ List.length days = List.length times.
Proof.
  intros times.
  assert (H0 : get_prop_opt (get_prop_opt two_days (str "daily"))
                 (str "time") = VArr times) by (vm_compute; reflexivity).
  assert (H1 : has_column two_days "temperature_2m_max" = true)
    by (vm_compute; reflexivity).
  assert (H2 : has_column two_days "temperature_2m_min" = true)
    by (vm_compute; reflexivity).
  assert (H3 : has_column two_days "precipitation_sum" = true)
    by (vm_compute; reflexivity).
  split; [exact H0|]. split; [exact H1|]. split; [exact H2|].
  split; [exact H3|]. split; [vm_compute; reflexivity|].
  exact (@daily_returns two_days times H0 H1 H2 H3).
Defined.

(** X19 on a forecast that has the dates and nothing else. *)
Lemma daily_missing_column_witness :
  let dates_only :=
    VObj [(str "daily",
           VObj [(str "time", VArr [VStr (str "2026-11-02")])])] in
  get_prop_opt (get_prop_opt dates_only (str "daily")) (str "time")
    = VArr [VStr (str "2026-11-02")]
  /\ has_column dates_only "temperature_2m_max"
     && has_column dates_only "temperature_2m_min"
     && has_column dates_only "precipitation_sum" = false
  /\ Client.daily dates_only = None.
Proof.
  intros dates_only.
  assert (H0 : get_prop_opt (get_prop_opt dates_only (str "daily"))
                 (str "time") = VArr [VStr (str "2026-11-02")])
    by (vm_compute; reflexivity).
  assert (H1 : has_column dates_only "temperature_2m_max"
               && has_column dates_only "temperature_2m_min"
               && has_column dates_only "precipitation_sum" = false)
    by (vm_compute; reflexivity).
  split; [exact H0|]. split; [exact H1|].
  exact (@daily_missing_column dates_only (VStr (str "2026-11-02")) []
           H0 H1).
Defined.

(** X20 on the wet day, whose bar is full, and on the dry one. *)
Lemma bar_height_at_most_100_witness :
  Client.bar_height wet_day = Some 100%float
  /\ isNaN 100 = false
  /\ (100 <=? 100)%float = true
  /\ Client.bar_height dry_day = Some 7%float.
Proof.
  assert (H1 : Client.bar_height wet_day = Some 100%float)
    by (vm_compute; reflexivity).
  assert (H2 : isNaN 100 = false) by (vm_compute; reflexivity).
  split; [exact H1|]. split; [exact H2|].
  split; [|vm_compute; reflexivity].
  exact (@bar_height_at_most_100 wet_day 100%float H1 H2).
Defined.

(** X21 for a click on the map near Kolhapur. *)
Lemma fetchForecast_outcome_witness :
  let st' := Client.fetchForecast api kolkata unread_string type_error
               uri_error clicked Client.initial_state in
  truthy clicked = true
  /\ Client.loading st' = false
  /\ Client.selected st' = clicked
  /\ Client.forecast st' = two_days
  /\ Client.error st' = [].
Proof.
  intros st'.
  assert (H : truthy clicked = true) by reflexivity.
  split; [exact H|].
  destruct (@fetchForecast_outcome api kolkata unread_string type_error
              uri_error clicked Client.initial_state H)
    as [Hloading _].
  split; [exact Hloading|]. vm_compute. repeat split.
Defined.

(** X22 for a search of Kolhapur. *)
Lemma runSearch_outcome_witness :
  let st := typed " Kolhapur " in
  let st' := Client.runSearch api kolkata unread_string type_error
               uri_error st in
  trim (Client.query st) <> []
  /\ Client.loading st' = false
  /\ Client.selected st' = place_of_record kolhapur
  /\ Client.forecast st' = two_days
  /\ Client.error st' = [].
Proof.
  intros st st'.
  assert (H : trim (Client.query st) <> []) by (vm_compute; discriminate).
  split; [exact H|].
  destruct (@runSearch_outcome api kolkata unread_string type_error
              uri_error st H) as [Hloading _].
  split; [exact Hloading|]. vm_compute. repeat split.
Defined.

(** X23 for a search of a place that the place search does not know. *)
Lemma runSearch_shows_server_error_witness :
  let st := typed "ZZZNotAPlaceZZZ" in
  let q := trim (Client.query st) in
  let reply := res_status_json 404 (error_object "Place not found") in
  let st' := Client.runSearch api kolkata unread_string type_error
               uri_error st in
  q <> []
  /\ Client.well_formed q && Client.well_formed kolkata = true
  /\ fst (Server.searchWeather services (search_request q kolkata)
            empty_world) = Ok reply
  /\ status reply <> 200%N
  /\ payload reply = BJson (error_object "Place not found")
  /\ api (Client.GetSearchWeather q kolkata)
     = Client.Resolved (error_object "Place not found")
  /\ Client.error st' = str "Place not found"
  /\ Client.forecast st' = VNull.
Proof.
  intros st q reply st'.
  assert (H1 : q <> []) by (vm_compute; discriminate).
  assert (H2 : Client.well_formed q && Client.well_formed kolkata = true)
    by (vm_compute; reflexivity).
  assert (H3 : fst (Server.searchWeather services (search_request q kolkata)
                      empty_world) = Ok reply) by (vm_compute; reflexivity).
  assert (H4 : status reply <> 200%N) by (vm_compute; discriminate).
  assert (H5 : payload reply = BJson (error_object "Place not found"))
    by reflexivity.
  assert (H6 : api (Client.GetSearchWeather q kolkata)
               = Client.Resolved (error_object "Place not found"))
    by (vm_compute; reflexivity).
  split; [exact H1|]. split; [exact H2|]. split; [exact H3|].
  split; [exact H4|]. split; [exact H5|]. split; [exact H6|].
  destruct (@runSearch_shows_server_error api kolkata unread_string
              type_error uri_error services empty_world reply
              (error_object "Place not found") st H1 H2 H3 H4 H5 H6)
    as [Herr [_ [_ [_ Hforecast]]]].
  split; [|exact Hforecast].
  vm_compute. reflexivity.
Defined.

(** X24 for a query of two spaces. *)
Lemma blank_query_asks_nothing_witness :
  let st := typed "  " in
  forallb is_js_space (Client.query st) = true
  /\ Client.runSearch api kolkata unread_string type_error uri_error st
     = st
  /\ Client.suggest api st = Client.setSuggestions (VArr []) st.
Proof.
  intros st.
  assert (H : forallb is_js_space (Client.query st) = true)
    by (vm_compute; reflexivity).
  split; [exact H|].
  exact (@blank_query_asks_nothing api kolkata unread_string type_error
           uri_error st H).
Defined.

(** X25 for a third favorite saved twice. *)
Lemma saveFavorite_twice_adds_once_witness :
  let p := [saved "b2" "Pune"; saved "a1" "Kolhapur"] in
  let data := saved "c3" "Delhi" in
  all_records p
  /\ id_of data = VStr (str "c3")
  /\ exists p1 : list value,
       Client.saveFavorite_setFavs data p = Some p1
       /\ Client.saveFavorite_setFavs data p1 = Some p1.
Proof.
  intros p data.
  assert (Hrec : all_records p)
    by (repeat constructor; vm_compute; discriminate).
  assert (Hid : id_of data = VStr (str "c3")) by (vm_compute; reflexivity).
  split; [exact Hrec|]. split; [exact Hid|].
  exact (@saveFavorite_twice_adds_once data (str "c3") p Hrec Hid).
Defined.

(** X26 for a place without a name, which the server turns down. *)
Lemma saveFavorite_turned_down_witness :
  let nameless := VObj [(str "lat", VNum 16.7); (str "lon", VNum 74.24)] in
  let st := {| Client.query := []; Client.suggestions := VArr [];
               Client.selected := nameless; Client.forecast := VNull;
               Client.loading := false; Client.error := [];
               Client.favs := VArr [] |} in
  let req := {| req_query := []; req_body := nameless;
                req_params_id := [] |} in
  let reply :=
    res_status_json 400 (error_object "name, lat, lon required") in
  fst (Server.favorites_create no_number_names req empty_world) = Ok reply
  /\ status reply <> 200%N
  /\ payload reply = BJson (error_object "name, lat, lon required")
  /\ api (Client.PostFavorite (Client.selected st))
     = Client.Resolved (error_object "name, lat, lon required")
  /\ Client.saveFavorite api st = Some st.
Proof.
  intros nameless st req reply.
  assert (H1 : fst (Server.favorites_create no_number_names req empty_world)
               = Ok reply) by (vm_compute; reflexivity).
  assert (H2 : status reply <> 200%N) by (vm_compute; discriminate).
  assert (H3 : payload reply
               = BJson (error_object "name, lat, lon required"))
    by reflexivity.
  assert (H4 : api (Client.PostFavorite (Client.selected st))
               = Client.Resolved (error_object "name, lat, lon required"))
    by reflexivity.
  split; [exact H1|]. split; [exact H2|]. split; [exact H3|].
  split; [exact H4|].
  exact (@saveFavorite_turned_down api no_number_names req empty_world
           reply (error_object "name, lat, lon required") st H1 H2 H3 H4).
Defined.
